(** * Authentication and account-security core of the task-management API

    A shallow embedding of
      - [backend/app/core/config.py]      (the settings the core consumes),
      - [backend/app/core/validators.py]  (password policy),
      - [backend/app/core/security.py]    (credential hasher, token service),
      - [backend/app/services/auth.py]    (authentication orchestrator),
      - [backend/app/api/v1/auth.py]      (the [register] endpoint),
    followed by the properties of the specification that concern them.

    Conventions.
      - A Python [str] is a Rocq [string]; every [ascii] is read as the code
        point of the same number, so the strings covered are those whose
        code points lie below 256.  On that range [len], [str.strip],
        [str.lower], [int] and the regular-expression classes used by the
        code are modelled exactly.
      - A Python [int] is a [Z].
      - A timezone-aware [datetime] is a [Z]: microseconds since the epoch.
        A [timedelta] is a [Z] number of microseconds.  The database is
        taken to hand back a stored timestamp as the same instant.
      - A Python exception is a constructor of [exn]; a call that may raise
        returns a [result]. *)

From Stdlib Require Import ZArith Lia Bool List Ascii String DecimalString.
From Stdlib Require Decimal DecimalPos.
From stdpp Require Import base option gmap strings.

Local Open Scope string_scope.
Local Open Scope Z_scope.

(** ** Python strings *)

Module PyStr.

Definition code (c : ascii) : Z := Z.of_nat (nat_of_ascii c).

Fixpoint len (s : string) : Z :=
  match s with
  | EmptyString => 0
  | String _ r => 1 + len r
  end.

(** [re.search] of a one-character class: some character is in the class. *)
Fixpoint search (cls : ascii -> bool) (s : string) : bool :=
  match s with
  | EmptyString => false
  | String c r => cls c || search cls r
  end.

Definition in_range (lo hi : Z) (c : ascii) : bool :=
  (lo <=? code c) && (code c <=? hi).

(** [[A-Z]], [[a-z]] and [\d].  Below code point 256 the only decimal
    digits (Unicode category Nd) are the ASCII ones. *)
Definition is_upper_AZ : ascii -> bool := in_range 65 90.
Definition is_lower_az : ascii -> bool := in_range 97 122.
Definition is_digit : ascii -> bool := in_range 48 57.

(** [str.isspace] on one character, below code point 256. *)
Definition is_space (c : ascii) : bool :=
  in_range 9 13 c || in_range 28 32 c || (code c =? 133) || (code c =? 160).

Fixpoint lstrip (s : string) : string :=
  match s with
  | EmptyString => EmptyString
  | String c r => if is_space c then lstrip r else s
  end.

Fixpoint rstrip (s : string) : string :=
  match s with
  | EmptyString => EmptyString
  | String c r =>
      match rstrip r with
      | EmptyString => if is_space c then EmptyString else String c EmptyString
      | String d r' => String c (String d r')
      end
  end.

(** [s.strip()] *)
Definition strip (s : string) : string := rstrip (lstrip s).

(** [str.lower] on one character: A-Z, and the Latin-1 capitals
    U+00C0..U+00DE without the multiplication sign U+00D7. *)
Definition lower_char (c : ascii) : ascii :=
  if in_range 65 90 c || in_range 192 214 c || in_range 216 222 c
  then ascii_of_nat (nat_of_ascii c + 32)
  else c.

(** [s.lower()] *)
Fixpoint lower (s : string) : string :=
  match s with
  | EmptyString => EmptyString
  | String c r => String (lower_char c) (lower r)
  end.

(** [str(n)] for an integer. *)
Definition str (n : Z) : string := NilZero.string_of_int (Z.to_int n).

(** The digits of [int(s)]: decimal digits, single underscores allowed
    between two digits.  [acc] is the value read so far, [after_digit]
    tells whether the previous character was a digit. *)
Fixpoint digits (s : string) (acc : Z) (after_digit : bool) : option Z :=
  match s with
  | EmptyString => if after_digit then Some acc else None
  | String c r =>
      if is_digit c then digits r (10 * acc + (code c - 48)) true
      else if (code c =? 95) && after_digit then
        match r with
        | String d _ => if is_digit d then digits r acc false else None
        | EmptyString => None
        end
      else None
  end.

(** The whitespace [int] drops around a literal: narrower than
    [str.isspace], the separators U+001C..U+001F are not part of it. *)
Definition is_int_space (c : ascii) : bool :=
  in_range 9 13 c || (code c =? 32) || (code c =? 133) || (code c =? 160).

Fixpoint int_lstrip (s : string) : string :=
  match s with
  | EmptyString => EmptyString
  | String c r => if is_int_space c then int_lstrip r else s
  end.

Fixpoint int_rstrip (s : string) : string :=
  match s with
  | EmptyString => EmptyString
  | String c r =>
      match int_rstrip r with
      | EmptyString => if is_int_space c then EmptyString else String c EmptyString
      | String d r' => String c (String d r')
      end
  end.

(** [int(s)] in base 10: surrounding whitespace is dropped, one sign is
    allowed; [None] stands for [ValueError]. *)
Definition int (s : string) : option Z :=
  match int_rstrip (int_lstrip s) with
  | String "+" r => digits r 0 false
  | String "-" r => option_map Z.opp (digits r 0 false)
  | r => digits r 0 false
  end.

End PyStr.

(** ** Exceptions and results *)

Inductive exn : Type :=
| ValueError (msg : string)          (* builtin *)
| UnknownHashError                   (* passlib.exc, a ValueError *)
| JWTError                           (* jose.exceptions *)
| ExpiredSignatureError              (* jose.exceptions, a JWTError *)
| JWTClaimsError                     (* jose.exceptions, a JWTError *)
| JWSError                           (* jose.exceptions *)
| TypeError                          (* builtin *)
| IntegrityError                     (* sqlalchemy.exc *)
| MultipleResultsFound.              (* sqlalchemy.exc *)

Inductive result (A : Type) : Type :=
| Ret (a : A)
| Raise (e : exn).
Arguments Ret {A} a.
Arguments Raise {A} e.

(** [except jwt.JWTError]: the class and its two subclasses. *)
Definition is_JWTError (e : exn) : bool :=
  match e with
  | JWTError | ExpiredSignatureError | JWTClaimsError => true
  | _ => false
  end.

(** ** Settings ([core/config.py]) *)

Record Settings : Type := {
  SECRET_KEY : string;
  ALGORITHM : string;
  ACCESS_TOKEN_EXPIRE_MINUTES : Z;
  REFRESH_TOKEN_EXPIRE_DAYS : Z;
  PASSWORD_MIN_LENGTH : Z;
  PASSWORD_REQUIRE_UPPERCASE : bool;
  PASSWORD_REQUIRE_LOWERCASE : bool;
  PASSWORD_REQUIRE_DIGITS : bool;
  PASSWORD_REQUIRE_SPECIAL : bool;
  EMAIL_VERIFICATION_EXPIRE_HOURS : Z;
  PASSWORD_RESET_EXPIRE_HOURS : Z
}.

(** The defaults of the class body. *)
Definition default_settings : Settings := {|
  SECRET_KEY := "secret-key-change-in-production-MUST-BE-64-CHARS-MINIMUM-PLEASE-CHANGE";
  ALGORITHM := "HS256";
  ACCESS_TOKEN_EXPIRE_MINUTES := 60;
  REFRESH_TOKEN_EXPIRE_DAYS := 30;
  PASSWORD_MIN_LENGTH := 8;
  PASSWORD_REQUIRE_UPPERCASE := true;
  PASSWORD_REQUIRE_LOWERCASE := true;
  PASSWORD_REQUIRE_DIGITS := true;
  PASSWORD_REQUIRE_SPECIAL := true;
  EMAIL_VERIFICATION_EXPIRE_HOURS := 24;
  PASSWORD_RESET_EXPIRE_HOURS := 1
|}.

(** ** Password policy ([core/validators.py]) *)

Module Validators.

(** The double quote, written by its code. *)
Definition dquote : string := String "034"%char EmptyString.

(** The characters of the class in the last rule: the punctuation signs
    below, with the double quote between the question mark and the colon. *)
Definition special_chars : string := "!@#$%^&*(),.?" +:+ dquote +:+ ":{}|<>".

Fixpoint mem_char (c : ascii) (s : string) : bool :=
  match s with
  | EmptyString => false
  | String d r => Ascii.eqb c d || mem_char c r
  end.

Definition is_special (c : ascii) : bool := mem_char c special_chars.

Definition msg_length (st : Settings) : string :=
  "Password must be at least " +:+ PyStr.str (PASSWORD_MIN_LENGTH st) +:+ " characters long".
Definition msg_uppercase : string := "Password must contain at least one uppercase letter".
Definition msg_lowercase : string := "Password must contain at least one lowercase letter".
Definition msg_digit : string := "Password must contain at least one digit".
Definition msg_special : string :=
  "Password must contain at least one special character (" +:+ special_chars +:+ ")".

Definition validate_password_strength (st : Settings) (password : string) : bool * string :=
  if PyStr.len password <? PASSWORD_MIN_LENGTH st then
    (false, msg_length st)
  else if PASSWORD_REQUIRE_UPPERCASE st && negb (PyStr.search PyStr.is_upper_AZ password) then
    (false, msg_uppercase)
  else if PASSWORD_REQUIRE_LOWERCASE st && negb (PyStr.search PyStr.is_lower_az password) then
    (false, msg_lowercase)
  else if PASSWORD_REQUIRE_DIGITS st && negb (PyStr.search PyStr.is_digit password) then
    (false, msg_digit)
  else if PASSWORD_REQUIRE_SPECIAL st && negb (PyStr.search is_special password) then
    (false, msg_special)
  else
    (true, "").

Definition is_strong_password (st : Settings) (password : string) : result bool :=
  let '(is_valid, error_message) := validate_password_strength st password in
  if negb is_valid then Raise (ValueError error_message) else Ret true.

(** *** The policy as the specification words it

    Five rules in a fixed order; the length rule is always enabled, each of
    the others is enabled by its configuration toggle. *)

Inductive Rule : Type := RLength | RUppercase | RLowercase | RDigit | RSpecial.

Definition rule_order : list Rule := [RLength; RUppercase; RLowercase; RDigit; RSpecial].

Definition rule_rank (r : Rule) : nat :=
  match r with
  | RLength => 0 | RUppercase => 1 | RLowercase => 2 | RDigit => 3 | RSpecial => 4
  end.

Definition enabled (st : Settings) (r : Rule) : bool :=
  match r with
  | RLength => true
  | RUppercase => PASSWORD_REQUIRE_UPPERCASE st
  | RLowercase => PASSWORD_REQUIRE_LOWERCASE st
  | RDigit => PASSWORD_REQUIRE_DIGITS st
  | RSpecial => PASSWORD_REQUIRE_SPECIAL st
  end.

Definition satisfies (st : Settings) (r : Rule) (password : string) : bool :=
  match r with
  | RLength => PASSWORD_MIN_LENGTH st <=? PyStr.len password
  | RUppercase => PyStr.search PyStr.is_upper_AZ password
  | RLowercase => PyStr.search PyStr.is_lower_az password
  | RDigit => PyStr.search PyStr.is_digit password
  | RSpecial => PyStr.search is_special password
  end.

(** The password fails rule [r], and [r] is enabled. *)
Definition violates (st : Settings) (password : string) (r : Rule) : bool :=
  enabled st r && negb (satisfies st r password).

Definition first_violated (st : Settings) (password : string) : option Rule :=
  List.find (violates st password) rule_order.

Definition reason (st : Settings) (r : Rule) : string :=
  match r with
  | RLength => msg_length st
  | RUppercase => msg_uppercase
  | RLowercase => msg_lowercase
  | RDigit => msg_digit
  | RSpecial => msg_special
  end.

End Validators.

(** ** The user table ([models/user.py])

    The columns [created_at] and [updated_at] are assigned by the database
    server and never read or written by the code embedded here; they are
    left out of the record. *)

Record User : Type := {
  id : Z;
  email : string;
  username : string;
  hashed_password : string;
  is_verified : bool;
  is_active : bool;
  failed_login_attempts : Z;
  last_failed_login : option Z;
  account_locked_until : option Z
}.

Definition set_failed_login_attempts (n : Z) (u : User) : User :=
  {| id := id u; email := email u; username := username u;
     hashed_password := hashed_password u; is_verified := is_verified u;
     is_active := is_active u; failed_login_attempts := n;
     last_failed_login := last_failed_login u;
     account_locked_until := account_locked_until u |}.

Definition set_last_failed_login (t : option Z) (u : User) : User :=
  {| id := id u; email := email u; username := username u;
     hashed_password := hashed_password u; is_verified := is_verified u;
     is_active := is_active u; failed_login_attempts := failed_login_attempts u;
     last_failed_login := t;
     account_locked_until := account_locked_until u |}.

Definition set_account_locked_until (t : option Z) (u : User) : User :=
  {| id := id u; email := email u; username := username u;
     hashed_password := hashed_password u; is_verified := is_verified u;
     is_active := is_active u; failed_login_attempts := failed_login_attempts u;
     last_failed_login := last_failed_login u;
     account_locked_until := t |}.

Definition set_hashed_password (h : string) (u : User) : User :=
  {| id := id u; email := email u; username := username u;
     hashed_password := h; is_verified := is_verified u;
     is_active := is_active u; failed_login_attempts := failed_login_attempts u;
     last_failed_login := last_failed_login u;
     account_locked_until := account_locked_until u |}.

Definition set_is_verified (b : bool) (u : User) : User :=
  {| id := id u; email := email u; username := username u;
     hashed_password := hashed_password u; is_verified := b;
     is_active := is_active u; failed_login_attempts := failed_login_attempts u;
     last_failed_login := last_failed_login u;
     account_locked_until := account_locked_until u |}.

(** ** The world a request runs in

    The committed rows of the [users] table with the next primary key, and
    three counters that record what a call consumed: readings of the wall
    clock, salts drawn by the hasher, and invocations of the hash check. *)

Record Mail : Type := { mail_to : string; mail_username : string }.

Record World : Type := {
  rows : list User;
  next_id : Z;
  clock_reads : nat;
  salts_drawn : nat;
  hash_checks : nat;
  outbox : list Mail
}.

Definition with_rows (l : list User) (w : World) : World :=
  {| rows := l; next_id := next_id w; clock_reads := clock_reads w;
     salts_drawn := salts_drawn w; hash_checks := hash_checks w; outbox := outbox w |}.

(** ** State and exception monad *)

Definition M (A : Type) : Type := World -> result A * World.

Definition ret {A} (a : A) : M A := fun w => (Ret a, w).
Definition raise {A} (e : exn) : M A := fun w => (Raise e, w).
Definition bind {A B} (m : M A) (k : A -> M B) : M B :=
  fun w => match m w with
           | (Ret a, w') => k a w'
           | (Raise e, w') => (Raise e, w')
           end.
Definition lift {A} (r : result A) : M A := fun w => (r, w).

Declare Scope py_scope.
Delimit Scope py_scope with py.
Notation "x <- m ;; k" := (bind m (fun x => k))
  (at level 100, m at next level, right associativity) : py_scope.
Notation "m ;;; k" := (bind m (fun _ => k))
  (at level 100, right associativity) : py_scope.
Local Open Scope py_scope.

(** ** Persistence ([Session] as the services use it) *)

Module Db.

(** [.scalar_one_or_none()] *)
Definition scalar_one_or_none (l : list User) : result (option User) :=
  match l with
  | [] => Ret None
  | [u] => Ret (Some u)
  | _ => Raise MultipleResultsFound
  end.

(** [db.execute(select(User).where(User.email == e)).scalar_one_or_none()] *)
Definition select_by_email (e : string) : M (option User) :=
  fun w => (scalar_one_or_none (List.filter (fun u => String.eqb (email u) e) (rows w)), w).

(** [db.execute(select(User).where(User.id == n)).scalar_one_or_none()] *)
Definition select_by_id (n : Z) : M (option User) :=
  fun w => (scalar_one_or_none (List.filter (fun u => id u =? n) (rows w)), w).

(** [db.commit()] after attributes of the loaded [user] were assigned:
    the row with its primary key is rewritten. *)
Definition write (user : User) (l : list User) : list User :=
  List.map (fun u => if id u =? id user then user else u) l.

Definition commit (user : User) : M unit :=
  fun w => (Ret tt, with_rows (write user (rows w)) w).

(** [db.add(user); db.commit(); db.refresh(user)] for a new object: the
    unique index on [email] rejects a duplicate with [IntegrityError];
    otherwise the row is stored under the next primary key, with the
    column defaults for the lockout fields. *)
Definition add_commit_refresh (e un h : string) (verified active : bool) : M User :=
  fun w =>
    if List.existsb (fun u => String.eqb (email u) e) (rows w) then
      (Raise IntegrityError, w)
    else
      let user := {| id := next_id w; email := e; username := un;
                     hashed_password := h; is_verified := verified;
                     is_active := active; failed_login_attempts := 0;
                     last_failed_login := None; account_locked_until := None |} in
      (Ret user,
       {| rows := rows w ++ [user]; next_id := next_id w + 1;
          clock_reads := clock_reads w; salts_drawn := salts_drawn w;
          hash_checks := hash_checks w; outbox := outbox w |}).

End Db.

(** ** The JWT library (python-jose), as the token service uses it

    The library is not part of the repository; what follows is a symbolic
    model of the behaviour of [jwt.encode] and [jwt.decode] that the code
    relies on.  A wire string is either not a well-formed signed object, or
    it is one: a header algorithm, the key that produced its signature, and
    a JSON object as payload.  A signature verifies exactly under the key
    that produced it.  Only the HMAC family is modelled, and claim values
    are JSON strings, integers and booleans. *)

Module Jose.

(** Values in the dictionary handed to [jwt.encode]. *)
Inductive pyval : Type :=
| PStr (s : string)
| PInt (n : Z)
| PBool (b : bool)
| PDatetime (t : Z).

(** Values of a decoded payload. *)
Inductive jvalue : Type :=
| JStr (s : string)
| JInt (n : Z)
| JBool (b : bool).

#[global] Instance jvalue_eq_dec : EqDecision jvalue.
Proof. solve_decision. Defined.

Inductive token : Type :=
| Garbage (s : string)
| Signed (alg key : string) (payload : gmap string jvalue).

Definition supported : list string := ["HS256"; "HS384"; "HS512"].

Definition mem (s : string) (l : list string) : bool :=
  List.existsb (String.eqb s) l.

(** [timegm(d.utctimetuple())]: whole seconds, the microseconds dropped. *)
Definition timegm (d : Z) : Z := d / 1000000.

Definition is_time_claim (k : string) : bool := mem k ["exp"; "iat"; "nbf"].

(** One entry on its way into the payload: a [datetime] under [exp],
    [iat] or [nbf] becomes its integer date; anywhere else it cannot be
    serialised. *)
Definition to_json (k : string) (v : pyval) : option jvalue :=
  match v with
  | PStr s => Some (JStr s)
  | PInt n => Some (JInt n)
  | PBool b => Some (JBool b)
  | PDatetime t => if is_time_claim k then Some (JInt (timegm t)) else None
  end.

Definition serialisable (claims : gmap string pyval) : bool :=
  bool_decide (map_Forall (fun k v => is_Some (to_json k v)) claims).

Definition payload_of (claims : gmap string pyval) : gmap string jvalue :=
  map_imap to_json claims.

(** [jwt.encode(claims, key, algorithm=alg)] *)
Definition encode (claims : gmap string pyval) (key alg : string) : result token :=
  if negb (mem alg supported) then Raise JWSError
  else if negb (serialisable claims) then Raise TypeError
  else Ret (Signed alg key (payload_of claims)).

(** [int(v)] inside a claim check; [None] is the [ValueError] the library
    turns into [JWTClaimsError]. *)
Definition int_of (v : jvalue) : option Z :=
  match v with
  | JInt n => Some n
  | JBool b => Some (if b then 1 else 0)
  | JStr s => PyStr.int s
  end.

Definition is_str (v : jvalue) : bool :=
  match v with JStr _ => true | _ => false end.

(** The checks of registered claims, in the library's order, with no
    audience, issuer, subject or access token given by the caller and the
    default options (no leeway, no required claim).  [now] is the current
    time in whole seconds. *)
Definition validate_iat (c : gmap string jvalue) : result unit :=
  match c !! "iat" with
  | None => Ret tt
  | Some v => match int_of v with Some _ => Ret tt | None => Raise JWTClaimsError end
  end.

Definition validate_nbf (c : gmap string jvalue) (now : Z) : result unit :=
  match c !! "nbf" with
  | None => Ret tt
  | Some v =>
      match int_of v with
      | None => Raise JWTClaimsError
      | Some nbf => if now <? nbf then Raise JWTClaimsError else Ret tt
      end
  end.

Definition validate_exp (c : gmap string jvalue) (now : Z) : result unit :=
  match c !! "exp" with
  | None => Ret tt
  | Some v =>
      match int_of v with
      | None => Raise JWTClaimsError
      | Some exp => if exp <? now then Raise ExpiredSignatureError else Ret tt
      end
  end.

Definition validate_aud (c : gmap string jvalue) : result unit :=
  match c !! "aud" with
  | None => Ret tt
  | Some _ => Raise JWTClaimsError
  end.

Definition validate_sub (c : gmap string jvalue) : result unit :=
  match c !! "sub" with
  | None => Ret tt
  | Some v => if is_str v then Ret tt else Raise JWTClaimsError
  end.

Definition validate_jti (c : gmap string jvalue) : result unit :=
  match c !! "jti" with
  | None => Ret tt
  | Some v => if is_str v then Ret tt else Raise JWTClaimsError
  end.

Definition validate_at_hash (c : gmap string jvalue) : result unit :=
  match c !! "at_hash" with
  | None => Ret tt
  | Some _ => Raise JWTClaimsError
  end.

Definition and_then (r : result unit) (k : result unit) : result unit :=
  match r with
  | Ret _ => k
  | Raise e => Raise e
  end.

Definition validate_claims (c : gmap string jvalue) (now : Z) : result unit :=
  and_then (validate_iat c)
 (and_then (validate_nbf c now)
 (and_then (validate_exp c now)
 (and_then (validate_aud c)
 (and_then (validate_sub c)
 (and_then (validate_jti c)
           (validate_at_hash c)))))).

(** [jwt.decode(token, key, algorithms=algs)] at time [now] (seconds). *)
Definition decode (t : token) (key : string) (algs : list string) (now : Z)
  : result (gmap string jvalue) :=
  match t with
  | Garbage _ => Raise JWTError
  | Signed alg k payload =>
      if negb (mem alg algs) then Raise JWTError
      else if negb (mem alg supported && String.eqb k key) then Raise JWTError
      else match validate_claims payload now with
           | Ret _ => Ret payload
           | Raise e => Raise e
           end
  end.

End Jose.

(** ** The password hashing library (passlib), as the hasher uses it

    [CryptContext(schemes=["bcrypt"], deprecated="auto")].  [verify] first
    identifies the digest by the bcrypt prefixes and raises
    [UnknownHashError] when none fits; an identified digest goes to the
    bcrypt handler, which is a parameter: it may itself raise on a digest
    it cannot parse.  [hash] draws a fresh salt. *)

Module Passlib.

Definition bcrypt_idents : list string := ["$2$"; "$2a$"; "$2x$"; "$2y$"; "$2b$"].

Fixpoint startswith (s p : string) : bool :=
  match p, s with
  | EmptyString, _ => true
  | String a p', String b s' => Ascii.eqb a b && startswith s' p'
  | String _ _, EmptyString => false
  end.

Definition identify (h : string) : bool :=
  List.existsb (startswith h) bcrypt_idents.

Section Context.
Variable bcrypt_verify : string -> string -> result bool.

(** [pwd_context.verify(secret, hash)] *)
Definition verify (secret h : string) : result bool :=
  if identify h then bcrypt_verify secret h else Raise UnknownHashError.
End Context.

(** What [pwd_context.hash(secret)] refuses.  [validate_secret] raises
    [PasswordSizeError] for a secret of more than 4096 characters, before
    a salt is made; the bcrypt handler raises [NullPasswordError] for a
    secret with a NUL character, after it has made the salt.  Both are
    [ValueError]s; the strings are what [str(e)] gives. *)
Definition MAX_PASSWORD_SIZE : Z := 4096.
Definition msg_size : string := "password exceeds maximum allowed size".
Definition msg_null : string := "bcrypt does not allow NULL bytes in password".

Definition too_long (secret : string) : bool := MAX_PASSWORD_SIZE <? PyStr.len secret.
Definition has_null (secret : string) : bool :=
  PyStr.search (fun c => PyStr.code c =? 0) secret.

(** The secrets [hash] makes a digest of, and what it says of the
    others. *)
Definition hashable (secret : string) : bool :=
  negb (too_long secret) && negb (has_null secret).

Definition refusal (secret : string) : string :=
  if too_long secret then msg_size else msg_null.

End Passlib.

(** ** World updates used by the primitives *)

Definition tick_clock (w : World) : World :=
  {| rows := rows w; next_id := next_id w; clock_reads := S (clock_reads w);
     salts_drawn := salts_drawn w; hash_checks := hash_checks w; outbox := outbox w |}.

Definition draw_salt (w : World) : World :=
  {| rows := rows w; next_id := next_id w; clock_reads := clock_reads w;
     salts_drawn := S (salts_drawn w); hash_checks := hash_checks w; outbox := outbox w |}.

Definition count_hash_check (w : World) : World :=
  {| rows := rows w; next_id := next_id w; clock_reads := clock_reads w;
     salts_drawn := salts_drawn w; hash_checks := S (hash_checks w); outbox := outbox w |}.

Definition post (m : Mail) (w : World) : World :=
  {| rows := rows w; next_id := next_id w; clock_reads := clock_reads w;
     salts_drawn := salts_drawn w; hash_checks := hash_checks w; outbox := outbox w ++ [m] |}.

Definition timedelta_minutes (m : Z) : Z := m * 60000000.
Definition timedelta_hours (h : Z) : Z := h * 3600000000.
Definition timedelta_days (d : Z) : Z := d * 86400000000.

(** [expires_delta or default]: [None] and the zero [timedelta] are falsy. *)
Definition or_timedelta (expires_delta : option Z) (default : Z) : Z :=
  match expires_delta with
  | Some d => if d =? 0 then default else d
  | None => default
  end.

(** Truth value of a decoded claim, as [not v] tests it. *)
Definition truthy (v : Jose.jvalue) : bool :=
  match v with
  | Jose.JStr s => negb (String.eqb s "")
  | Jose.JInt n => negb (n =? 0)
  | Jose.JBool b => b
  end.

(** [v != s] for the result [v] of [payload.get(...)] and a string [s]:
    a missing claim ([None]) and a claim that is not a string differ from
    every string. *)
Definition ne_str (v : option Jose.jvalue) (s : string) : bool :=
  match v with
  | Some (Jose.JStr s') => negb (String.eqb s' s)
  | _ => true
  end.

Record Tokens : Type := {
  access_token : Jose.token;
  refresh_token : Jose.token;
  token_type : string
}.

(** [services/auth.py] *)
Definition MAX_FAILED_ATTEMPTS : Z := 5.
Definition LOCKOUT_DURATION_MINUTES : Z := 15.

(** [schemas/user.py] and the answers of the [register] endpoint. *)
Record UserCreate : Type := {
  payload_email : string;
  payload_username : string;
  payload_password : string
}.

Inductive Response : Type :=
| Created (user : User) (token : Tokens)          (* 201, [AuthResponse] *)
| HTTPException (status_code : Z) (detail : string).

(** What an endpoint hands to the framework: its return value, or the
    [HTTPException] it raised. *)
Inductive Reply (A : Type) : Type :=
| Answer (a : A)
| Refused (status_code : Z) (detail : string).
Arguments Answer {A} a.
Arguments Refused {A} status_code detail.

(** [OAuth2PasswordRequestForm], as [login] reads it. *)
Record LoginForm : Type := {
  form_username : string;
  form_password : string
}.

(** ** Concrete data for the examples at the end *)

Module Example.

(** A clock that starts 1000 s after the epoch; every reading is one
    second after the previous one. *)
Definition clock (n : nat) : Z := 1000000000 + Z.of_nat n * 1000000.

(** A stand-in for the bcrypt handler: the digest of a password is the
    password behind a bcrypt prefix. *)
Definition bcrypt_hash (password : string) (salt : nat) : string := "$2b$" +:+ password.
Definition bcrypt_verify (password digest : string) : result bool :=
  Ret (String.eqb digest ("$2b$" +:+ password)).

Definition alice_with (count : Z) (until : option Z) : User :=
  {| id := 1; email := "alice@example.com"; username := "alice";
     hashed_password := "$2b$Alice123!"; is_verified := false; is_active := true;
     failed_login_attempts := count; last_failed_login := None;
     account_locked_until := until |}.

(** Four failures so far; locked until 2000 s; locked until 500 s. *)
Definition alice : User := alice_with 4 None.
Definition alice_locked : User := alice_with 5 (Some 2000000000).

Definition world_of (u : User) : World :=
  {| rows := [u]; next_id := 2; clock_reads := 0; salts_drawn := 0;
     hash_checks := 0; outbox := [] |}.

Definition bob : UserCreate :=
  {| payload_email := "  Bob@Example.COM "; payload_username := " bob ";
     payload_password := "Bobby123!" |}.

Definition signed (payload : gmap string Jose.jvalue) : Jose.token :=
  Jose.Signed (ALGORITHM default_settings) (SECRET_KEY default_settings) payload.

Definition payload_of_type (ty sub : string) (exp : Z) : gmap string Jose.jvalue :=
  <["type" := Jose.JStr ty]>
    (<["exp" := Jose.JInt exp]> (<["sub" := Jose.JStr sub]> ∅)).

(** A refresh token whose subject is no number; an email-verification
    token; an access token that expires at 100 s. *)
Definition refresh_abc : Jose.token := signed (payload_of_type "refresh" "abc" 2000).
Definition verification : Jose.token :=
  signed (payload_of_type "email_verification" "alice@example.com" 2000).
Definition access_100 : Jose.token := signed (payload_of_type "access" "1" 100).

(** An access token, valid until 2000 s, whose subject is the number 5. *)
Definition access_numeric_payload : gmap string Jose.jvalue :=
  <["type" := Jose.JStr "access"]>
    (<["exp" := Jose.JInt 2000]> (<["sub" := Jose.JInt 5]> ∅)).
Definition access_numeric : Jose.token := signed access_numeric_payload.

(** Caller-supplied claims with a numeric subject. *)
Definition numeric_subject : gmap string Jose.pyval := {[ "sub" := Jose.PInt 5 ]}.

End Example.

(** ** Tasks ([models/task.py], [services/tasks.py], [api/v1/tasks.py])

    The [tasks] table and the two services that read or remove one row.
    Timestamps are microseconds, as for users.  The cache of task lists
    is seen through the invalidations requested for it: each is the id of
    the user whose keys [invalidate_user_tasks_cache] asks to drop. *)

Module Tasks.

Record Task : Type := {
  id : Z;
  title : string;
  description : option string;
  status : string;
  priority : string;
  due_date : option Z;
  user_id : Z;
  created_at : Z;
  updated_at : Z
}.

Record Store : Type := {
  tasks : list Task;
  invalidated : list Z
}.

(** [.scalar_one_or_none()] *)
Definition scalar_one_or_none (l : list Task) : result (option Task) :=
  match l with
  | [] => Ret None
  | [t] => Ret (Some t)
  | _ => Raise MultipleResultsFound
  end.

(** [get_task(db, user_id, task_id)] *)
Definition get_task (uid task_id : Z) (s : Store) : result (option Task) :=
  scalar_one_or_none
    (List.filter (fun t => (user_id t =? uid) && (id t =? task_id)) (tasks s)).

(** [db.delete(task); db.commit()]: the row with the primary key of
    [task] is removed. *)
Definition delete (task : Task) (s : Store) : Store :=
  {| tasks := List.filter (fun t => negb (id t =? id task)) (tasks s);
     invalidated := invalidated s |}.

(** [await invalidate_user_tasks_cache(user_id)]; its answer is not
    used, and the errors of the cache are caught inside it. *)
Definition invalidate_user_tasks_cache (uid : Z) (s : Store) : Store :=
  {| tasks := tasks s; invalidated := uid :: invalidated s |}.

(** [delete_task(db, user_id, task_id)] *)
Definition delete_task (uid task_id : Z) (s : Store) : result bool * Store :=
  match get_task uid task_id s with
  | Raise e => (Raise e, s)
  | Ret None => (Ret false, s)
  | Ret (Some task) => (Ret true, invalidate_user_tasks_cache uid (delete task s))
  end.

(** [except SQLAlchemyError] *)
Definition is_SQLAlchemyError (e : exn) : bool :=
  match e with
  | IntegrityError | MultipleResultsFound => true
  | _ => false
  end.

(** The last two handlers of the task endpoints. *)
Definition server_error {A : Type} (e : exn) : Reply A :=
  if is_SQLAlchemyError e
  then Refused 500 "Database error occurred. Please try again later."
  else Refused 500 "An unexpected error occurred. Please try again later.".

(** The endpoint [get_single_task], for the id of the user the
    dependency [get_current_user] answered. *)
Definition get_single_task (task_id : Z) (current_user_id : Z) (s : Store) : Reply Task :=
  if task_id <=? 0 then Refused 422 "Task ID must be a positive integer"
  else
    match get_task current_user_id task_id s with
    | Ret None => Refused 404 "Task not found"
    | Ret (Some task) => Answer task
    | Raise e => server_error e
    end.

(** The endpoint [delete_existing_task]; it answers [None] (204). *)
Definition delete_existing_task (task_id : Z) (current_user_id : Z) (s : Store)
  : Reply unit * Store :=
  if task_id <=? 0 then (Refused 422 "Task ID must be a positive integer", s)
  else
    match delete_task current_user_id task_id s with
    | (Ret false, s') => (Refused 404 "Task not found", s')
    | (Ret true, s') => (Answer tt, s')
    | (Raise e, s') => (server_error e, s')
    end.

(** The primary key of the table. *)
Definition keys_unique (s : Store) : Prop := NoDup (List.map id (tasks s)).

End Tasks.

Module TaskExample.

Definition task (n owner : Z) (name : string) : Tasks.Task :=
  {| Tasks.id := n; Tasks.title := name; Tasks.description := None;
     Tasks.status := "pending"; Tasks.priority := "low"; Tasks.due_date := None;
     Tasks.user_id := owner; Tasks.created_at := 0; Tasks.updated_at := 0 |}.

(** Two tasks of user 1 and one of user 2. *)
Definition store : Tasks.Store :=
  {| Tasks.tasks := [task 1 1 "write"; task 2 2 "read"; task 3 1 "sleep"];
     Tasks.invalidated := [] |}.

End TaskExample.

Section Core.

(** The process-wide [settings] object. *)
Variable settings : Settings.
(** The wall clock: its n-th reading, in microseconds. *)
Variable clock : nat -> Z.
(** The database behind [settings.DATABASE_URL]: whether it hands a
    [DateTime(timezone=True)] column back with its time zone.  PostgreSQL
    does; SQLite, which the default [DATABASE_URL] selects, returns the
    stored value as a naive [datetime]. *)
Variable aware_timestamps : bool.
(** The bcrypt handler behind [pwd_context]: checking a password against
    an identified digest, and hashing a password with the n-th salt. *)
Variable bcrypt_verify : string -> string -> result bool.
Variable bcrypt_hash : string -> nat -> string.

(** [datetime.now(timezone.utc)] *)
Definition datetime_now : M Z :=
  fun w => (Ret (clock (clock_reads w)), tick_clock w).

(** *** [core/security.py] *)

Definition create_access_token (subject : gmap string Jose.pyval) (expires_delta : option Z)
  : M Jose.token :=
  let to_encode := subject in
  now <- datetime_now ;;
  let expire := now + or_timedelta expires_delta
                        (timedelta_minutes (ACCESS_TOKEN_EXPIRE_MINUTES settings)) in
  let to_encode :=
    <["type" := Jose.PStr "access"]>
      (<["iat" := Jose.PDatetime now]> (<["exp" := Jose.PDatetime expire]> to_encode)) in
  lift (Jose.encode to_encode (SECRET_KEY settings) (ALGORITHM settings)).

Definition create_refresh_token (subject : gmap string Jose.pyval) (expires_delta : option Z)
  : M Jose.token :=
  let to_encode := subject in
  now <- datetime_now ;;
  let expire := now + or_timedelta expires_delta
                        (timedelta_days (REFRESH_TOKEN_EXPIRE_DAYS settings)) in
  let to_encode :=
    <["type" := Jose.PStr "refresh"]>
      (<["iat" := Jose.PDatetime now]> (<["exp" := Jose.PDatetime expire]> to_encode)) in
  lift (Jose.encode to_encode (SECRET_KEY settings) (ALGORITHM settings)).

Definition create_email_verification_token (email : string) : M Jose.token :=
  now <- datetime_now ;;
  let expire := now + timedelta_hours (EMAIL_VERIFICATION_EXPIRE_HOURS settings) in
  let to_encode : gmap string Jose.pyval :=
    <["type" := Jose.PStr "email_verification"]>
      (<["iat" := Jose.PDatetime now]>
         (<["exp" := Jose.PDatetime expire]> (<["sub" := Jose.PStr email]> ∅))) in
  lift (Jose.encode to_encode (SECRET_KEY settings) (ALGORITHM settings)).

Definition create_password_reset_token (email : string) : M Jose.token :=
  now <- datetime_now ;;
  let expire := now + timedelta_hours (PASSWORD_RESET_EXPIRE_HOURS settings) in
  let to_encode : gmap string Jose.pyval :=
    <["type" := Jose.PStr "password_reset"]>
      (<["iat" := Jose.PDatetime now]>
         (<["exp" := Jose.PDatetime expire]> (<["sub" := Jose.PStr email]> ∅))) in
  lift (Jose.encode to_encode (SECRET_KEY settings) (ALGORITHM settings)).

(** The body of [verify_token] once the library has read the clock:
    [now] is that reading, in microseconds. *)
Definition verify_token_at (now : Z) (token : Jose.token) (expected_type : string)
  : result (option (gmap string Jose.jvalue)) :=
  match Jose.decode token (SECRET_KEY settings) [ALGORITHM settings] (Jose.timegm now) with
  | Ret payload =>
      let token_type := payload !! "type" in
      if ne_str token_type expected_type then Ret None
      else Ret (Some payload)
  | Raise e => if is_JWTError e then Ret None else Raise e
  end.

Definition verify_token (token : Jose.token) (expected_type : string)
  : M (option (gmap string Jose.jvalue)) :=
  now <- datetime_now ;;
  lift (verify_token_at now token expected_type).

Definition verify_password (plain_password hashed_password : string) : M bool :=
  fun w => (Passlib.verify bcrypt_verify plain_password hashed_password, count_hash_check w).

(** [pwd_context.hash(password)]: the library's refusals leave the
    function as they are raised; otherwise the digest is made with a fresh
    salt. *)
Definition get_password_hash (password : string) : M string :=
  fun w =>
    if Passlib.too_long password then (Raise (ValueError Passlib.msg_size), w)
    else if Passlib.has_null password then
      (Raise (ValueError Passlib.msg_null), draw_salt w)
    else (Ret (bcrypt_hash password (salts_drawn w)), draw_salt w).

(** *** [services/auth.py] *)

Definition register_user (email username password : string) : M (option User) :=
  lift (Validators.is_strong_password settings password) ;;;
  h <- get_password_hash password ;;
  fun w =>
    match Db.add_commit_refresh email username h false true w with
    | (Ret user, w') => (Ret (Some user), w')
    | (Raise IntegrityError, w') => (Ret None, w')
    | (Raise e, w') => (Raise e, w')
    end.

Definition sub_of_id (user : User) : gmap string Jose.pyval :=
  {[ "sub" := Jose.PStr (PyStr.str (id user)) ]}.

(** Lines 100-133 of [authenticate_user]: the activity check, the
    password check with its two outcomes, and the token pair. *)
Definition authenticate_unlocked (user : User) (password : string)
  : M (option (User * Tokens)) :=
  if negb (is_active user) then ret None
  else
    ok <- verify_password password (hashed_password user) ;;
    if negb ok then
      let user := set_failed_login_attempts (failed_login_attempts user + 1) user in
      t <- datetime_now ;;
      let user := set_last_failed_login (Some t) user in
      user <- (if MAX_FAILED_ATTEMPTS <=? failed_login_attempts user then
                 t' <- datetime_now ;;
                 ret (set_account_locked_until
                        (Some (t' + timedelta_minutes LOCKOUT_DURATION_MINUTES)) user)
               else ret user) ;;
      Db.commit user ;;;
      ret None
    else
      user <- (if 0 <? failed_login_attempts user then
                 let user := set_last_failed_login None (set_failed_login_attempts 0 user) in
                 Db.commit user ;;;
                 ret user
               else ret user) ;;
      access <- create_access_token (sub_of_id user) None ;;
      refresh <- create_refresh_token (sub_of_id user) None ;;
      ret (Some (user, {| access_token := access; refresh_token := refresh;
                          token_type := "bearer" |})).

(** [now < user.account_locked_until] on line 92, for the value the
    database returned: [now] is timezone-aware, and Python refuses to
    order an aware and a naive [datetime]. *)
Definition before_stored (now until : Z) : result bool :=
  if aware_timestamps then Ret (now <? until) else Raise TypeError.

Definition authenticate_user (email password : string) : M (option (User * Tokens)) :=
  found <- Db.select_by_email email ;;
  match found with
  | None => ret None
  | Some user =>
      match account_locked_until user with
      | Some until =>
          now <- datetime_now ;;
          open <- lift (before_stored now until) ;;
          if open then ret None
          else
            let user := set_failed_login_attempts 0 (set_account_locked_until None user) in
            Db.commit user ;;;
            authenticate_unlocked user password
      | None => authenticate_unlocked user password
      end
  end.

(** [not payload] for the result of [verify_token]: [None], or a
    dictionary without entries. *)
Definition falsy_payload (p : option (gmap string Jose.jvalue)) : bool :=
  match p with
  | None => true
  | Some c => bool_decide (c = ∅)
  end.

(** [not v] for the result of [payload.get(...)]. *)
Definition falsy_claim (v : option Jose.jvalue) : bool :=
  match v with
  | None => true
  | Some x => negb (truthy x)
  end.

(** [int(user_id)] *)
Definition int_of_claim (v : Jose.jvalue) : result Z :=
  match v with
  | Jose.JStr s =>
      match PyStr.int s with
      | Some n => Ret n
      | None => Raise (ValueError ("invalid literal for int() with base 10: '" +:+ s +:+ "'"))
      end
  | Jose.JInt n => Ret n
  | Jose.JBool b => Ret (if b then 1 else 0)
  end.

(** [select(User).where(User.email == v)] for a claim value: only a
    string can equal a stored address. *)
Definition select_by_email_claim (v : Jose.jvalue) : M (option User) :=
  match v with
  | Jose.JStr s => Db.select_by_email s
  | _ => ret None
  end.

Definition refresh_access_token (refresh_token : Jose.token) : M (option Tokens) :=
  payload <- verify_token refresh_token "refresh" ;;
  if falsy_payload payload then ret None
  else
    let user_id := (payload ≫= fun c => c !! "sub") in
    match user_id with
    | None => ret None
    | Some v =>
        if negb (truthy v) then ret None
        else
          n <- lift (int_of_claim v) ;;
          found <- Db.select_by_id n ;;
          match found with
          | None => ret None
          | Some user =>
              if negb (is_active user) then ret None
              else
                access <- create_access_token (sub_of_id user) None ;;
                new_refresh <- create_refresh_token (sub_of_id user) None ;;
                ret (Some {| access_token := access; refresh_token := new_refresh;
                             token_type := "bearer" |})
          end
    end.

Definition verify_email (token : Jose.token) : M bool :=
  payload <- verify_token token "email_verification" ;;
  if falsy_payload payload then ret false
  else
    match (payload ≫= fun c => c !! "sub") with
    | None => ret false
    | Some v =>
        if negb (truthy v) then ret false
        else
          found <- select_by_email_claim v ;;
          match found with
          | None => ret false
          | Some user =>
              if is_verified user then ret true
              else Db.commit (set_is_verified true user) ;;; ret true
          end
    end.

Definition request_password_reset (email : string) : M (option Jose.token) :=
  found <- Db.select_by_email email ;;
  match found with
  | None => ret None
  | Some _ => t <- create_password_reset_token email ;; ret (Some t)
  end.

Definition reset_password (token : Jose.token) (new_password : string) : M bool :=
  lift (Validators.is_strong_password settings new_password) ;;;
  payload <- verify_token token "password_reset" ;;
  if falsy_payload payload then ret false
  else
    match (payload ≫= fun c => c !! "sub") with
    | None => ret false
    | Some v =>
        if negb (truthy v) then ret false
        else
          found <- select_by_email_claim v ;;
          match found with
          | None => ret false
          | Some user =>
              h <- get_password_hash new_password ;;
              let user := set_hashed_password h user in
              let user := set_failed_login_attempts 0 user in
              let user := set_last_failed_login None user in
              let user := set_account_locked_until None user in
              Db.commit user ;;;
              ret true
          end
    end.

Definition resend_verification_email (email : string) : M (option User) :=
  found <- Db.select_by_email email ;;
  match found with
  | None => ret None
  | Some user => if is_verified user then ret None else ret (Some user)
  end.

(** *** [api/v1/auth.py]: the [register] endpoint *)

(** [services/email.py]: the message is handed to the mail transport. *)
Definition send_verification_email (to username : string) (token : Jose.token) : M unit :=
  fun w => (Ret tt, post {| mail_to := to; mail_username := username |} w).

(** [str(e)] when [e] is a [ValueError] (or a subclass of it). *)
Definition as_ValueError (e : exn) : option string :=
  match e with
  | ValueError msg => Some msg
  | UnknownHashError => Some "hash could not be identified"
  | _ => None
  end.

(** The [try] block of [register]; an [HTTPException] raised inside it is
    re-raised unchanged by its handler and is returned here directly. *)
Definition register_try (payload : UserCreate) : M Response :=
  if String.eqb (payload_email payload) "" || String.eqb (payload_username payload) ""
     || String.eqb (payload_password payload) "" then
    ret (HTTPException 400 "Email, username, and password are required")
  else if String.eqb (PyStr.strip (payload_email payload)) ""
          || String.eqb (PyStr.strip (payload_username payload)) "" then
    ret (HTTPException 400 "Email and username cannot be empty or whitespace only")
  else
    created <- register_user (PyStr.lower (PyStr.strip (payload_email payload)))
                             (PyStr.strip (payload_username payload))
                             (payload_password payload) ;;
    match created with
    | None => ret (HTTPException 400 "Email already registered")
    | Some user =>
        verification_token <- create_email_verification_token (email user) ;;
        send_verification_email (email user) (username user) verification_token ;;;
        auth <- authenticate_user (email user) (payload_password payload) ;;
        match auth with
        | Some (_, tokens) => ret (Created user tokens)
        | None => raise TypeError      (* [tokens["access_token"]] on [None] *)
        end
    end.

Definition register (payload : UserCreate) : M Response :=
  fun w =>
    match register_try payload w with
    | (Ret r, w') => (Ret r, w')
    | (Raise e, w') =>
        match as_ValueError e with
        | Some msg => (Ret (HTTPException 400 msg), w')
        | None =>
            match e with
            | IntegrityError => (Ret (HTTPException 400 "Email already registered"), w')
            | _ => (Ret (HTTPException 500 "An unexpected error occurred"), w')
            end
        end
    end.


(** *** [api/v1/auth.py]: the other endpoints

    Building the response models from the returned objects is left out. *)

Definition login_try (form_data : LoginForm) : M (Reply (User * Tokens)) :=
  if String.eqb (form_username form_data) "" || String.eqb (form_password form_data) "" then
    ret (Refused 422 "Username (email) and password are required")
  else
    let email := PyStr.lower (PyStr.strip (form_username form_data)) in
    if negb (PyStr.search (Ascii.eqb "@") email) then
      ret (Refused 422 "Invalid email format")
    else
      auth <- authenticate_user email (form_password form_data) ;;
      match auth with
      | None => ret (Refused 401 "Invalid email or password, or account is locked")
      | Some (user, tokens) => ret (Answer (user, tokens))
      end.

(** [login]: an [HTTPException] of the [try] block is re-raised as it is,
    every other exception becomes a 500. *)
Definition login (form_data : LoginForm) : M (Reply (User * Tokens)) :=
  fun w =>
    match login_try form_data w with
    | (Ret r, w') => (Ret r, w')
    | (Raise _, w') => (Ret (Refused 500 "An unexpected error occurred"), w')
    end.

(** The endpoint [refresh_token]; it has no handler of its own. *)
Definition refresh_token_endpoint (token : Jose.token) : M (Reply Tokens) :=
  tokens <- refresh_access_token token ;;
  match tokens with
  | None => ret (Refused 401 "Invalid or expired refresh token")
  | Some t => ret (Answer t)
  end.

Definition verify_user_email (token : Jose.token) : M (Reply string) :=
  success <- verify_email token ;;
  if negb success then ret (Refused 400 "Invalid or expired verification token")
  else ret (Answer "Email verified successfully").

Definition resend_verification (payload_email : string) : M string :=
  found <- resend_verification_email (PyStr.lower (PyStr.strip payload_email)) ;;
  match found with
  | None =>
      ret "If the email exists and is not verified, a verification email has been sent"
  | Some user =>
      verification_token <- create_email_verification_token (email user) ;;
      send_verification_email (email user) (username user) verification_token ;;;
      ret "Verification email sent"
  end.

(** [services/email.py]: the message is handed to the mail transport. *)
Definition send_password_reset_email (to username : string) (token : Jose.token) : M unit :=
  fun w => (Ret tt, post {| mail_to := to; mail_username := username |} w).

Definition forgot_password (payload_email : string) : M string :=
  let address := PyStr.lower (PyStr.strip payload_email) in
  reset_token <- request_password_reset address ;;
  match reset_token with
  | Some token =>
      found <- Db.select_by_email address ;;
      match found with
      | Some user => send_password_reset_email (email user) (username user) token
      | None => ret tt
      end
  | None => ret tt
  end ;;;
  ret "If the email exists, a password reset link has been sent".

(** [reset_user_password]: only [ValueError] is handled. *)
Definition reset_user_password (token : Jose.token) (new_password : string)
  : M (Reply string) :=
  fun w =>
    match reset_password token new_password w with
    | (Ret success, w') =>
        if negb success then (Ret (Refused 400 "Invalid or expired reset token"), w')
        else (Ret (Answer "Password reset successfully"), w')
    | (Raise e, w') =>
        match as_ValueError e with
        | Some msg => (Ret (Refused 400 msg), w')
        | None => (Raise e, w')
        end
    end.

(** *** [api/dependencies.py] *)

Definition credentials_exception {A : Type} : Reply A :=
  Refused 401 "Could not validate credentials".

(** [except (ValueError, TypeError)] *)
Definition is_ValueError_or_TypeError (e : exn) : bool :=
  match e with
  | ValueError _ | UnknownHashError | TypeError => true
  | _ => false
  end.

Definition get_current_user (token : Jose.token) : M (Reply User) :=
  now <- datetime_now ;;
  match Jose.decode token (SECRET_KEY settings) [ALGORITHM settings] (Jose.timegm now) with
  | Raise e => if is_JWTError e then ret credentials_exception else raise e
  | Ret payload =>
      match payload !! "sub" with
      | None => ret credentials_exception
      | Some user_id =>
          if ne_str (payload !! "type") "access" then ret credentials_exception
          else
            match int_of_claim user_id with
            | Raise e =>
                if is_ValueError_or_TypeError e then ret credentials_exception else raise e
            | Ret n =>
                found <- Db.select_by_id n ;;
                match found with
                | None => ret credentials_exception
                | Some user => ret (Answer user)
                end
            end
      end
  end.

(** *** Vocabulary of the lockout properties *)

(** The address [e] names exactly the stored user [u]. *)
Definition user_exists (w : World) (e : string) (u : User) : Prop :=
  Db.select_by_email e w = (Ret (Some u), w).

(** What lines 96-97 assign when an expired lockout is observed. *)
Definition lockout_cleared (u : User) : User :=
  set_failed_login_attempts 0 (set_account_locked_until None u).

(** At time [t] the lockout window of [u] is still open. *)
Definition locked_at (t : Z) (u : User) : bool :=
  match account_locked_until u with
  | Some until => t <? until
  | None => false
  end.

(** Line 92 can be evaluated for [u]: no lockout is stored, so that the
    line is not reached, or the database returns the stored time with
    its zone. *)
Definition lockout_comparable (u : User) : Prop :=
  account_locked_until u = None \/ aware_timestamps = true.

(** The user as the activity and password checks of a login attempt see
    it, and the world they start from, when the account is not locked:
    unchanged when [account_locked_until] is null, and with the expired
    lockout cleared and committed (one clock reading spent) otherwise. *)
Definition user_after_lockout_check (u : User) : User :=
  match account_locked_until u with
  | Some _ => lockout_cleared u
  | None => u
  end.

Definition world_after_lockout_check (u : User) (w : World) : World :=
  match account_locked_until u with
  | Some _ => with_rows (Db.write (lockout_cleared u) (rows w)) (tick_clock w)
  | None => w
  end.


(** Two users agree on every column outside the lockout bookkeeping. *)
Definition same_account (u u' : User) : Prop :=
  id u' = id u /\ email u' = email u /\ username u' = username u
  /\ hashed_password u' = hashed_password u
  /\ is_verified u' = is_verified u /\ is_active u' = is_active u.

(** *** Vocabulary of the token properties *)

(** [token] is a well-formed signed object with payload [payload], signed
    with the configured secret under the configured algorithm. *)
Definition well_signed (token : Jose.token) (payload : gmap string Jose.jvalue) : Prop :=
  token = Jose.Signed (ALGORITHM settings) (SECRET_KEY settings) payload
  /\ Jose.mem (ALGORITHM settings) Jose.supported = true.

(** The dictionary a creator hands to [jwt.encode]: the caller's claims
    updated with [exp], [iat] and [type]; and the payload it becomes. *)
Definition stamped (ty : string) (t ttl : Z) (subject : gmap string Jose.pyval)
  : gmap string Jose.pyval :=
  <["type" := Jose.PStr ty]>
    (<["iat" := Jose.PDatetime t]> (<["exp" := Jose.PDatetime (t + ttl)]> subject)).

Definition stamped_payload (ty : string) (t ttl : Z) (c : gmap string Jose.jvalue)
  : gmap string Jose.jvalue :=
  <["type" := Jose.JStr ty]>
    (<["iat" := Jose.JInt (Jose.timegm t)]>
       (<["exp" := Jose.JInt (Jose.timegm (t + ttl))]> c)).

(** The library's checks of the registered claims a caller may have put
    into the subject dictionary ([nbf], [aud], [sub], [jti], [at_hash])
    pass at time [now] (seconds). *)
Definition registered_claims_ok (c : gmap string Jose.jvalue) (now : Z) : bool :=
  match Jose.and_then (Jose.validate_nbf c now)
       (Jose.and_then (Jose.validate_aud c)
       (Jose.and_then (Jose.validate_sub c)
       (Jose.and_then (Jose.validate_jti c) (Jose.validate_at_hash c)))) with
  | Ret _ => true
  | Raise _ => false
  end.

(** *** Vocabulary of the further properties *)

(** The configured algorithm is one the library can sign with. *)
Definition hmac_configured : Prop :=
  Jose.mem (ALGORITHM settings) Jose.supported = true.

(** The primary key [n] names exactly the stored user [u]. *)
Definition user_with_id (w : World) (n : Z) (u : User) : Prop :=
  Db.select_by_id n w = (Ret (Some u), w).

(** The constraints the [users] table declares: unique primary keys below
    the next key to be assigned, unique addresses. *)
Definition table_ok (w : World) : Prop :=
  NoDup (List.map id (rows w))
  /\ NoDup (List.map email (rows w))
  /\ Forall (fun u => id u < next_id w) (rows w).

(** The world after [n] login attempts in a row with the same address and
    password. *)
Fixpoint login_attempts (n : nat) (e password : string) (w : World) : World :=
  match n with
  | O => w
  | S k => login_attempts k e password (snd (authenticate_user e password w))
  end.

(** The token a creator signs at time [t] for the subject [sub]. *)
Definition issued (ty sub : string) (t ttl : Z) : Jose.token :=
  Jose.Signed (ALGORITHM settings) (SECRET_KEY settings)
    (stamped_payload ty t ttl {[ "sub" := Jose.JStr sub ]}).

(** * Properties *)

(** Run the end of a successful login or refresh: unfold the two token
    creators and split on what [jwt.encode] answered. *)
Ltac issue_tokens :=
  unfold bind, ret, Db.commit, create_access_token, create_refresh_token, bind,
    datetime_now, lift;
  destruct (Jose.encode _ _ _); [destruct (Jose.encode _ _ _)|].

Lemma write_write (u1 u2 : User) (l : list User) :
  id u1 = id u2 -> Db.write u2 (Db.write u1 l) = Db.write u2 l.
Proof.
  intros Hid. unfold Db.write. rewrite List.map_map. apply List.map_ext.
  intros x. rewrite Hid. destruct (id x =? id u2) eqn:E.
  - rewrite <- Hid, Z.eqb_refl. reflexivity.
  - rewrite E. reflexivity.
Qed.

(** The lockout check of [authenticate_user] on a user that is not locked
    hands over to the rest of the function. *)
Lemma authenticate_user_not_locked (w : World) (e password : string) (u : User) :
  user_exists w e u ->
  lockout_comparable u ->
  locked_at (clock (clock_reads w)) u = false ->
  authenticate_user e password w
  = authenticate_unlocked (user_after_lockout_check u) password
      (world_after_lockout_check u w).
Proof.
  unfold user_exists, lockout_comparable, locked_at, authenticate_user,
    user_after_lockout_check, world_after_lockout_check, bind.
  intros Hsel Hcmp Hlock. rewrite Hsel.
  destruct (account_locked_until u) as [until|]; [|reflexivity].
  destruct Hcmp as [Hnone|Haware]; [discriminate Hnone|].
  unfold datetime_now, lift, before_stored. rewrite Haware, Hlock. reflexivity.
Qed.

(** Line 92 on a stored lockout time that came back naive: the clock is
    read, the comparison raises, nothing is written. *)
Lemma authenticate_user_naive
  (w : World) (e password : string) (u : User) (until : Z) :
  aware_timestamps = false ->
  user_exists w e u ->
  account_locked_until u = Some until ->
  authenticate_user e password w = (Raise TypeError, tick_clock w).
Proof.
  intros Hnaive Hex Hlocked.
  unfold authenticate_user, bind. unfold user_exists in Hex. rewrite Hex, Hlocked.
  unfold datetime_now, lift, before_stored. rewrite Hnaive. reflexivity.
Qed.

Lemma lockout_cases (u : User) :
  lockout_comparable u
  \/ (aware_timestamps = false /\ exists until, account_locked_until u = Some until).
Proof.
  unfold lockout_comparable.
  destruct (account_locked_until u) as [until|]; [|left; left; reflexivity].
  destruct aware_timestamps; [left; right; reflexivity|].
  right. split; [reflexivity|]. exists until. reflexivity.
Qed.

(** ** Password policy *)

Lemma reason_injective (st : Settings) (r r' : Validators.Rule) :
  Validators.reason st r = Validators.reason st r' -> r = r'.
Proof.
  destruct r, r'; cbn; unfold Validators.msg_length; cbn; intros H;
    first [ reflexivity | discriminate H ].
Qed.

Lemma validate_by_first_violated (st : Settings) (password : string) :
  Validators.validate_password_strength st password
  = match Validators.first_violated st password with
    | Some r => (false, Validators.reason st r)
    | None => (true, "")
    end.
Proof.
  unfold Validators.validate_password_strength, Validators.first_violated,
    Validators.violates, Validators.rule_order.
  cbn [List.find Validators.enabled Validators.satisfies Validators.reason andb].
  rewrite <- Z.ltb_antisym.
  destruct (PyStr.len password <? PASSWORD_MIN_LENGTH st); [reflexivity|].
  destruct (PASSWORD_REQUIRE_UPPERCASE st && _); [reflexivity|].
  destruct (PASSWORD_REQUIRE_LOWERCASE st && _); [reflexivity|].
  destruct (PASSWORD_REQUIRE_DIGITS st && _); [reflexivity|].
  destruct (PASSWORD_REQUIRE_SPECIAL st && _); reflexivity.
Qed.

Lemma first_violated_least (st : Settings) (password : string) (r : Validators.Rule) :
  Validators.violates st password r = true ->
  (forall r', (Validators.rule_rank r' < Validators.rule_rank r)%nat ->
              Validators.violates st password r' = false) ->
  Validators.first_violated st password = Some r.
Proof.
  intros Hr Hbefore. unfold Validators.first_violated, Validators.rule_order.
  destruct r; cbn [List.find];
    repeat match goal with
      | |- context [Validators.violates st password ?x] =>
          first [ rewrite Hr
                | rewrite (Hbefore x) by (cbn; lia) ]
      end; reflexivity.
Qed.

Lemma first_violated_none (st : Settings) (password : string) :
  (forall r, Validators.violates st password r = false) ->
  Validators.first_violated st password = None.
Proof.
  intros H. unfold Validators.first_violated, Validators.rule_order.
  cbn [List.find]. rewrite !H. reflexivity.
Qed.

Lemma first_violated_exists (st : Settings) (password : string) (r : Validators.Rule) :
  Validators.violates st password r = true ->
  exists r0, Validators.first_violated st password = Some r0.
Proof.
  intros Hr. destruct (Validators.first_violated st password) as [r0|] eqn:E.
  - exists r0. reflexivity.
  - exfalso. unfold Validators.first_violated in E.
    assert (Hin : In r Validators.rule_order)
      by (destruct r; cbn; repeat (first [left; reflexivity | right])).
    pose proof (List.find_none _ _ E r Hin) as Hn. rewrite Hr in Hn. discriminate Hn.
Qed.

(** C6.  A password that fails an enabled rule is rejected with the reason
    of the first rule it violates in the order length, uppercase,
    lowercase, digit, special; the length rule is always on, each other
    rule only when its toggle is; a password violating no enabled rule is
    accepted with the empty reason; reasons of different rules differ;
    the default minimum length is 8. *)
Theorem validate_password_strength_first_violation (st : Settings) (password : string) :
  (forall r,
      Validators.violates st password r = true ->
      (forall r', (Validators.rule_rank r' < Validators.rule_rank r)%nat ->
                  Validators.violates st password r' = false) ->
      Validators.validate_password_strength st password = (false, Validators.reason st r))
  /\ ((exists r, Validators.violates st password r = true) ->
      exists r, Validators.first_violated st password = Some r
                /\ Validators.validate_password_strength st password
                   = (false, Validators.reason st r))
  /\ ((forall r, Validators.violates st password r = false) ->
      Validators.validate_password_strength st password = (true, ""))
  /\ (forall r r', Validators.reason st r = Validators.reason st r' -> r = r')
  /\ Validators.rule_order
     = [Validators.RLength; Validators.RUppercase; Validators.RLowercase;
        Validators.RDigit; Validators.RSpecial]
  /\ PASSWORD_MIN_LENGTH default_settings = 8.
Proof.
  repeat split.
  - intros r Hr Hbefore. rewrite validate_by_first_violated.
    rewrite (first_violated_least st password r Hr Hbefore). reflexivity.
  - intros [r Hr]. destruct (first_violated_exists st password r Hr) as [r0 E].
    exists r0. split; [exact E|]. rewrite validate_by_first_violated, E. reflexivity.
  - intros H. rewrite validate_by_first_violated, (first_violated_none st password H).
    reflexivity.
  - apply reason_injective.
Qed.



(** ** Account lockout *)

Lemma same_account_after_lockout_check (u : User) :
  same_account u (user_after_lockout_check u).
Proof.
  unfold same_account, user_after_lockout_check, lockout_cleared.
  destruct (account_locked_until u); cbn; repeat split; reflexivity.
Qed.

(** The failed-password branch, lines 105-115. *)
Lemma authenticate_unlocked_failed_password (w : World) (password : string) (u : User) :
  is_active u = true ->
  Passlib.verify bcrypt_verify password (hashed_password u) = Ret false ->
  let count := failed_login_attempts u + 1 in
  let t_failed := clock (clock_reads w) in
  let t_lock := clock (S (clock_reads w)) in
  let locked := MAX_FAILED_ATTEMPTS <=? count in
  let u' :=
    {| id := id u; email := email u; username := username u;
       hashed_password := hashed_password u; is_verified := is_verified u;
       is_active := is_active u; failed_login_attempts := count;
       last_failed_login := Some t_failed;
       account_locked_until :=
         if locked then Some (t_lock + timedelta_minutes LOCKOUT_DURATION_MINUTES)
         else account_locked_until u |} in
  authenticate_unlocked u password w
  = (Ret None,
     {| rows := Db.write u' (rows w); next_id := next_id w;
        clock_reads := (if locked then 2 else 1) + clock_reads w;
        salts_drawn := salts_drawn w; hash_checks := S (hash_checks w);
        outbox := outbox w |}).
Proof.
  intros Hactive Hverify. cbv zeta.
  assert (Hn : negb (is_active u) = false) by (rewrite Hactive; reflexivity).
  unfold authenticate_unlocked. rewrite Hn.
  unfold bind at 1. unfold verify_password at 1. rewrite Hverify. cbn [negb].
  unfold bind, datetime_now, ret, Db.commit.
  cbn [failed_login_attempts set_failed_login_attempts set_last_failed_login].
  destruct (MAX_FAILED_ATTEMPTS <=? failed_login_attempts u + 1); reflexivity.
Qed.



(** The lockout check while the window is open, lines 91-93. *)
Lemma authenticate_user_while_locked
  (w : World) (e password : string) (u : User) (until : Z) :
  aware_timestamps = true ->
  user_exists w e u ->
  account_locked_until u = Some until ->
  clock (clock_reads w) < until ->
  authenticate_user e password w = (Ret None, tick_clock w).
Proof.
  intros Haware Hex Hlocked Hlt.
  unfold authenticate_user, bind. unfold user_exists in Hex. rewrite Hex, Hlocked.
  unfold datetime_now, lift, before_stored. rewrite Haware.
  destruct (Z.ltb_spec (clock (clock_reads w)) until) as [_|Hge]; [reflexivity|lia].
Qed.

(** C2.  A login attempt on a user whose [account_locked_until] is set.
    On a database that returns the stored time naive, as SQLite, the
    default, does, the comparison of line 92 raises [TypeError], whether
    the window is open or has passed: the clock was read, nothing was
    written, no hash check was made, and the call returns nothing.  On a
    database that returns the time with its zone the call does what the
    lines say.  While the window is open it returns the unauthenticated
    result, the table is as before (so the three lockout columns are
    untouched) and the hash check was not invoked.  Once the window has
    passed the call clears the lockout (counter 0, [account_locked_until]
    null), commits, and continues with the activity and password checks
    of the same call on the cleared user. *)
Theorem authenticate_user_lockout_window
  (w : World) (e password : string) (u : User) (until : Z) :
  user_exists w e u ->
  account_locked_until u = Some until ->
  let now := clock (clock_reads w) in
  (aware_timestamps = false ->
   authenticate_user e password w = (Raise TypeError, tick_clock w)
   /\ rows (tick_clock w) = rows w
   /\ hash_checks (tick_clock w) = hash_checks w)
  /\ (aware_timestamps = true ->
      (now < until ->
         exists w',
           authenticate_user e password w = (Ret None, w')
           /\ rows w' = rows w
           /\ hash_checks w' = hash_checks w)
      /\ (until <= now ->
           let u0 := lockout_cleared u in
           authenticate_user e password w
           = authenticate_unlocked u0 password
               (with_rows (Db.write u0 (rows w)) (tick_clock w))
           /\ failed_login_attempts u0 = 0
           /\ account_locked_until u0 = None
           /\ last_failed_login u0 = last_failed_login u
           /\ same_account u u0)).
Proof.
  intros Hex Hlocked now. split.
  { intros Hnaive. split; [|split; reflexivity].
    exact (authenticate_user_naive w e password u until Hnaive Hex Hlocked). }
  intros Haware. split.
  - intros Hlt. exists (tick_clock w). split; [|split; reflexivity].
    exact (authenticate_user_while_locked w e password u until Haware Hex Hlocked Hlt).
  - intros Hge. cbv zeta. split.
    + rewrite (authenticate_user_not_locked w e password u Hex).
      * unfold user_after_lockout_check, world_after_lockout_check.
        rewrite Hlocked. reflexivity.
      * right. exact Haware.
      * unfold locked_at. rewrite Hlocked. apply Z.ltb_ge. exact Hge.
    + unfold lockout_cleared, same_account. cbn. repeat split; reflexivity.
Qed.




Lemma bind_inv {A B : Type} (m : M A) (k : A -> M B) (w w' : World) (r : result B) :
  bind m k w = (r, w') ->
  (exists a w1, m w = (Ret a, w1) /\ k a w1 = (r, w'))
  \/ (exists e, m w = (Raise e, w') /\ r = Raise e).
Proof.
  unfold bind. destruct (m w) as [[a|e] w1].
  - intros H. left. exists a, w1. split; [reflexivity|exact H].
  - intros H. inversion H. subst. right. exists e. split; reflexivity.
Qed.

Lemma bind_Ret_inv {A B : Type} (m : M A) (k : A -> M B) (w w' : World) (b : B) :
  bind m k w = (Ret b, w') ->
  exists a w1, m w = (Ret a, w1) /\ k a w1 = (Ret b, w').
Proof.
  intros H. destruct (bind_inv m k w w' (Ret b) H) as [Hok|[e [_ He]]].
  - exact Hok.
  - discriminate He.
Qed.

Lemma user_exists_In (w : World) (e : string) (u : User) :
  user_exists w e u -> In u (rows w) /\ email u = e.
Proof.
  unfold user_exists, Db.select_by_email. intros H.
  assert (Hf : List.filter (fun x => String.eqb (email x) e) (rows w) = [u]).
  { inversion H as [Hs]. clear H.
    destruct (List.filter _ (rows w)) as [|a [|b l]]; cbn in Hs; try discriminate Hs.
    inversion Hs. reflexivity. }
  assert (Hin : In u (List.filter (fun x => String.eqb (email x) e) (rows w))).
  { rewrite Hf. left. reflexivity. }
  apply List.filter_In in Hin. destruct Hin as [Hin He].
  split; [exact Hin|]. apply String.eqb_eq. exact He.
Qed.

Lemma In_write (u u' : User) (l : list User) :
  In u l -> id u' = id u -> In u' (Db.write u' l).
Proof.
  intros Hin Hid. unfold Db.write. apply List.in_map_iff. exists u.
  split; [|exact Hin]. rewrite Hid, Z.eqb_refl. reflexivity.
Qed.


Lemma same_account_refl (u : User) : same_account u u.
Proof. unfold same_account. repeat split; reflexivity. Qed.



Lemma verify_token_world (token : Jose.token) (ty : string) (w : World) :
  verify_token token ty w
  = (verify_token_at (clock (clock_reads w)) token ty, tick_clock w).
Proof. reflexivity. Qed.

Lemma select_by_email_rows (e : string) (w1 w2 : World) (found : result (option User)) :
  rows w1 = rows w2 ->
  Db.select_by_email e w1 = (found, w1) ->
  Db.select_by_email e w2 = (found, w2).
Proof.
  unfold Db.select_by_email. intros Hrows H. rewrite <- Hrows.
  inversion H as [Hf]. reflexivity.
Qed.





(** ** Token service *)

Lemma mem_singleton (a b : string) : Jose.mem a [b] = String.eqb a b.
Proof. unfold Jose.mem. cbn. apply orb_false_r. Qed.

Lemma ne_str_false (v : option Jose.jvalue) (s : string) :
  ne_str v s = false <-> v = Some (Jose.JStr s).
Proof.
  unfold ne_str. split.
  - destruct v as [[s'| |]|]; try discriminate.
    intros H. apply negb_false_iff, String.eqb_eq in H. subst. reflexivity.
  - intros ->. rewrite String.eqb_refl. reflexivity.
Qed.

Lemma validate_claims_unit (c : gmap string Jose.jvalue) (now : Z) (x : unit) :
  Jose.validate_claims c now = Ret x -> Jose.validate_claims c now = Ret tt.
Proof. destruct x. exact (fun H => H). Qed.

Lemma validate_claims_raises_JWTError (c : gmap string Jose.jvalue) (now : Z) (e : exn) :
  Jose.validate_claims c now = Raise e -> is_JWTError e = true.
Proof.
  assert (Hiat : forall x, Jose.validate_iat c = Raise x -> is_JWTError x = true).
  { unfold Jose.validate_iat. intros x.
    destruct (c !! "iat") as [v|]; [destruct (Jose.int_of v)|];
      intros H; inversion H; reflexivity. }
  assert (Hnbf : forall x, Jose.validate_nbf c now = Raise x -> is_JWTError x = true).
  { unfold Jose.validate_nbf. intros x.
    destruct (c !! "nbf") as [v|]; [destruct (Jose.int_of v) as [n|]; [destruct (now <? n)|]|];
      intros H; inversion H; reflexivity. }
  assert (Hexp : forall x, Jose.validate_exp c now = Raise x -> is_JWTError x = true).
  { unfold Jose.validate_exp. intros x.
    destruct (c !! "exp") as [v|]; [destruct (Jose.int_of v) as [n|]; [destruct (n <? now)|]|];
      intros H; inversion H; reflexivity. }
  assert (Haud : forall x, Jose.validate_aud c = Raise x -> is_JWTError x = true).
  { unfold Jose.validate_aud. intros x.
    destruct (c !! "aud"); intros H; inversion H; reflexivity. }
  assert (Hsub : forall x, Jose.validate_sub c = Raise x -> is_JWTError x = true).
  { unfold Jose.validate_sub. intros x.
    destruct (c !! "sub") as [v|]; [destruct (Jose.is_str v)|];
      intros H; inversion H; reflexivity. }
  assert (Hjti : forall x, Jose.validate_jti c = Raise x -> is_JWTError x = true).
  { unfold Jose.validate_jti. intros x.
    destruct (c !! "jti") as [v|]; [destruct (Jose.is_str v)|];
      intros H; inversion H; reflexivity. }
  assert (Hath : forall x, Jose.validate_at_hash c = Raise x -> is_JWTError x = true).
  { unfold Jose.validate_at_hash. intros x.
    destruct (c !! "at_hash"); intros H; inversion H; reflexivity. }
  unfold Jose.validate_claims, Jose.and_then.
  destruct (Jose.validate_iat c) eqn:E1; [|intros H; inversion H; subst; auto].
  destruct (Jose.validate_nbf c now) eqn:E2; [|intros H; inversion H; subst; auto].
  destruct (Jose.validate_exp c now) eqn:E3; [|intros H; inversion H; subst; auto].
  destruct (Jose.validate_aud c) eqn:E4; [|intros H; inversion H; subst; auto].
  destruct (Jose.validate_sub c) eqn:E5; [|intros H; inversion H; subst; auto].
  destruct (Jose.validate_jti c) eqn:E6; [|intros H; inversion H; subst; auto].
  intros H. auto.
Qed.

Lemma decode_raises_JWTError
  (t : Jose.token) (key : string) (algs : list string) (now : Z) (e : exn) :
  Jose.decode t key algs now = Raise e -> is_JWTError e = true.
Proof.
  unfold Jose.decode. destruct t as [s|alg k payload].
  - intros H. inversion H. reflexivity.
  - destruct (negb (Jose.mem alg algs)); [intros H; inversion H; reflexivity|].
    destruct (negb _); [intros H; inversion H; reflexivity|].
    destruct (Jose.validate_claims payload now) eqn:E; [discriminate|].
    intros H. inversion H. subst. eapply validate_claims_raises_JWTError. exact E.
Qed.

(** [verify_token] never raises: every failure of the library is a
    [JWTError] and is answered with [None]. *)
Lemma verify_token_at_total (now : Z) (token : Jose.token) (ty : string) :
  verify_token_at now token ty = Ret None
  \/ exists payload, verify_token_at now token ty = Ret (Some payload).
Proof.
  unfold verify_token_at.
  destruct (Jose.decode _ _ _ _) as [payload|e] eqn:E.
  - destruct (ne_str _ _); [left; reflexivity|right; exists payload; reflexivity].
  - rewrite (decode_raises_JWTError _ _ _ _ _ E). left. reflexivity.
Qed.

Lemma verify_token_at_accepts_iff
  (now : Z) (token : Jose.token) (ty : string) (payload : gmap string Jose.jvalue) :
  verify_token_at now token ty = Ret (Some payload)
  <-> well_signed token payload
      /\ Jose.validate_claims payload (Jose.timegm now) = Ret tt
      /\ payload !! "type" = Some (Jose.JStr ty).
Proof.
  unfold verify_token_at, well_signed, Jose.decode. split.
  - destruct token as [s|alg k p]; [discriminate|].
    rewrite mem_singleton.
    destruct (String.eqb alg (ALGORITHM settings)) eqn:Ealg; cbn [negb]; [|discriminate].
    apply String.eqb_eq in Ealg. subst alg.
    destruct (Jose.mem (ALGORITHM settings) Jose.supported) eqn:Esup;
      cbn [andb negb]; [|discriminate].
    destruct (String.eqb k (SECRET_KEY settings)) eqn:Ekey; cbn [negb]; [|discriminate].
    apply String.eqb_eq in Ekey. subst k.
    destruct (Jose.validate_claims p (Jose.timegm now)) as [x|e] eqn:Ev.
    + destruct (ne_str (p !! "type") ty) eqn:Ety; [discriminate|].
      intros H. inversion H. subst p.
      split; [split; reflexivity|]. split.
      * eapply validate_claims_unit. exact Ev.
      * apply ne_str_false. exact Ety.
    + destruct (is_JWTError e); discriminate.
  - intros ((-> & Hsup) & Hv & Hty).
    rewrite mem_singleton, String.eqb_refl, Hsup, String.eqb_refl. cbn [negb andb].
    rewrite Hv. apply ne_str_false in Hty. rewrite Hty. reflexivity.
Qed.


Lemma verify_token_at_rejects
  (now : Z) (token : Jose.token) (ty : string) :
  (forall payload,
      ~ (well_signed token payload
         /\ Jose.validate_claims payload (Jose.timegm now) = Ret tt
         /\ payload !! "type" = Some (Jose.JStr ty))) ->
  verify_token_at now token ty = Ret None.
Proof.
  intros Hno. destruct (verify_token_at_total now token ty) as [H|[payload H]].
  - exact H.
  - exfalso. apply (Hno payload). apply verify_token_at_accepts_iff. exact H.
Qed.

Lemma validate_claims_exp (c : gmap string Jose.jvalue) (now : Z) (v : Jose.jvalue) :
  Jose.validate_claims c now = Ret tt ->
  c !! "exp" = Some v ->
  exists exp, Jose.int_of v = Some exp /\ now <= exp.
Proof.
  unfold Jose.validate_claims, Jose.and_then. intros H Hexp.
  destruct (Jose.validate_iat c); [|discriminate H].
  destruct (Jose.validate_nbf c now); [|discriminate H].
  destruct (Jose.validate_exp c now) eqn:E; [|discriminate H].
  unfold Jose.validate_exp in E. rewrite Hexp in E.
  destruct (Jose.int_of v) as [exp|]; [|discriminate E].
  exists exp. split; [reflexivity|].
  destruct (Z.ltb_spec exp now); [discriminate E|lia].
Qed.

Lemma validate_claims_expired (c : gmap string Jose.jvalue) (now : Z) (v : Jose.jvalue) (exp : Z) :
  c !! "exp" = Some v -> Jose.int_of v = Some exp -> exp < now ->
  Jose.validate_claims c now <> Ret tt.
Proof.
  intros Hexp Hint Hlt H.
  destruct (validate_claims_exp c now v H Hexp) as (exp' & Hint' & Hle).
  rewrite Hint in Hint'. inversion Hint'. lia.
Qed.

(** C4, as it holds.  [verify_token] returns the decoded claims exactly
    when the token is a well-formed object signed with the configured
    secret under the configured algorithm, the library's checks of its
    registered claims pass at the current time in whole seconds, and its
    [type] claim is the expected string.  Those checks include the expiry:
    an [exp] claim, when present, is an integer date not earlier than the
    current second.  In every other case the answer is [None], never an
    exception: for a malformed string, a signature under another key,
    another algorithm, an expired token and a wrong type alike. *)
Theorem verify_token_accepts_exactly (now : Z) (token : Jose.token) (ty : string) :
  (forall payload,
      verify_token_at now token ty = Ret (Some payload)
      <-> well_signed token payload
          /\ Jose.validate_claims payload (Jose.timegm now) = Ret tt
          /\ payload !! "type" = Some (Jose.JStr ty))
  /\ (forall payload v,
        Jose.validate_claims payload (Jose.timegm now) = Ret tt ->
        payload !! "exp" = Some v ->
        exists exp, Jose.int_of v = Some exp /\ Jose.timegm now <= exp)
  /\ ((forall payload, verify_token_at now token ty <> Ret (Some payload)) ->
      verify_token_at now token ty = Ret None)
  /\ (forall s, token = Jose.Garbage s -> verify_token_at now token ty = Ret None)
  /\ (forall alg key payload,
        token = Jose.Signed alg key payload ->
        key <> SECRET_KEY settings \/ alg <> ALGORITHM settings ->
        verify_token_at now token ty = Ret None)
  /\ (forall alg key payload v exp,
        token = Jose.Signed alg key payload ->
        payload !! "exp" = Some v -> Jose.int_of v = Some exp ->
        exp < Jose.timegm now ->
        verify_token_at now token ty = Ret None)
  /\ (forall alg key payload,
        token = Jose.Signed alg key payload ->
        payload !! "type" <> Some (Jose.JStr ty) ->
        verify_token_at now token ty = Ret None)
  /\ (forall w, verify_token token ty w
                = (verify_token_at (clock (clock_reads w)) token ty, tick_clock w)).
Proof.
  split; [intros payload; apply verify_token_at_accepts_iff|].
  split; [intros payload v; apply validate_claims_exp|].
  split.
  { intros Hno. destruct (verify_token_at_total now token ty) as [H|[payload H]];
      [exact H|]. exfalso. exact (Hno payload H). }
  split.
  { intros s ->. reflexivity. }
  split.
  { intros alg key payload -> Hbad. apply verify_token_at_rejects.
    intros p ((Heq & _) & _). inversion Heq. subst. destruct Hbad; congruence. }
  split.
  { intros alg key payload v exp -> Hexp Hint Hlt. apply verify_token_at_rejects.
    intros p ((Heq & _) & Hv & _). inversion Heq. subst.
    exact (validate_claims_expired _ _ _ _ Hexp Hint Hlt Hv). }
  split.
  { intros alg key payload -> Hty. apply verify_token_at_rejects.
    intros p ((Heq & _) & _ & Hty'). inversion Heq. subst. exact (Hty Hty'). }
  intros w. apply verify_token_world.
Qed.


Lemma payload_of_stamped (ty : string) (t ttl : Z) (subject : gmap string Jose.pyval) :
  Jose.payload_of (stamped ty t ttl subject)
  = stamped_payload ty t ttl (Jose.payload_of subject).
Proof.
  unfold Jose.payload_of, stamped, stamped_payload.
  rewrite (map_imap_insert_Some _ "type" _ _ (Jose.JStr ty)) by reflexivity.
  rewrite (map_imap_insert_Some _ "iat" _ _ (Jose.JInt (Jose.timegm t))) by reflexivity.
  rewrite (map_imap_insert_Some _ "exp" _ _ (Jose.JInt (Jose.timegm (t + ttl))))
    by reflexivity.
  reflexivity.
Qed.

Lemma encode_stamped
  (ty : string) (t ttl : Z) (subject : gmap string Jose.pyval) (key alg : string)
  (token : Jose.token) :
  Jose.encode (stamped ty t ttl subject) key alg = Ret token ->
  token = Jose.Signed alg key (stamped_payload ty t ttl (Jose.payload_of subject))
  /\ Jose.mem alg Jose.supported = true.
Proof.
  unfold Jose.encode.
  destruct (Jose.mem alg Jose.supported); cbn [negb]; [|discriminate].
  destruct (Jose.serialisable _); cbn [negb]; [|discriminate].
  intros H. inversion H. rewrite payload_of_stamped. split; reflexivity.
Qed.

Lemma stamped_payload_type (ty : string) (t ttl : Z) (c : gmap string Jose.jvalue) :
  stamped_payload ty t ttl c !! "type" = Some (Jose.JStr ty).
Proof. unfold stamped_payload. apply lookup_insert_eq. Qed.

Lemma stamped_payload_iat (ty : string) (t ttl : Z) (c : gmap string Jose.jvalue) :
  stamped_payload ty t ttl c !! "iat" = Some (Jose.JInt (Jose.timegm t)).
Proof.
  unfold stamped_payload. rewrite lookup_insert_ne by discriminate.
  apply lookup_insert_eq.
Qed.

Lemma stamped_payload_exp (ty : string) (t ttl : Z) (c : gmap string Jose.jvalue) :
  stamped_payload ty t ttl c !! "exp" = Some (Jose.JInt (Jose.timegm (t + ttl))).
Proof.
  unfold stamped_payload. rewrite !lookup_insert_ne by discriminate.
  apply lookup_insert_eq.
Qed.

Lemma stamped_payload_other
  (ty : string) (t ttl : Z) (c : gmap string Jose.jvalue) (k : string) :
  k <> "type" -> k <> "iat" -> k <> "exp" ->
  stamped_payload ty t ttl c !! k = c !! k.
Proof.
  intros H1 H2 H3. unfold stamped_payload.
  rewrite !lookup_insert_ne by congruence. reflexivity.
Qed.

Lemma validate_claims_stamped
  (ty : string) (t ttl : Z) (c : gmap string Jose.jvalue) (now : Z) :
  registered_claims_ok c now = true ->
  now <= Jose.timegm (t + ttl) ->
  Jose.validate_claims (stamped_payload ty t ttl c) now = Ret tt.
Proof.
  unfold registered_claims_ok, Jose.validate_claims. intros Hok Hexp.
  unfold Jose.validate_iat, Jose.validate_exp.
  rewrite stamped_payload_iat, stamped_payload_exp. cbn [Jose.int_of Jose.and_then].
  unfold Jose.validate_nbf, Jose.validate_aud, Jose.validate_sub, Jose.validate_jti,
    Jose.validate_at_hash in *.
  rewrite !stamped_payload_other by discriminate.
  destruct (Z.ltb_spec (Jose.timegm (t + ttl)) now); [lia|].
  destruct (c !! "nbf") as [v|];
    [destruct (Jose.int_of v) as [n|]; [destruct (now <? n)|]|];
    cbn [Jose.and_then] in *; try discriminate Hok.
  all: destruct (c !! "aud"); cbn [Jose.and_then] in *; try discriminate Hok.
  all: destruct (c !! "sub") as [v1|]; [destruct (Jose.is_str v1)|];
    cbn [Jose.and_then] in *; try discriminate Hok.
  all: destruct (c !! "jti") as [v2|]; [destruct (Jose.is_str v2)|];
    cbn [Jose.and_then] in *; try discriminate Hok.
  all: destruct (c !! "at_hash"); try discriminate Hok; reflexivity.
Qed.


(** C5, as it holds.  Each of the four creators signs the caller's claims
    updated with [exp], [iat] and its own [type].  For a token issued
    that way: verification with the same type returns exactly those
    claims (the caller's fields, [exp] and [iat] as integer dates, and
    [type]) whenever the token is not expired and the registered claims
    the caller supplied pass the library's checks (among them: [sub], if
    present, is a string); verification with any other expected type
    returns [None], whatever the time. *)
Theorem token_round_trip :
  (forall subject d w,
      create_access_token subject d w
      = (Jose.encode
           (stamped "access" (clock (clock_reads w))
              (or_timedelta d (timedelta_minutes (ACCESS_TOKEN_EXPIRE_MINUTES settings)))
              subject)
           (SECRET_KEY settings) (ALGORITHM settings), tick_clock w))
  /\ (forall subject d w,
      create_refresh_token subject d w
      = (Jose.encode
           (stamped "refresh" (clock (clock_reads w))
              (or_timedelta d (timedelta_days (REFRESH_TOKEN_EXPIRE_DAYS settings)))
              subject)
           (SECRET_KEY settings) (ALGORITHM settings), tick_clock w))
  /\ (forall e w,
      create_email_verification_token e w
      = (Jose.encode
           (stamped "email_verification" (clock (clock_reads w))
              (timedelta_hours (EMAIL_VERIFICATION_EXPIRE_HOURS settings))
              (<["sub" := Jose.PStr e]> ∅))
           (SECRET_KEY settings) (ALGORITHM settings), tick_clock w))
  /\ (forall e w,
      create_password_reset_token e w
      = (Jose.encode
           (stamped "password_reset" (clock (clock_reads w))
              (timedelta_hours (PASSWORD_RESET_EXPIRE_HOURS settings))
              (<["sub" := Jose.PStr e]> ∅))
           (SECRET_KEY settings) (ALGORITHM settings), tick_clock w))
  /\ (forall (ty : string) (t ttl : Z) (subject : gmap string Jose.pyval)
             (token : Jose.token),
      Jose.encode (stamped ty t ttl subject) (SECRET_KEY settings) (ALGORITHM settings)
      = Ret token ->
      let payload := stamped_payload ty t ttl (Jose.payload_of subject) in
      (forall now,
          registered_claims_ok (Jose.payload_of subject) (Jose.timegm now) = true ->
          Jose.timegm now <= Jose.timegm (t + ttl) ->
          verify_token_at now token ty = Ret (Some payload))
      /\ payload !! "type" = Some (Jose.JStr ty)
      /\ payload !! "iat" = Some (Jose.JInt (Jose.timegm t))
      /\ payload !! "exp" = Some (Jose.JInt (Jose.timegm (t + ttl)))
      /\ (forall k, k <> "type" -> k <> "iat" -> k <> "exp" ->
                    payload !! k = subject !! k ≫= Jose.to_json k)
      /\ (forall now other, other <> ty -> verify_token_at now token other = Ret None)).
Proof.
  split; [reflexivity|]. split; [reflexivity|].
  split; [reflexivity|]. split; [reflexivity|].
  intros ty t ttl subject token Henc payload.
  destruct (encode_stamped ty t ttl subject _ _ token Henc) as [Htok Hsup].
  fold payload in Htok.
  split.
  { intros now Hok Hexp. apply verify_token_at_accepts_iff.
    split; [split; [exact Htok|exact Hsup]|].
    split; [apply validate_claims_stamped; assumption|apply stamped_payload_type]. }
  split; [apply stamped_payload_type|].
  split; [apply stamped_payload_iat|].
  split; [apply stamped_payload_exp|].
  split.
  { intros k H1 H2 H3. unfold payload.
    rewrite stamped_payload_other by assumption.
    unfold Jose.payload_of. apply map_lookup_imap. }
  intros now other Hne. apply verify_token_at_rejects.
  intros p ((Heq & _) & _ & Hty). rewrite Htok in Heq. inversion Heq. subst p.
  unfold payload in Hty. rewrite stamped_payload_type in Hty.
  inversion Hty. congruence.
Qed.


(** ** Credential hasher *)

(** C8 at a digest that is no bcrypt digest: [verify_password] does not
    answer [False]; the library's [UnknownHashError] leaves the function,
    whatever the bcrypt handler would do. *)
Theorem verify_password_unidentified_digest (w : World) :
  verify_password "secret" "not-a-hash" w = (Raise UnknownHashError, count_hash_check w).
Proof. reflexivity. Qed.

(** ** Password reset *)

Lemma is_strong_password_accepts (password : string) :
  fst (Validators.validate_password_strength settings password) = true ->
  Validators.is_strong_password settings password = Ret true.
Proof.
  unfold Validators.is_strong_password.
  destruct (Validators.validate_password_strength settings password) as [ok msg].
  cbn [fst]. intros ->. reflexivity.
Qed.

Lemma is_strong_password_rejects (password reason : string) :
  Validators.validate_password_strength settings password = (false, reason) ->
  Validators.is_strong_password settings password = Raise (ValueError reason).
Proof. unfold Validators.is_strong_password. intros ->. reflexivity. Qed.

(** C9.  With a new password that passes the policy and a token that is
    signed with the configured secret and unexpired but whose [type] is
    not [password_reset], [reset_password] returns [False] and the table
    is as before.  The policy comes first: with a password it rejects the
    call raises the policy's reason before the token is looked at (not
    even the clock is read for it), and the world is untouched. *)
Theorem reset_password_wrong_type_token
  (w : World) (token : Jose.token) (new_password : string)
  (payload : gmap string Jose.jvalue) :
  fst (Validators.validate_password_strength settings new_password) = true ->
  well_signed token payload ->
  Jose.validate_claims payload (Jose.timegm (clock (clock_reads w))) = Ret tt ->
  payload !! "type" <> Some (Jose.JStr "password_reset") ->
  (exists w',
      reset_password token new_password w = (Ret false, w')
      /\ rows w' = rows w
      /\ salts_drawn w' = salts_drawn w)
  /\ (forall (any_token : Jose.token) (weak reason : string),
        Validators.validate_password_strength settings weak = (false, reason) ->
        reset_password any_token weak w = (Raise (ValueError reason), w)).
Proof.
  intros Hstrong Hsigned Hvalid Htype. split.
  - exists (tick_clock w). split; [|split; reflexivity].
    unfold reset_password, bind.
    unfold lift at 1. rewrite (is_strong_password_accepts new_password Hstrong).
    rewrite verify_token_world.
    destruct Hsigned as [Htok Hsup].
    destruct (verify_token_at_total (clock (clock_reads w)) token
                "password_reset") as [Hnone|[p Hp]].
    + rewrite Hnone. reflexivity.
    + exfalso. apply verify_token_at_accepts_iff in Hp.
      destruct Hp as ((Heq & _) & _ & Hty). rewrite Htok in Heq.
      inversion Heq. subst p. exact (Htype Hty).
  - intros any_token weak reason Hweak.
    unfold reset_password, bind. unfold lift at 1.
    rewrite (is_strong_password_rejects weak reason Hweak). reflexivity.
Qed.


(** ** Token refresh *)

Lemma accepted_payload_not_falsy
  (now : Z) (token : Jose.token) (ty : string) (payload : gmap string Jose.jvalue) :
  verify_token_at now token ty = Ret (Some payload) ->
  falsy_payload (Some payload) = false.
Proof.
  intros H. apply verify_token_at_accepts_iff in H. destruct H as (_ & _ & Hty).
  unfold falsy_payload. apply bool_decide_eq_false. intros ->.
  rewrite lookup_empty in Hty. discriminate Hty.
Qed.

(** C10.  [refresh_access_token] applies [int] to the [sub] claim without
    a guard: for every token that is signed with the configured secret,
    unexpired and of type [refresh], and whose [sub] is a non-empty string
    that [int] does not parse, the call raises [ValueError].  When the
    call does return [None], the token failed verification, or its [sub]
    is missing (absent or empty), or [sub] parsed and the user with that
    id is absent or inactive. *)
Theorem refresh_access_token_unguarded_int :
  (forall (w : World) (token : Jose.token) (payload : gmap string Jose.jvalue)
          (s : string),
      well_signed token payload ->
      Jose.validate_claims payload (Jose.timegm (clock (clock_reads w))) = Ret tt ->
      payload !! "type" = Some (Jose.JStr "refresh") ->
      payload !! "sub" = Some (Jose.JStr s) ->
      s <> "" ->
      PyStr.int s = None ->
      refresh_access_token token w
      = (Raise (ValueError ("invalid literal for int() with base 10: '" +:+ s +:+ "'")),
         tick_clock w))
  /\ (forall (w w' : World) (token : Jose.token),
      refresh_access_token token w = (Ret None, w') ->
      let now := clock (clock_reads w) in
      verify_token_at now token "refresh" = Ret None
      \/ exists payload,
          verify_token_at now token "refresh" = Ret (Some payload)
          /\ (falsy_claim (payload !! "sub") = true
              \/ exists v n,
                  payload !! "sub" = Some v
                  /\ int_of_claim v = Ret n
                  /\ (fst (Db.select_by_id n w) = Ret None
                      \/ exists u, fst (Db.select_by_id n w) = Ret (Some u)
                                   /\ is_active u = false))).
Proof.
  split.
  - intros w token payload s Hsigned Hvalid Hty Hsub Hne Hint.
    assert (Hv : verify_token_at (clock (clock_reads w)) token "refresh"
                 = Ret (Some payload)).
    { apply verify_token_at_accepts_iff. repeat split; try assumption;
        destruct Hsigned; assumption. }
    unfold refresh_access_token. unfold bind at 1. rewrite verify_token_world, Hv.
    rewrite (accepted_payload_not_falsy _ _ _ _ Hv).
    cbn [mbind option_bind]. rewrite Hsub. cbn [truthy].
    apply String.eqb_neq in Hne. rewrite Hne. cbn [negb].
    unfold bind, lift. cbn [int_of_claim]. rewrite Hint. reflexivity.
  - intros w w' token H now.
    unfold refresh_access_token in H. unfold bind at 1 in H.
    rewrite verify_token_world in H. fold now in H.
    destruct (verify_token_at_total now token "refresh") as [Hnone|[payload Hp]].
    { left. exact Hnone. }
    right. exists payload. split; [exact Hp|].
    rewrite Hp in H. rewrite (accepted_payload_not_falsy _ _ _ _ Hp) in H.
    cbn [mbind option_bind] in H.
    destruct (payload !! "sub") as [v|]; [|left; reflexivity].
    cbn [falsy_claim].
    destruct (truthy v) eqn:Htruthy; cbn [negb] in *; [|left; reflexivity].
    right. unfold bind at 1 in H. unfold lift at 1 in H.
    destruct (int_of_claim v) as [n|ex] eqn:Hint; [|discriminate H].
    exists v, n. split; [reflexivity|]. split; [exact Hint|].
    unfold bind at 1 in H. unfold Db.select_by_id in *. cbn [fst].
    change (rows (tick_clock w)) with (rows w) in H.
    destruct (Db.scalar_one_or_none _) as [[u|]|ex]; [| left; reflexivity | discriminate H].
    right. exists u. split; [reflexivity|].
    destruct (is_active u); [|reflexivity].
    exfalso. cbn [negb] in H.
    revert H. issue_tokens; discriminate.
Qed.


(** ** Registration *)

(** Whatever a login attempt does to the table, the columns outside the
    lockout bookkeeping stay as they are. *)
Lemma authenticate_unlocked_rows
  (w w' : World) (password : string) (u : User) (r : result (option (User * Tokens))) :
  authenticate_unlocked u password w = (r, w') ->
  rows w' = rows w
  \/ exists u', same_account u u' /\ rows w' = Db.write u' (rows w).
Proof.
  destruct (is_active u) eqn:Hactive.
  - destruct (Passlib.verify bcrypt_verify password (hashed_password u))
      as [[|]|ex] eqn:Hverify.
    + unfold authenticate_unlocked. rewrite Hactive. cbn [negb].
      unfold bind at 1. unfold verify_password at 1. rewrite Hverify. cbn [negb].
      destruct (0 <? failed_login_attempts u).
      * intros H. right.
        exists (set_last_failed_login None (set_failed_login_attempts 0 u)).
        split; [unfold same_account; cbn; repeat split; reflexivity|].
        revert H. issue_tokens; intros H; inversion H; reflexivity.
      * intros H. left.
        revert H. issue_tokens; intros H; inversion H; reflexivity.
    + rewrite (authenticate_unlocked_failed_password w password u Hactive Hverify).
      intros H. inversion H. right. eexists. split; [|cbn [rows]; reflexivity].
      unfold same_account. cbn. repeat split; reflexivity.
    + unfold authenticate_unlocked. rewrite Hactive. cbn [negb].
      unfold bind at 1. unfold verify_password at 1. rewrite Hverify.
      intros H. inversion H. left. reflexivity.
  - unfold authenticate_unlocked. rewrite Hactive. cbn [negb]. unfold ret.
    intros H. inversion H. left. reflexivity.
Qed.

Lemma same_account_trans (u1 u2 u3 : User) :
  same_account u1 u2 -> same_account u2 u3 -> same_account u1 u3.
Proof. unfold same_account. intuition congruence. Qed.

Lemma authenticate_user_rows
  (w w' : World) (e password : string) (r : result (option (User * Tokens))) :
  authenticate_user e password w = (r, w') ->
  rows w' = rows w
  \/ exists u u', user_exists w e u /\ same_account u u'
                  /\ rows w' = Db.write u' (rows w).
Proof.
  intros H.
  destruct (Db.select_by_email e w) as [[[u|]|ex] w1] eqn:Hsel.
  - assert (w1 = w) by (unfold Db.select_by_email in Hsel; inversion Hsel; reflexivity).
    subst w1.
    destruct (lockout_cases u) as [Hcmp|(Hnaive & until & Hl)].
    2: { left. rewrite (authenticate_user_naive w e password u until Hnaive Hsel Hl) in H.
         inversion H. reflexivity. }
    destruct (locked_at (clock (clock_reads w)) u) eqn:Hlock.
    + left. unfold locked_at in Hlock.
      destruct (account_locked_until u) as [until|] eqn:Hl; [|discriminate Hlock].
      destruct Hcmp as [Hnone|Ha]; [rewrite Hl in Hnone; discriminate Hnone|].
      rewrite (authenticate_user_while_locked w e password u until Ha Hsel Hl) in H;
        [|apply Z.ltb_lt; exact Hlock].
      inversion H. reflexivity.
    + rewrite (authenticate_user_not_locked w e password u Hsel Hcmp Hlock) in H.
      apply authenticate_unlocked_rows in H.
      pose proof (same_account_after_lockout_check u) as Hsame.
      unfold user_after_lockout_check, world_after_lockout_check in *.
      destruct (account_locked_until u) as [until|].
      * right. cbn [rows with_rows tick_clock] in H.
        destruct H as [H|(u' & Hs & H)].
        -- exists u, (lockout_cleared u).
           split; [exact Hsel|]. split; [exact Hsame|exact H].
        -- exists u, u'. split; [exact Hsel|].
           split; [exact (same_account_trans _ _ _ Hsame Hs)|].
           rewrite H. apply write_write. destruct Hs as [Hid _]. symmetry. exact Hid.
      * destruct H as [H|(u' & Hs & H)]; [left; exact H|].
        right. exists u, u'.
        split; [exact Hsel|]. split; [exact Hs|exact H].
  - left. unfold authenticate_user, bind in H. rewrite Hsel in H.
    unfold ret in H. inversion H. subst.
    unfold Db.select_by_email in Hsel. inversion Hsel. reflexivity.
  - left. unfold authenticate_user, bind in H. rewrite Hsel in H.
    inversion H. subst.
    unfold Db.select_by_email in Hsel. inversion Hsel. reflexivity.
Qed.


Lemma get_password_hash_hashable (password : string) (w : World) :
  Passlib.hashable password = true ->
  get_password_hash password w
  = (Ret (bcrypt_hash password (salts_drawn w)), draw_salt w).
Proof.
  unfold Passlib.hashable, get_password_hash. intros H.
  apply andb_true_iff in H. destruct H as [H1 H2].
  apply negb_true_iff in H1, H2. rewrite H1, H2. reflexivity.
Qed.

(** A password [hash] refuses: a [ValueError], with no salt drawn for a
    password that is too long. *)
Lemma get_password_hash_refused (password : string) (w : World) :
  Passlib.hashable password = false ->
  get_password_hash password w
  = (Raise (ValueError (Passlib.refusal password)),
     if Passlib.too_long password then w else draw_salt w).
Proof.
  unfold Passlib.hashable, Passlib.refusal, get_password_hash. intros H.
  destruct (Passlib.too_long password); [reflexivity|].
  destruct (Passlib.has_null password); [reflexivity|discriminate H].
Qed.

Lemma register_user_persists (e un password : string) (w : World) :
  fst (Validators.validate_password_strength settings password) = true ->
  Passlib.hashable password = true ->
  List.existsb (fun u => String.eqb (email u) e) (rows w) = false ->
  let user :=
    {| id := next_id w; email := e; username := un;
       hashed_password := bcrypt_hash password (salts_drawn w);
       is_verified := false; is_active := true; failed_login_attempts := 0;
       last_failed_login := None; account_locked_until := None |} in
  register_user e un password w
  = (Ret (Some user),
     {| rows := rows w ++ [user]; next_id := next_id w + 1;
        clock_reads := clock_reads w; salts_drawn := S (salts_drawn w);
        hash_checks := hash_checks w; outbox := outbox w |}).
Proof.
  intros Hstrong Hhash Hfree. cbv zeta.
  unfold register_user, bind. unfold lift at 1.
  rewrite (is_strong_password_accepts password Hstrong).
  rewrite (get_password_hash_hashable password w Hhash).
  unfold Db.add_commit_refresh.
  cbn [rows draw_salt next_id salts_drawn clock_reads hash_checks outbox].
  rewrite Hfree. reflexivity.
Qed.

(** [register_user] with a password the policy accepts and [hash]
    refuses: the [ValueError] of the hasher leaves the function. *)
Lemma register_user_unhashable (e un password : string) (w : World) :
  fst (Validators.validate_password_strength settings password) = true ->
  Passlib.hashable password = false ->
  register_user e un password w
  = (Raise (ValueError (Passlib.refusal password)),
     if Passlib.too_long password then w else draw_salt w).
Proof.
  intros Hstrong Hhash.
  unfold register_user, bind. unfold lift at 1.
  rewrite (is_strong_password_accepts password Hstrong).
  rewrite (get_password_hash_refused password w Hhash). reflexivity.
Qed.

(** The handlers of [register] turn every exception into a response. *)
Lemma register_responds (payload : UserCreate) (w : World) :
  exists resp, register payload w = (Ret resp, snd (register_try payload w)).
Proof.
  unfold register. destruct (register_try payload w) as [[r|e] w'].
  - exists r. reflexivity.
  - cbn [snd]. destruct (as_ValueError e); [eexists; reflexivity|].
    destruct e; eexists; reflexivity.
Qed.

Lemma select_new_user (w : World) (user : User) :
  List.existsb (fun u => String.eqb (email u) (email user)) (rows w) = false ->
  List.filter (fun u => String.eqb (email u) (email user)) (rows w ++ [user]) = [user].
Proof.
  intros Hfree. rewrite List.filter_app. cbn [List.filter].
  rewrite String.eqb_refl.
  assert (Hnil : List.filter (fun u => String.eqb (email u) (email user)) (rows w) = []).
  { induction (rows w) as [|x l IH]; [reflexivity|].
    cbn [List.existsb] in Hfree. apply orb_false_iff in Hfree.
    destruct Hfree as [Hx Hl]. cbn [List.filter]. rewrite Hx. exact (IH Hl). }
  rewrite Hnil. reflexivity.
Qed.

Lemma write_snoc (u u' : User) (l : list User) :
  id u = id u' -> Db.write u' (l ++ [u]) = (Db.write u' l ++ [u'])%list.
Proof.
  intros Hid. unfold Db.write. rewrite List.map_app. cbn [List.map].
  rewrite Hid, Z.eqb_refl. reflexivity.
Qed.


(** C7.  [register], given an address, a user name and a password that
    pass its guards and the password policy, with the normalised address
    not yet taken.  When the hasher makes a digest of the password the
    call answers, and the table afterwards is the old table (same length)
    followed by one new row whose [email] is the input address stripped
    and lower-cased, whose [username] is the input name stripped, and
    which has [is_verified] false and [is_active] true.  When the hasher
    refuses the password (more than 4096 characters, or a NUL in it)
    nothing is persisted: the answer is a 400 with the hasher's words. *)
Theorem register_persists_normalized_user (payload : UserCreate) (w : World) :
  payload_email payload <> "" ->
  payload_username payload <> "" ->
  payload_password payload <> "" ->
  PyStr.strip (payload_email payload) <> "" ->
  PyStr.strip (payload_username payload) <> "" ->
  fst (Validators.validate_password_strength settings (payload_password payload)) = true ->
  List.existsb
    (fun u => String.eqb (email u) (PyStr.lower (PyStr.strip (payload_email payload))))
    (rows w) = false ->
  (Passlib.hashable (payload_password payload) = true ->
   exists (resp : Response) (w' : World) (before : list User) (u' : User),
     register payload w = (Ret resp, w')
     /\ rows w' = (before ++ [u'])%list
     /\ length before = length (rows w)
     /\ id u' = next_id w
     /\ email u' = PyStr.lower (PyStr.strip (payload_email payload))
     /\ username u' = PyStr.strip (payload_username payload)
     /\ is_verified u' = false
     /\ is_active u' = true)
  /\ (Passlib.hashable (payload_password payload) = false ->
      exists w',
        register payload w
        = (Ret (HTTPException 400 (Passlib.refusal (payload_password payload))), w')
        /\ rows w' = rows w).
Proof.
  intros He Hu Hp Hse Hsu Hstrong Hfree.
  split.
  2: { intros Hhash. unfold register, register_try.
       apply String.eqb_neq in He, Hu, Hp, Hse, Hsu.
       rewrite He, Hu, Hp, Hse, Hsu. cbn [orb].
       unfold bind at 1.
       rewrite (register_user_unhashable _ _ _ w Hstrong Hhash).
       cbn [as_ValueError]. eexists. split; [reflexivity|].
       destruct (Passlib.too_long (payload_password payload)); reflexivity. }
  intros Hhash.
  destruct (register_responds payload w) as [resp Hresp].
  exists resp, (snd (register_try payload w)).
  pose (e := PyStr.lower (PyStr.strip (payload_email payload))).
  pose (un := PyStr.strip (payload_username payload)).
  pose (user := {| id := next_id w; email := e; username := un;
                  hashed_password := bcrypt_hash (payload_password payload) (salts_drawn w);
                  is_verified := false; is_active := true; failed_login_attempts := 0;
                  last_failed_login := None; account_locked_until := None |}).
  assert (Hrows : exists before u',
             rows (snd (register_try payload w)) = (before ++ [u'])%list
             /\ length before = length (rows w)
             /\ same_account user u').
  { unfold register_try.
    apply String.eqb_neq in He, Hu, Hp, Hse, Hsu.
    rewrite He, Hu, Hp, Hse, Hsu. cbn [orb].
    fold e un. fold e in Hfree.
    unfold bind at 1.
    rewrite (register_user_persists e un (payload_password payload) w Hstrong Hhash Hfree).
    fold user. change (email user) with e. change (username user) with un.
    set (w1 := {| rows := rows w ++ [user]; next_id := next_id w + 1;
                  clock_reads := clock_reads w; salts_drawn := S (salts_drawn w);
                  hash_checks := hash_checks w; outbox := outbox w |}).
    unfold bind at 1.
    destruct (create_email_verification_token e w1) as [[vt|ex] w2] eqn:Hvt.
    2: { cbn [snd].
         assert (Hw2 : rows w2 = rows w1).
         { unfold create_email_verification_token, bind, datetime_now, lift in Hvt.
           inversion Hvt. reflexivity. }
         exists (rows w), user. rewrite Hw2.
         split; [reflexivity|]. split; [reflexivity|apply same_account_refl]. }
    assert (Hw2 : rows w2 = rows w1).
    { unfold create_email_verification_token, bind, datetime_now, lift in Hvt.
      inversion Hvt. reflexivity. }
    unfold bind at 1. unfold send_verification_email at 1.
    unfold bind at 1.
    destruct (authenticate_user e (payload_password payload)
                (post {| mail_to := e; mail_username := un |} w2))
      as [r w3] eqn:Hauth.
    assert (Hw3 : exists before u',
               rows w3 = (before ++ [u'])%list
               /\ length before = length (rows w) /\ same_account user u').
    { apply authenticate_user_rows in Hauth.
      cbn [rows post] in Hauth. rewrite Hw2 in Hauth. cbn [rows w1] in Hauth.
      destruct Hauth as [Hsame|(u0 & u' & Hex & Hsame & Hwr)].
      - exists (rows w), user. rewrite Hsame.
        split; [reflexivity|]. split; [reflexivity|apply same_account_refl].
      - assert (Hu0 : u0 = user).
        { unfold user_exists, Db.select_by_email in Hex. cbn [rows post] in Hex.
          rewrite Hw2 in Hex. cbn [rows w1] in Hex.
          pose proof (select_new_user w user Hfree) as Hsel. cbn [email user] in Hsel.
          rewrite Hsel in Hex. inversion Hex. reflexivity. }
        subst u0. exists (Db.write u' (rows w)), u'. rewrite Hwr.
        split; [apply write_snoc; destruct Hsame as [Hid _]; symmetry; exact Hid|].
        split; [unfold Db.write; apply List.length_map|exact Hsame]. }
    destruct r as [[[u1 tokens]|]|ex]; cbn [snd]; exact Hw3. }
  destruct Hrows as (before & u' & Hr & Hlen & Hsame).
  exists before, u'. split; [exact Hresp|]. split; [exact Hr|]. split; [exact Hlen|].
  destruct Hsame as (Hid & Hem & Hun & _ & Hve & Hac).
  cbn in Hid, Hem, Hun, Hve, Hac. repeat split; assumption.
Qed.

(** * Further properties *)

(** ** The builtins [str] and [int] on integers *)

Lemma digits_of_uint_acc (d : Decimal.uint) (p : positive) :
  PyStr.digits (NilEmpty.string_of_uint d) (Z.pos p) true
  = Some (Z.pos (Pos.of_uint_acc d p)).
Proof.
  revert p. induction d; intros p; cbn [NilEmpty.string_of_uint Pos.of_uint_acc];
    [reflexivity | ..];
    match goal with
    | |- PyStr.digits (String ?c _) _ _ = _ =>
        change (PyStr.digits (String c (NilEmpty.string_of_uint d)) (Z.pos p) true)
          with (PyStr.digits (NilEmpty.string_of_uint d)
                  (10 * Z.pos p + (PyStr.code c - 48)) true)
    end;
    rewrite <- IHd; f_equal; unfold PyStr.code;
    match goal with
    | |- context [Z.of_nat ?n] =>
        let v := eval vm_compute in (Z.of_nat n) in change (Z.of_nat n) with v
    end; lia.
Qed.

Lemma digits_of_uint (d : Decimal.uint) (b : bool) :
  d <> Decimal.Nil ->
  PyStr.digits (NilEmpty.string_of_uint d) 0 b = Some (Z.of_N (Pos.of_uint d)).
Proof.
  revert b. induction d; intros b Hne; [exfalso; apply Hne; reflexivity | ..];
    cbn [NilEmpty.string_of_uint Pos.of_uint].
  - change (PyStr.digits (String "0" (NilEmpty.string_of_uint d)) 0 b)
      with (PyStr.digits (NilEmpty.string_of_uint d) 0 true).
    destruct d; try (apply IHd; discriminate). reflexivity.
  - apply (digits_of_uint_acc d 1).
  - apply (digits_of_uint_acc d 2).
  - apply (digits_of_uint_acc d 3).
  - apply (digits_of_uint_acc d 4).
  - apply (digits_of_uint_acc d 5).
  - apply (digits_of_uint_acc d 6).
  - apply (digits_of_uint_acc d 7).
  - apply (digits_of_uint_acc d 8).
  - apply (digits_of_uint_acc d 9).
Qed.

Lemma int_lstrip_id (s : string) :
  PyStr.search PyStr.is_int_space s = false -> PyStr.int_lstrip s = s.
Proof.
  destruct s as [|c r]; [reflexivity|]. cbn [PyStr.search PyStr.int_lstrip].
  intros H. apply orb_false_iff in H. destruct H as [Hc _]. rewrite Hc. reflexivity.
Qed.

Lemma int_rstrip_id (s : string) :
  PyStr.search PyStr.is_int_space s = false -> PyStr.int_rstrip s = s.
Proof.
  induction s as [|c r IH]; [reflexivity|]. cbn [PyStr.search PyStr.int_rstrip].
  intros H. apply orb_false_iff in H. destruct H as [Hc Hr].
  rewrite (IH Hr), Hc. destruct r; reflexivity.
Qed.

Lemma string_of_uint_no_space (d : Decimal.uint) :
  PyStr.search PyStr.is_int_space (NilEmpty.string_of_uint d) = false.
Proof.
  induction d; cbn [NilEmpty.string_of_uint PyStr.search]; [reflexivity | ..];
    rewrite IHd; reflexivity.
Qed.

Lemma int_of_uint_string (d : Decimal.uint) :
  d <> Decimal.Nil ->
  PyStr.int (NilEmpty.string_of_uint d) = Some (Z.of_N (Pos.of_uint d)).
Proof.
  intros Hne. unfold PyStr.int.
  rewrite (int_lstrip_id _ (string_of_uint_no_space d)).
  rewrite (int_rstrip_id _ (string_of_uint_no_space d)).
  rewrite <- (digits_of_uint d false Hne).
  destruct d; [exfalso; apply Hne; reflexivity | ..]; reflexivity.
Qed.

Lemma string_of_uint_nonnil (d : Decimal.uint) :
  d <> Decimal.Nil -> NilZero.string_of_uint d = NilEmpty.string_of_uint d.
Proof.
  intros Hne. unfold NilZero.string_of_uint.
  destruct d; [exfalso; apply Hne; reflexivity | ..]; reflexivity.
Qed.

(** [int(str(n)) == n] for every integer. *)
Lemma int_str (n : Z) : PyStr.int (PyStr.str n) = Some n.
Proof.
  unfold PyStr.str. destruct n as [|p|p]; cbn [Z.to_int NilZero.string_of_int].
  - reflexivity.
  - pose proof (DecimalPos.Unsigned.to_uint_nonnil p) as Hne.
    rewrite (string_of_uint_nonnil _ Hne), (int_of_uint_string _ Hne),
      DecimalPos.Unsigned.of_to.
    reflexivity.
  - pose proof (DecimalPos.Unsigned.to_uint_nonnil p) as Hne.
    rewrite (string_of_uint_nonnil _ Hne). unfold PyStr.int.
    assert (Hsp : PyStr.search PyStr.is_int_space
                    (String "-" (NilEmpty.string_of_uint (Pos.to_uint p))) = false).
    { cbn [PyStr.search]. rewrite string_of_uint_no_space. reflexivity. }
    rewrite (int_lstrip_id _ Hsp), (int_rstrip_id _ Hsp).
    rewrite (digits_of_uint _ false Hne), DecimalPos.Unsigned.of_to. reflexivity.
Qed.

Lemma str_not_empty (n : Z) : PyStr.str n <> "".
Proof.
  intros H. pose proof (int_str n) as Hi. rewrite H in Hi. discriminate Hi.
Qed.


(** ** Tokens the services issue for a subject *)

Lemma payload_of_sub (s : string) :
  Jose.payload_of {[ "sub" := Jose.PStr s ]} = {[ "sub" := Jose.JStr s ]}.
Proof.
  unfold Jose.payload_of. rewrite <- !insert_empty.
  rewrite (map_imap_insert_Some _ "sub" _ _ (Jose.JStr s)) by reflexivity.
  rewrite map_imap_empty. reflexivity.
Qed.

Lemma serialisable_stamped_sub (ty : string) (t ttl : Z) (s : string) :
  Jose.serialisable (stamped ty t ttl {[ "sub" := Jose.PStr s ]}) = true.
Proof.
  unfold Jose.serialisable, stamped. apply bool_decide_eq_true.
  repeat (apply map_Forall_insert_2; [eexists; reflexivity|]).
  apply map_Forall_empty.
Qed.

Lemma encode_issued (ty : string) (t ttl : Z) (s : string) :
  hmac_configured ->
  Jose.encode (stamped ty t ttl {[ "sub" := Jose.PStr s ]})
    (SECRET_KEY settings) (ALGORITHM settings)
  = Ret (issued ty s t ttl).
Proof.
  unfold hmac_configured, Jose.encode, issued. intros ->. cbn [negb].
  rewrite serialisable_stamped_sub. cbn [negb].
  rewrite payload_of_stamped, payload_of_sub. reflexivity.
Qed.

Lemma registered_claims_ok_sub (s : string) (now : Z) :
  registered_claims_ok {[ "sub" := Jose.JStr s ]} now = true.
Proof.
  unfold registered_claims_ok, Jose.validate_nbf, Jose.validate_aud, Jose.validate_sub,
    Jose.validate_jti, Jose.validate_at_hash.
  rewrite lookup_singleton_eq.
  rewrite !lookup_singleton_ne by discriminate. reflexivity.
Qed.

(** A token issued for a subject is accepted with its own type exactly
    until the second of its expiry, and never with another type. *)
Lemma issued_verifies (ty s : string) (t ttl now : Z) :
  hmac_configured ->
  verify_token_at now (issued ty s t ttl) ty
  = if Jose.timegm now <=? Jose.timegm (t + ttl)
    then Ret (Some (stamped_payload ty t ttl {[ "sub" := Jose.JStr s ]}))
    else Ret None.
Proof.
  intros Hh. destruct (Z.leb_spec (Jose.timegm now) (Jose.timegm (t + ttl))) as [Hle|Hgt].
  - apply verify_token_at_accepts_iff. split; [split; [reflexivity|exact Hh]|].
    split; [|apply stamped_payload_type].
    apply validate_claims_stamped; [apply registered_claims_ok_sub|exact Hle].
  - apply verify_token_at_rejects. intros p ((Heq & _) & Hv & _).
    unfold issued in Heq. inversion Heq. subst p.
    apply (validate_claims_expired _ _ _ (Jose.timegm (t + ttl))
             (stamped_payload_exp ty t ttl _) eq_refl Hgt Hv).
Qed.

Lemma issued_other_type (ty other s : string) (t ttl now : Z) :
  other <> ty ->
  verify_token_at now (issued ty s t ttl) other = Ret None.
Proof.
  intros Hne. apply verify_token_at_rejects. intros p ((Heq & _) & _ & Hty).
  unfold issued in Heq. inversion Heq. subst p.
  rewrite stamped_payload_type in Hty. inversion Hty. apply Hne. symmetry. assumption.
Qed.

Lemma issued_sub (ty s : string) (t ttl : Z) :
  stamped_payload ty t ttl {[ "sub" := Jose.JStr s ]} !! "sub" = Some (Jose.JStr s).
Proof.
  rewrite stamped_payload_other by discriminate. apply lookup_singleton_eq.
Qed.

Lemma create_access_token_issued (u : User) (w : World) :
  hmac_configured ->
  create_access_token (sub_of_id u) None w
  = (Ret (issued "access" (PyStr.str (id u)) (clock (clock_reads w))
            (timedelta_minutes (ACCESS_TOKEN_EXPIRE_MINUTES settings))),
     tick_clock w).
Proof.
  intros Hh. unfold create_access_token, bind, datetime_now, lift, sub_of_id.
  cbn [or_timedelta]. fold (stamped "access" (clock (clock_reads w))
    (timedelta_minutes (ACCESS_TOKEN_EXPIRE_MINUTES settings))
    {[ "sub" := Jose.PStr (PyStr.str (id u)) ]}).
  rewrite (encode_issued _ _ _ _ Hh). reflexivity.
Qed.

Lemma create_refresh_token_issued (u : User) (w : World) :
  hmac_configured ->
  create_refresh_token (sub_of_id u) None w
  = (Ret (issued "refresh" (PyStr.str (id u)) (clock (clock_reads w))
            (timedelta_days (REFRESH_TOKEN_EXPIRE_DAYS settings))),
     tick_clock w).
Proof.
  intros Hh. unfold create_refresh_token, bind, datetime_now, lift, sub_of_id.
  cbn [or_timedelta]. fold (stamped "refresh" (clock (clock_reads w))
    (timedelta_days (REFRESH_TOKEN_EXPIRE_DAYS settings))
    {[ "sub" := Jose.PStr (PyStr.str (id u)) ]}).
  rewrite (encode_issued _ _ _ _ Hh). reflexivity.
Qed.




(** ** Successful logins *)

(** The token pair lines 124-131 build for [u] at clock reading [n]. *)
Lemma encode_for_id (ty : string) (t ttl : Z) (u : User) (token : Jose.token) :
  Jose.encode (stamped ty t ttl (sub_of_id u)) (SECRET_KEY settings) (ALGORITHM settings)
  = Ret token ->
  token = issued ty (PyStr.str (id u)) t ttl /\ hmac_configured.
Proof.
  intros H. apply encode_stamped in H. destruct H as [Ht Hh].
  unfold sub_of_id in Ht. rewrite payload_of_sub in Ht. split; [exact Ht|exact Hh].
Qed.

Lemma authenticate_unlocked_issued
  (w w' : World) (password : string) (u u' : User) (tokens : Tokens) :
  authenticate_unlocked u password w = (Ret (Some (u', tokens)), w') ->
  is_active u = true
  /\ Passlib.verify bcrypt_verify password (hashed_password u) = Ret true
  /\ hmac_configured
  /\ id u' = id u
  /\ clock_reads w' = S (S (clock_reads w))
  /\ hash_checks w' = S (hash_checks w)
  /\ tokens
     = {| access_token :=
            issued "access" (PyStr.str (id u)) (clock (clock_reads w))
              (timedelta_minutes (ACCESS_TOKEN_EXPIRE_MINUTES settings));
          refresh_token :=
            issued "refresh" (PyStr.str (id u)) (clock (S (clock_reads w)))
              (timedelta_days (REFRESH_TOKEN_EXPIRE_DAYS settings));
          token_type := "bearer" |}.
Proof.
  unfold authenticate_unlocked.
  destruct (is_active u); cbn [negb]; [|intros H; inversion H].
  unfold bind at 1. unfold verify_password at 1.
  destruct (Passlib.verify bcrypt_verify password (hashed_password u)) as [[|]|ex];
    cbn [negb].
  - destruct (0 <? failed_login_attempts u);
      unfold bind, ret, Db.commit, create_access_token, create_refresh_token, bind,
        datetime_now, lift; cbn [or_timedelta];
      match goal with
      | |- context [Jose.encode ?c ?k ?a] =>
          destruct (Jose.encode c k a) as [ta|ea] eqn:Ea;
          [ match goal with
            | |- context [Jose.encode ?c' ?k' ?a'] =>
                destruct (Jose.encode c' k' a') as [tb|eb] eqn:Eb
            end | ]
      end; intros H; inversion H; subst;
      apply (encode_for_id "access") in Ea; apply (encode_for_id "refresh") in Eb;
      destruct Ea as [-> Hh]; destruct Eb as [-> _];
      repeat split; try reflexivity; exact Hh.
  - unfold bind, datetime_now, ret, Db.commit.
    destruct (MAX_FAILED_ATTEMPTS <=? _); intros H; inversion H.
  - intros H; inversion H.
Qed.

(** Every successful login hands back a bearer pair signed for the id of
    the user it returns: the access token at the last but one clock
    reading of the call, the refresh token at the last. *)
Lemma authenticate_user_issued
  (w w' : World) (e password : string) (u' : User) (tokens : Tokens) :
  authenticate_user e password w = (Ret (Some (u', tokens)), w') ->
  exists n,
    clock_reads w' = S (S n)
    /\ hmac_configured
    /\ tokens
       = {| access_token :=
              issued "access" (PyStr.str (id u')) (clock n)
                (timedelta_minutes (ACCESS_TOKEN_EXPIRE_MINUTES settings));
            refresh_token :=
              issued "refresh" (PyStr.str (id u')) (clock (S n))
                (timedelta_days (REFRESH_TOKEN_EXPIRE_DAYS settings));
            token_type := "bearer" |}.
Proof.
  unfold authenticate_user. intros H.
  apply bind_Ret_inv in H. destruct H as (found & w1 & _ & H).
  destruct found as [user|]; [|inversion H].
  destruct (account_locked_until user) as [until|].
  - apply bind_Ret_inv in H. destruct H as (now & w2 & _ & H).
    apply bind_Ret_inv in H. destruct H as (open & w2' & _ & H).
    destruct open; [inversion H|].
    apply bind_Ret_inv in H. destruct H as (x & w3 & _ & H).
    apply authenticate_unlocked_issued in H.
    destruct H as (_ & _ & Hh & Hid & Hc & _ & Ht).
    exists (clock_reads w3). rewrite Hid. cbn [id set_failed_login_attempts
      set_account_locked_until] in *. split; [exact Hc|]. split; [exact Hh|exact Ht].
  - apply authenticate_unlocked_issued in H.
    destruct H as (_ & _ & Hh & Hid & Hc & _ & Ht).
    exists (clock_reads w1). rewrite Hid. split; [exact Hc|]. split; [exact Hh|exact Ht].
Qed.


Lemma authenticate_unlocked_accepts (w : World) (password : string) (u : User) :
  hmac_configured ->
  is_active u = true ->
  Passlib.verify bcrypt_verify password (hashed_password u) = Ret true ->
  let reset := 0 <? failed_login_attempts u in
  let u' := if reset then set_last_failed_login None (set_failed_login_attempts 0 u)
            else u in
  authenticate_unlocked u password w
  = (Ret (Some (u',
                {| access_token :=
                     issued "access" (PyStr.str (id u)) (clock (clock_reads w))
                       (timedelta_minutes (ACCESS_TOKEN_EXPIRE_MINUTES settings));
                   refresh_token :=
                     issued "refresh" (PyStr.str (id u)) (clock (S (clock_reads w)))
                       (timedelta_days (REFRESH_TOKEN_EXPIRE_DAYS settings));
                   token_type := "bearer" |})),
     {| rows := if reset then Db.write u' (rows w) else rows w;
        next_id := next_id w; clock_reads := S (S (clock_reads w));
        salts_drawn := salts_drawn w; hash_checks := S (hash_checks w);
        outbox := outbox w |}).
Proof.
  intros Hh Hactive Hverify. cbv zeta.
  assert (Hn : negb (is_active u) = false) by (rewrite Hactive; reflexivity).
  unfold authenticate_unlocked. rewrite Hn.
  unfold bind at 1. unfold verify_password at 1. rewrite Hverify. cbn [negb].
  destruct (0 <? failed_login_attempts u).
  - unfold bind at 1. unfold bind at 1. unfold Db.commit at 1. unfold ret at 1.
    unfold bind at 1. rewrite (create_access_token_issued _ _ Hh).
    unfold bind at 1. rewrite (create_refresh_token_issued _ _ Hh).
    reflexivity.
  - unfold bind at 1. unfold ret at 1.
    unfold bind at 1. rewrite (create_access_token_issued _ _ Hh).
    unfold bind at 1. rewrite (create_refresh_token_issued _ _ Hh).
    reflexivity.
Qed.

(** X1.  A login with the accepted password on an existing, active account
    that is not locked succeeds.  The user handed back differs from the
    stored one in the lockout columns only: no lockout, counter 0 (for a
    counter that was not negative), and [last_failed_login] cleared exactly
    when the counter the password check saw was positive.  The pair is of
    type bearer: an access token and a refresh token signed for the
    decimal id of the user at two successive clock readings, with the
    configured lifetimes; one hash check was made.  This is so on every
    database when no lockout is stored, and with an expired lockout still
    stored on a database that returns the stored time with its zone; on
    one that returns it naive the comparison of line 92 then raises
    [TypeError] before any check. *)
Theorem authenticate_user_accepted_password
  (w : World) (e password : string) (u : User) :
  hmac_configured ->
  user_exists w e u ->
  is_active u = true ->
  locked_at (clock (clock_reads w)) u = false ->
  Passlib.verify bcrypt_verify password (hashed_password u) = Ret true ->
  0 <= failed_login_attempts u ->
  let u0 := user_after_lockout_check u in
  let w0 := world_after_lockout_check u w in
  (lockout_comparable u ->
   exists (u' : User) (w' : World),
     authenticate_user e password w
     = (Ret (Some (u',
                   {| access_token :=
                        issued "access" (PyStr.str (id u)) (clock (clock_reads w0))
                          (timedelta_minutes (ACCESS_TOKEN_EXPIRE_MINUTES settings));
                      refresh_token :=
                        issued "refresh" (PyStr.str (id u)) (clock (S (clock_reads w0)))
                          (timedelta_days (REFRESH_TOKEN_EXPIRE_DAYS settings));
                      token_type := "bearer" |})), w')
     /\ same_account u u'
     /\ failed_login_attempts u' = 0
     /\ account_locked_until u' = None
     /\ last_failed_login u'
        = (if 0 <? failed_login_attempts u0 then None else last_failed_login u)
     /\ In u' (rows w')
     /\ hash_checks w' = S (hash_checks w))
  /\ (aware_timestamps = false ->
      forall until,
        account_locked_until u = Some until ->
        authenticate_user e password w = (Raise TypeError, tick_clock w)).
Proof.
  intros Hh Hex Hactive Hlock Hverify Hcount. cbv zeta.
  split; [|intros Hnaive until Hl;
           exact (authenticate_user_naive w e password u until Hnaive Hex Hl)].
  intros Hcmp.
  destruct (user_exists_In w e u Hex) as [Hin _].
  pose proof (same_account_after_lockout_check u) as Hsame.
  destruct Hsame as (Hid & Hem & Hun & Hhp & Hve & Hac).
  rewrite (authenticate_user_not_locked w e password u Hex Hcmp Hlock).
  rewrite (authenticate_unlocked_accepts _ password (user_after_lockout_check u) Hh).
  2: { rewrite Hac. exact Hactive. }
  2: { rewrite Hhp. exact Hverify. }
  rewrite Hid.
  eexists. eexists. split; [reflexivity|].
  unfold user_after_lockout_check, world_after_lockout_check, lockout_cleared, same_account.
  destruct (account_locked_until u) as [until|] eqn:Hl.
  - cbn. repeat split; try reflexivity.
    apply (In_write u); [exact Hin|reflexivity].
  - destruct (Z.ltb_spec 0 (failed_login_attempts u)) as [Hpos|Hle]; cbn.
    + repeat split; try reflexivity; try exact Hl.
      apply (In_write u); [exact Hin|reflexivity].
    + repeat split; try reflexivity; try exact Hl; try exact Hin. lia.
Qed.


Lemma scalar_one_or_none_found (l : list User) (u : User) :
  Db.scalar_one_or_none l = Ret (Some u) -> l = [u].
Proof.
  destruct l as [|a [|b l]]; cbn; intros H; try discriminate.
  injection H as ->. reflexivity.
Qed.

Lemma select_by_id_found (n : Z) (w w' : World) (u : User) :
  Db.select_by_id n w = (Ret (Some u), w') ->
  In u (rows w) /\ id u = n /\ w' = w.
Proof.
  unfold Db.select_by_id. intros H. injection H as H Hw.
  apply scalar_one_or_none_found in H.
  assert (Hin : In u (List.filter (fun u0 => id u0 =? n) (rows w)))
    by (rewrite H; left; reflexivity).
  apply filter_In in Hin. destruct Hin as [Hin Hid].
  apply Z.eqb_eq in Hid. repeat split; [exact Hin|exact Hid|symmetry; exact Hw].
Qed.

Lemma select_by_id_tick (n : Z) (w : World) (u : User) :
  user_with_id w n u ->
  Db.select_by_id n (tick_clock w) = (Ret (Some u), tick_clock w).
Proof.
  unfold user_with_id, Db.select_by_id. intros H. injection H as H.
  cbn [rows tick_clock]. rewrite H. reflexivity.
Qed.

Lemma truthy_str (n : Z) : truthy (Jose.JStr (PyStr.str n)) = true.
Proof.
  cbn. destruct (String.eqb_spec (PyStr.str n) "") as [E|_]; [|reflexivity].
  exfalso. exact (str_not_empty n E).
Qed.

Lemma int_of_claim_str (n : Z) : int_of_claim (Jose.JStr (PyStr.str n)) = Ret n.
Proof. unfold int_of_claim. rewrite int_str. reflexivity. Qed.

(** What [refresh_access_token] does with a refresh token signed for the
    decimal id [n], at a time of its lifetime, when the table holds [u]
    under that key. *)
Lemma refresh_access_token_issued (w : World) (u : User) (t : Z) :
  hmac_configured ->
  user_with_id w (id u) u ->
  Jose.timegm (clock (clock_reads w))
  <= Jose.timegm (t + timedelta_days (REFRESH_TOKEN_EXPIRE_DAYS settings)) ->
  refresh_access_token
    (issued "refresh" (PyStr.str (id u)) t
       (timedelta_days (REFRESH_TOKEN_EXPIRE_DAYS settings))) w
  = if is_active u then
      (Ret (Some
         {| access_token :=
              issued "access" (PyStr.str (id u)) (clock (S (clock_reads w)))
                (timedelta_minutes (ACCESS_TOKEN_EXPIRE_MINUTES settings));
            refresh_token :=
              issued "refresh" (PyStr.str (id u)) (clock (S (S (clock_reads w))))
                (timedelta_days (REFRESH_TOKEN_EXPIRE_DAYS settings));
            token_type := "bearer" |}),
       tick_clock (tick_clock (tick_clock w)))
    else (Ret None, tick_clock w).
Proof.
  intros Hh Hu Ht.
  unfold refresh_access_token.
  unfold bind at 1. rewrite verify_token_world.
  pose proof (issued_verifies "refresh" (PyStr.str (id u)) t
                (timedelta_days (REFRESH_TOKEN_EXPIRE_DAYS settings))
                (clock (clock_reads w)) Hh) as Hv.
  apply Z.leb_le in Ht. rewrite Ht in Hv.
  pose proof (accepted_payload_not_falsy _ _ _ _ Hv) as Hf.
  rewrite Hv. cbv beta iota. rewrite Hf.
  cbn [mbind option_bind]. rewrite issued_sub.
  rewrite truthy_str. cbn [negb].
  unfold bind at 1. unfold lift at 1. rewrite int_of_claim_str.
  unfold bind at 1. rewrite (select_by_id_tick _ _ _ Hu).
  destruct (is_active u); cbn [negb]; [|reflexivity].
  unfold bind at 1. rewrite (create_access_token_issued _ _ Hh).
  unfold bind at 1. rewrite (create_refresh_token_issued _ _ Hh).
  reflexivity.
Qed.

(** X2.  Login and refresh compose.  Take the pair any successful login
    returned for the user with id [n].  Presented at a time when the
    refresh token has not expired, to a table that holds a user under
    that id, the refresh token yields a new bearer pair for the same id
    if that user is active and [None] if not; the table is not written.
    The access token of the same pair is never accepted for a refresh. *)
Theorem refresh_access_token_after_login
  (w0 w1 : World) (e password : string) (u1 : User) (tokens : Tokens)
  (w : World) (u : User) :
  authenticate_user e password w0 = (Ret (Some (u1, tokens)), w1) ->
  user_with_id w (id u1) u ->
  Jose.timegm (clock (clock_reads w))
  <= Jose.timegm (clock (Nat.pred (clock_reads w1))
                  + timedelta_days (REFRESH_TOKEN_EXPIRE_DAYS settings)) ->
  (is_active u = true ->
   exists w',
     refresh_access_token (refresh_token tokens) w
     = (Ret (Some
          {| access_token :=
               issued "access" (PyStr.str (id u1)) (clock (S (clock_reads w)))
                 (timedelta_minutes (ACCESS_TOKEN_EXPIRE_MINUTES settings));
             refresh_token :=
               issued "refresh" (PyStr.str (id u1)) (clock (S (S (clock_reads w))))
                 (timedelta_days (REFRESH_TOKEN_EXPIRE_DAYS settings));
             token_type := "bearer" |}), w')
     /\ rows w' = rows w)
  /\ (is_active u = false ->
      refresh_access_token (refresh_token tokens) w = (Ret None, tick_clock w))
  /\ refresh_access_token (access_token tokens) w = (Ret None, tick_clock w).
Proof.
  intros Hlogin Hu Ht.
  destruct (authenticate_user_issued _ _ _ _ _ _ Hlogin) as (n & Hn & Hh & ->).
  rewrite Hn in Ht. cbn [Nat.pred] in Ht. cbn [refresh_token access_token].
  destruct (select_by_id_found _ _ _ _ Hu) as (_ & Hid & _).
  rewrite <- Hid in *.
  pose proof (refresh_access_token_issued w u (clock (S n)) Hh Hu Ht) as Hr.
  split; [|split].
  - intros Ha. rewrite Ha in Hr. eexists. split; [exact Hr|reflexivity].
  - intros Ha. rewrite Ha in Hr. exact Hr.
  - unfold refresh_access_token. unfold bind at 1. rewrite verify_token_world.
    rewrite issued_other_type by discriminate. reflexivity.
Qed.


Lemma decode_of_verified (now : Z) (token : Jose.token) (ty : string)
  (payload : gmap string Jose.jvalue) :
  verify_token_at now token ty = Ret (Some payload) ->
  Jose.decode token (SECRET_KEY settings) [ALGORITHM settings] (Jose.timegm now) = Ret payload
  /\ ne_str (payload !! "type") ty = false.
Proof.
  unfold verify_token_at.
  destruct (Jose.decode _ _ _ _) as [p|e].
  - destruct (ne_str (p !! "type") ty) eqn:E; [discriminate|].
    intros H. inversion H. subst p. split; [reflexivity|exact E].
  - destruct (is_JWTError e); discriminate.
Qed.

Lemma decode_of_rejected (now : Z) (token : Jose.token) (ty : string) :
  verify_token_at now token ty = Ret None ->
  match Jose.decode token (SECRET_KEY settings) [ALGORITHM settings] (Jose.timegm now) with
  | Ret payload => ne_str (payload !! "type") ty = true
  | Raise e => is_JWTError e = true
  end.
Proof.
  unfold verify_token_at.
  destruct (Jose.decode _ _ _ _) as [p|e] eqn:E.
  - destruct (ne_str (p !! "type") ty); [reflexivity|discriminate].
  - intros _. exact (decode_raises_JWTError _ _ _ _ _ E).
Qed.

Lemma int_of_claim_raises (v : Jose.jvalue) (e : exn) :
  int_of_claim v = Raise e -> is_ValueError_or_TypeError e = true.
Proof.
  destruct v as [s|n|b]; cbn; try discriminate.
  destruct (PyStr.int s); [discriminate|]. intros H. inversion H. reflexivity.
Qed.

(** X3.  [get_current_user] has three outcomes and no other, whatever the
    token: the one 401 answer, the user, or the database's error for a key
    stored twice.  No error of the JWT library and no [ValueError] of
    [int()] leaves it.  A user is answered only for a token that
    [verify_token] accepts as an access token, whose [sub] claim [int()]
    reads as the primary key of that stored user.  The clock is read once
    and the table is not touched. *)
Theorem get_current_user_outcomes (token : Jose.token) (w : World) :
  exists r,
    get_current_user token w = (r, tick_clock w)
    /\ (r = Ret credentials_exception
        \/ r = Raise MultipleResultsFound
        \/ exists (u : User) (payload : gmap string Jose.jvalue) (v : Jose.jvalue),
             r = Ret (Answer u)
             /\ verify_token_at (clock (clock_reads w)) token "access" = Ret (Some payload)
             /\ payload !! "sub" = Some v
             /\ int_of_claim v = Ret (id u)
             /\ In u (rows w)).
Proof.
  unfold get_current_user, bind, datetime_now.
  destruct (verify_token_at_total (clock (clock_reads w)) token "access")
    as [Hrej|[payload Hacc]].
  - apply decode_of_rejected in Hrej.
    destruct (Jose.decode _ _ _ _) as [p|e].
    + destruct (p !! "sub"); [rewrite Hrej|];
        (eexists; split; [reflexivity|left; reflexivity]).
    + rewrite Hrej. eexists; split; [reflexivity|left; reflexivity].
  - destruct (decode_of_verified _ _ _ _ Hacc) as [Hd Hty].
    rewrite Hd.
    destruct (payload !! "sub") as [v|] eqn:Hsub;
      [|eexists; split; [reflexivity|left; reflexivity]].
    rewrite Hty.
    destruct (int_of_claim v) as [n|e] eqn:Hint.
    + destruct (Db.select_by_id n (tick_clock w)) as [[[u|]|e] w'] eqn:Hsel.
      * destruct (select_by_id_found _ _ _ _ Hsel) as (Hin & Hid & ->).
        eexists; split; [reflexivity|]. right. right.
        exists u, payload, v. rewrite Hid. repeat split; try assumption.
      * unfold Db.select_by_id in Hsel. inversion Hsel. subst w'.
        eexists; split; [reflexivity|left; reflexivity].
      * unfold Db.select_by_id in Hsel. inversion Hsel as [[Hs Hw]].
        eexists; split; [reflexivity|]. right. left.
        destruct (List.filter _ _) as [|a [|b l]]; cbn in Hs; try discriminate.
        inversion Hs. reflexivity.
    + rewrite (int_of_claim_raises _ _ Hint).
      eexists; split; [reflexivity|left; reflexivity].
Qed.

(** X4.  The access token of any successful login, presented before its
    expiry to a table that holds a user under the id it was signed for,
    makes [get_current_user] answer that stored user; nothing is required
    of the user's [is_active] flag or lockout columns.  The refresh token of
    the same login is answered with the 401. *)
Theorem get_current_user_after_login
  (w0 w1 : World) (e password : string) (u1 : User) (tokens : Tokens)
  (w : World) (u : User) :
  authenticate_user e password w0 = (Ret (Some (u1, tokens)), w1) ->
  user_with_id w (id u1) u ->
  Jose.timegm (clock (clock_reads w))
  <= Jose.timegm (clock (Nat.pred (Nat.pred (clock_reads w1)))
                  + timedelta_minutes (ACCESS_TOKEN_EXPIRE_MINUTES settings)) ->
  get_current_user (access_token tokens) w = (Ret (Answer u), tick_clock w)
  /\ get_current_user (refresh_token tokens) w = (Ret credentials_exception, tick_clock w).
Proof.
  intros Hlogin Hu Ht.
  destruct (authenticate_user_issued _ _ _ _ _ _ Hlogin) as (n & Hn & Hh & ->).
  rewrite Hn in Ht. cbn [Nat.pred] in Ht. cbn [refresh_token access_token].
  unfold get_current_user, bind, datetime_now. split.
  - pose proof (issued_verifies "access" (PyStr.str (id u1)) (clock n)
                  (timedelta_minutes (ACCESS_TOKEN_EXPIRE_MINUTES settings))
                  (clock (clock_reads w)) Hh) as Hv.
    apply Z.leb_le in Ht. rewrite Ht in Hv.
    destruct (decode_of_verified _ _ _ _ Hv) as [Hd Hty].
    rewrite Hd, issued_sub, Hty, int_of_claim_str.
    rewrite (select_by_id_tick _ _ _ Hu). reflexivity.
  - pose proof (issued_other_type "refresh" "access" (PyStr.str (id u1)) (clock (S n))
                  (timedelta_days (REFRESH_TOKEN_EXPIRE_DAYS settings))
                  (clock (clock_reads w))) as Hv.
    assert (Hne : "access" <> "refresh") by discriminate.
    specialize (Hv Hne).
    apply decode_of_rejected in Hv.
    destruct (Jose.decode _ _ _ _) as [p|ex].
    + destruct (p !! "sub"); [rewrite Hv|]; reflexivity.
    + rewrite Hv. reflexivity.
Qed.


Lemma authenticate_unlocked_inactive (w : World) (password : string) (u : User) :
  is_active u = false ->
  authenticate_unlocked u password w = (Ret None, w).
Proof. unfold authenticate_unlocked. intros ->. reflexivity. Qed.

Lemma authenticate_unlocked_raises (w : World) (password : string) (u : User) (ex : exn) :
  is_active u = true ->
  Passlib.verify bcrypt_verify password (hashed_password u) = Raise ex ->
  authenticate_unlocked u password w = (Raise ex, count_hash_check w).
Proof.
  unfold authenticate_unlocked. intros -> Hv. cbn [negb].
  unfold bind at 1. unfold verify_password at 1. rewrite Hv. reflexivity.
Qed.

Lemma login_authenticates (form_data : LoginForm) (w : World) :
  form_username form_data <> "" ->
  form_password form_data <> "" ->
  PyStr.search (Ascii.eqb "@") (PyStr.lower (PyStr.strip (form_username form_data))) = true ->
  login form_data w
  = match authenticate_user (PyStr.lower (PyStr.strip (form_username form_data)))
            (form_password form_data) w with
    | (Ret None, w') =>
        (Ret (Refused 401 "Invalid email or password, or account is locked"), w')
    | (Ret (Some (user, tokens)), w') => (Ret (Answer (user, tokens)), w')
    | (Raise _, w') => (Ret (Refused 500 "An unexpected error occurred"), w')
    end.
Proof.
  intros Hu Hp Hat. unfold login, login_try.
  apply String.eqb_neq in Hu. apply String.eqb_neq in Hp.
  rewrite Hu, Hp, Hat. cbn [orb negb]. unfold bind.
  destruct (authenticate_user _ _ w) as [[[[user tokens]|]|ex] w']; reflexivity.
Qed.

(** X5.  The answers of the login endpoint when no login takes place.
    For an unknown address the answer is the 401.  For a stored user
    whose lockout column can be compared (it is null, or the database
    returns stored times with their zone) the answer is the same 401
    when the account is inside its lockout window, when it is inactive
    and when the password is rejected, so the answer does not tell these
    apart; the hash check is run only in the last case, and when it
    raises (a stored digest the library cannot identify) the endpoint
    answers 500.  On a database that returns stored times naive, as
    SQLite, the default, does, every user with a stored lockout time,
    open or expired, is answered with the 500, whatever the password, and
    no hash check is made. *)
Theorem login_refusals (form_data : LoginForm) (w : World) :
  form_username form_data <> "" ->
  form_password form_data <> "" ->
  let e := PyStr.lower (PyStr.strip (form_username form_data)) in
  let password := form_password form_data in
  let refusal : Reply (User * Tokens) :=
    Refused 401 "Invalid email or password, or account is locked" in
  PyStr.search (Ascii.eqb "@") e = true ->
  (Db.select_by_email e w = (Ret None, w) -> login form_data w = (Ret refusal, w))
  /\ (forall u : User,
        user_exists w e u ->
        (lockout_comparable u ->
         (locked_at (clock (clock_reads w)) u = true ->
          login form_data w = (Ret refusal, tick_clock w))
         /\ (locked_at (clock (clock_reads w)) u = false ->
             is_active u = false ->
             login form_data w = (Ret refusal, world_after_lockout_check u w))
         /\ (locked_at (clock (clock_reads w)) u = false ->
             is_active u = true ->
             Passlib.verify bcrypt_verify password (hashed_password u) = Ret false ->
             exists w',
               login form_data w = (Ret refusal, w')
               /\ hash_checks w' = S (hash_checks w))
         /\ (locked_at (clock (clock_reads w)) u = false ->
             is_active u = true ->
             forall ex,
               Passlib.verify bcrypt_verify password (hashed_password u) = Raise ex ->
               login form_data w
               = (Ret (Refused 500 "An unexpected error occurred"),
                  count_hash_check (world_after_lockout_check u w))))
        /\ (aware_timestamps = false ->
            forall until,
              account_locked_until u = Some until ->
              login form_data w
              = (Ret (Refused 500 "An unexpected error occurred"), tick_clock w)
              /\ hash_checks (tick_clock w) = hash_checks w
              /\ rows (tick_clock w) = rows w)).
Proof.
  intros Hu Hp. cbv zeta. intros Hat.
  rewrite (login_authenticates form_data w Hu Hp Hat).
  split.
  - intros Hnone. unfold authenticate_user, bind. rewrite Hnone. reflexivity.
  - intros u Hex.
    pose proof (same_account_after_lockout_check u) as (_ & _ & _ & Hhp & _ & Hac).
    split.
    2: { intros Hnaive until Hl.
         rewrite (authenticate_user_naive w _ _ u until Hnaive Hex Hl).
         repeat split. }
    intros Hcmp. split; [|split; [|split]].
    + unfold locked_at. destruct (account_locked_until u) as [until|] eqn:Hl; [|discriminate].
      destruct Hcmp as [Hnone|Ha]; [rewrite Hl in Hnone; discriminate Hnone|].
      intros Hlt. apply Z.ltb_lt in Hlt.
      rewrite (authenticate_user_while_locked w _ _ u until Ha Hex Hl Hlt). reflexivity.
    + intros Hlock Hina.
      rewrite (authenticate_user_not_locked w _ _ u Hex Hcmp Hlock).
      rewrite authenticate_unlocked_inactive by (rewrite Hac; exact Hina). reflexivity.
    + intros Hlock Hact Hv.
      rewrite (authenticate_user_not_locked w _ _ u Hex Hcmp Hlock).
      rewrite authenticate_unlocked_failed_password;
        [|rewrite Hac; exact Hact|rewrite Hhp; exact Hv].
      eexists. split; [reflexivity|].
      cbn [hash_checks]. unfold world_after_lockout_check.
      destruct (account_locked_until u); reflexivity.
    + intros Hlock Hact ex Hv.
      rewrite (authenticate_user_not_locked w _ _ u Hex Hcmp Hlock).
      rewrite (authenticate_unlocked_raises _ _ _ ex);
        [reflexivity|rewrite Hac; exact Hact|rewrite Hhp; exact Hv].
Qed.


Lemma register_try_registers (payload : UserCreate) (w : World) :
  payload_email payload <> "" ->
  payload_username payload <> "" ->
  payload_password payload <> "" ->
  PyStr.strip (payload_email payload) <> "" ->
  PyStr.strip (payload_username payload) <> "" ->
  register_try payload w
  = (created <- register_user (PyStr.lower (PyStr.strip (payload_email payload)))
                              (PyStr.strip (payload_username payload))
                              (payload_password payload) ;;
     match created with
     | None => ret (HTTPException 400 "Email already registered")
     | Some user =>
         verification_token <- create_email_verification_token (email user) ;;
         send_verification_email (email user) (username user) verification_token ;;;
         auth <- authenticate_user (email user) (payload_password payload) ;;
         match auth with
         | Some (_, tokens) => ret (Created user tokens)
         | None => raise TypeError
         end
     end) w.
Proof.
  intros He Hu Hp Hse Hsu. unfold register_try.
  apply String.eqb_neq in He, Hu, Hp, Hse, Hsu.
  rewrite He, Hu, Hp, Hse, Hsu. reflexivity.
Qed.

(** X6.  The refusals of a registration whose fields pass the guards.
    A password the policy rejects is answered with a 400 carrying the
    policy's reason, and nothing at all has happened: no digest, no row,
    no mail.  A password the policy accepts and the hasher refuses (more
    than 4096 characters, or a NUL in it) is answered with a 400 carrying
    the hasher's words, whether the address is taken or not, and the
    table, the clock and the outbox are as before.  An address that is
    already stored (after stripping and lower-casing) is answered with the
    400 [Email already registered]; the digest of the password was
    computed before the duplicate was noticed, and the table, the clock
    and the outbox are as before. *)
Theorem register_refusals (payload : UserCreate) (w : World) :
  payload_email payload <> "" ->
  payload_username payload <> "" ->
  payload_password payload <> "" ->
  PyStr.strip (payload_email payload) <> "" ->
  PyStr.strip (payload_username payload) <> "" ->
  let e := PyStr.lower (PyStr.strip (payload_email payload)) in
  let password := payload_password payload in
  (forall reason,
      Validators.validate_password_strength settings password = (false, reason) ->
      register payload w = (Ret (HTTPException 400 reason), w))
  /\ (fst (Validators.validate_password_strength settings password) = true ->
      Passlib.hashable password = false ->
      register payload w
      = (Ret (HTTPException 400 (Passlib.refusal password)),
         if Passlib.too_long password then w else draw_salt w))
  /\ (fst (Validators.validate_password_strength settings password) = true ->
      Passlib.hashable password = true ->
      List.existsb (fun u => String.eqb (email u) e) (rows w) = true ->
      register payload w = (Ret (HTTPException 400 "Email already registered"), draw_salt w)).
Proof.
  intros He Hu Hp Hse Hsu. cbv zeta. unfold register.
  rewrite (register_try_registers payload w He Hu Hp Hse Hsu).
  split; [|split].
  - intros reason Hrej. unfold bind at 1. unfold register_user.
    unfold bind at 1. unfold lift at 1.
    rewrite (is_strong_password_rejects _ _ Hrej). reflexivity.
  - intros Hok Hhash. unfold bind at 1.
    rewrite (register_user_unhashable _ _ _ w Hok Hhash). reflexivity.
  - intros Hok Hhash Hdup. unfold bind at 1. unfold register_user.
    unfold bind at 1. unfold lift at 1.
    rewrite (is_strong_password_accepts _ Hok).
    unfold bind at 1. rewrite (get_password_hash_hashable _ w Hhash).
    unfold Db.add_commit_refresh. cbn [rows draw_salt]. rewrite Hdup. reflexivity.
Qed.


(** ** Email verification and password reset *)

Lemma select_by_email_tick (e : string) (w : World) (found : result (option User)) :
  Db.select_by_email e w = (found, w) ->
  Db.select_by_email e (tick_clock w) = (found, tick_clock w).
Proof. apply select_by_email_rows. reflexivity. Qed.

Lemma truthy_nonempty (s : string) : s <> "" -> truthy (Jose.JStr s) = true.
Proof. intros H. cbn. apply String.eqb_neq in H. rewrite H. reflexivity. Qed.

Lemma create_email_verification_token_inv (e : string) (w w' : World) (token : Jose.token) :
  create_email_verification_token e w = (Ret token, w') ->
  hmac_configured
  /\ token = issued "email_verification" e (clock (clock_reads w))
               (timedelta_hours (EMAIL_VERIFICATION_EXPIRE_HOURS settings))
  /\ w' = tick_clock w.
Proof.
  unfold create_email_verification_token, bind, datetime_now, lift.
  rewrite insert_empty.
  fold (stamped "email_verification" (clock (clock_reads w))
    (timedelta_hours (EMAIL_VERIFICATION_EXPIRE_HOURS settings))
    {[ "sub" := Jose.PStr e ]}).
  destruct (Jose.encode _ _ _) as [t|ex] eqn:E; [|discriminate].
  intros H. injection H as <- <-.
  apply encode_stamped in E. destruct E as [-> Hh].
  rewrite payload_of_sub. repeat split. exact Hh.
Qed.

Lemma create_password_reset_token_inv (e : string) (w w' : World) (token : Jose.token) :
  create_password_reset_token e w = (Ret token, w') ->
  hmac_configured
  /\ token = issued "password_reset" e (clock (clock_reads w))
               (timedelta_hours (PASSWORD_RESET_EXPIRE_HOURS settings))
  /\ w' = tick_clock w.
Proof.
  unfold create_password_reset_token, bind, datetime_now, lift.
  rewrite insert_empty.
  fold (stamped "password_reset" (clock (clock_reads w))
    (timedelta_hours (PASSWORD_RESET_EXPIRE_HOURS settings))
    {[ "sub" := Jose.PStr e ]}).
  destruct (Jose.encode _ _ _) as [t|ex] eqn:E; [|discriminate].
  intros H. injection H as <- <-.
  apply encode_stamped in E. destruct E as [-> Hh].
  rewrite payload_of_sub. repeat split. exact Hh.
Qed.

(** The start of [verify_email] and [reset_password] on a token issued
    with the expected type: the claims are accepted while the token
    lives, and refused afterwards. *)
Lemma verify_token_issued (ty s : string) (t ttl : Z) (w : World) :
  hmac_configured ->
  verify_token (issued ty s t ttl) ty w
  = (if Jose.timegm (clock (clock_reads w)) <=? Jose.timegm (t + ttl)
     then Ret (Some (stamped_payload ty t ttl {[ "sub" := Jose.JStr s ]}))
     else Ret None,
     tick_clock w).
Proof. intros Hh. rewrite verify_token_world, (issued_verifies _ _ _ _ _ Hh). reflexivity. Qed.

Lemma falsy_stamped_payload (ty : string) (t ttl : Z) (c : gmap string Jose.jvalue) :
  falsy_payload (Some (stamped_payload ty t ttl c)) = false.
Proof.
  unfold falsy_payload, stamped_payload. apply bool_decide_eq_false.
  apply insert_non_empty.
Qed.

Lemma verify_email_issued (e : string) (t : Z) (w : World) :
  hmac_configured ->
  e <> "" ->
  verify_email
    (issued "email_verification" e t
       (timedelta_hours (EMAIL_VERIFICATION_EXPIRE_HOURS settings))) w
  = if Jose.timegm (clock (clock_reads w))
       <=? Jose.timegm (t + timedelta_hours (EMAIL_VERIFICATION_EXPIRE_HOURS settings))
    then
      (found <- Db.select_by_email e ;;
       match found with
       | None => ret false
       | Some user =>
           if is_verified user then ret true
           else Db.commit (set_is_verified true user) ;;; ret true
       end) (tick_clock w)
    else (Ret false, tick_clock w).
Proof.
  intros Hh He. unfold verify_email. unfold bind at 1.
  rewrite (verify_token_issued _ _ _ _ _ Hh).
  destruct (_ <=? _); [|reflexivity].
  rewrite falsy_stamped_payload. cbn [mbind option_bind]. rewrite issued_sub.
  rewrite (truthy_nonempty e He). reflexivity.
Qed.

(** X7.  Issuing and redeeming an email-verification token.  The token
    [create_email_verification_token] signs for a non-empty address is
    redeemed by [verify_email] until the second of its expiry: with a user
    stored under that address the answer is [True] and the stored row is
    the old one with [is_verified] set (an already verified row is not
    written at all); with no such user the answer is [False].  After the
    expiry the answer is [False].  Whenever the answer is [False] the
    table is as before. *)
Theorem verify_email_of_created_token
  (w1 w1' w : World) (e : string) (token : Jose.token) :
  create_email_verification_token e w1 = (Ret token, w1') ->
  e <> "" ->
  let alive :=
    Jose.timegm (clock (clock_reads w))
    <=? Jose.timegm (clock (clock_reads w1)
                     + timedelta_hours (EMAIL_VERIFICATION_EXPIRE_HOURS settings)) in
  (forall u : User,
      user_exists w e u ->
      alive = true ->
      verify_email token w
      = (Ret true,
         if is_verified u then tick_clock w
         else with_rows (Db.write (set_is_verified true u) (rows w)) (tick_clock w)))
  /\ (Db.select_by_email e w = (Ret None, w) ->
      verify_email token w = (Ret false, tick_clock w))
  /\ (alive = false -> verify_email token w = (Ret false, tick_clock w)).
Proof.
  intros Hc He. cbv zeta.
  destruct (create_email_verification_token_inv _ _ _ _ Hc) as (Hh & -> & _).
  rewrite (verify_email_issued _ _ _ Hh He).
  destruct (_ <=? _).
  - split; [|split].
    + intros u Hu _. unfold bind at 1.
      rewrite (select_by_email_tick _ _ _ Hu).
      destruct (is_verified u); reflexivity.
    + intros Hnone. unfold bind at 1. rewrite (select_by_email_tick _ _ _ Hnone).
      reflexivity.
    + discriminate.
  - split; [|split]; [intros u _; discriminate|reflexivity|reflexivity].
Qed.

(** X8.  Requesting and completing a password reset.  The token
    [request_password_reset] returns for a non-empty address, presented
    with a password the policy accepts, is redeemed by [reset_password]
    until the second of its expiry: the stored row keeps its id, address,
    name and flags, gets the digest of the new password under the next
    salt, and has its lockout state cleared (counter 0, both timestamps
    null).  When the hasher refuses the password (more than 4096
    characters, or a NUL in it) its [ValueError] leaves the call after the
    token was accepted and the user loaded, and the table is as before.
    After the expiry the answer is [False] and the table is as before.
    The same token is never accepted by [verify_email]. *)
Theorem reset_password_of_requested_token
  (w1 w1' w : World) (e new_password : string) (token : Jose.token) (u : User) :
  request_password_reset e w1 = (Ret (Some token), w1') ->
  e <> "" ->
  fst (Validators.validate_password_strength settings new_password) = true ->
  user_exists w e u ->
  let alive :=
    Jose.timegm (clock (clock_reads w))
    <=? Jose.timegm (clock (clock_reads w1)
                     + timedelta_hours (PASSWORD_RESET_EXPIRE_HOURS settings)) in
  let u' :=
    {| id := id u; email := email u; username := username u;
       hashed_password := bcrypt_hash new_password (salts_drawn w);
       is_verified := is_verified u; is_active := is_active u;
       failed_login_attempts := 0; last_failed_login := None;
       account_locked_until := None |} in
  reset_password token new_password w
  = (if alive then
       if Passlib.hashable new_password then
         (Ret true,
          {| rows := Db.write u' (rows w); next_id := next_id w;
             clock_reads := S (clock_reads w); salts_drawn := S (salts_drawn w);
             hash_checks := hash_checks w; outbox := outbox w |})
       else
         (Raise (ValueError (Passlib.refusal new_password)),
          if Passlib.too_long new_password then tick_clock w
          else draw_salt (tick_clock w))
     else (Ret false, tick_clock w))
  /\ verify_email token w = (Ret false, tick_clock w).
Proof.
  intros Hreq He Hok Hu. cbv zeta.
  unfold request_password_reset in Hreq.
  apply bind_Ret_inv in Hreq. destruct Hreq as (found & w2 & Hsel & Hreq).
  destruct found as [user|]; [|discriminate Hreq].
  apply bind_Ret_inv in Hreq. destruct Hreq as (t & w3 & Hc & Hreq).
  unfold ret in Hreq. injection Hreq as <- _.
  assert (Hw2 : w2 = w1) by (unfold Db.select_by_email in Hsel; inversion Hsel; reflexivity).
  subst w2.
  destruct (create_password_reset_token_inv _ _ _ _ Hc) as (Hh & -> & _).
  split.
  - unfold reset_password. unfold bind at 1. unfold lift at 1.
    rewrite (is_strong_password_accepts _ Hok).
    unfold bind at 1. rewrite (verify_token_issued _ _ _ _ _ Hh).
    destruct (_ <=? _); [|reflexivity].
    rewrite falsy_stamped_payload. cbn [mbind option_bind]. rewrite issued_sub.
    rewrite (truthy_nonempty e He). cbn [negb select_by_email_claim].
    unfold bind at 1. rewrite (select_by_email_tick _ _ _ Hu).
    unfold bind at 1.
    destruct (Passlib.hashable new_password) eqn:Hhash.
    + rewrite (get_password_hash_hashable _ _ Hhash). reflexivity.
    + rewrite (get_password_hash_refused _ _ Hhash). reflexivity.
  - unfold verify_email. unfold bind at 1. rewrite verify_token_world.
    rewrite issued_other_type by discriminate. reflexivity.
Qed.





(** X11.  The reset endpoint has five outcomes and no other, whatever the
    token and the password.  (1) The policy rejects the password: a 400
    with the policy's reason, and nothing has happened.  (2) A 400
    [Invalid or expired reset token]: the clock was read once, and the
    table and the salt counter are as before.  (3) Success: the token was
    accepted by [verify_token] as a password-reset token, its [sub] is
    the address of exactly one stored user, the hasher made a digest of
    the password, and that user's row was rewritten.  (4) The hasher
    refuses a password the policy accepted (more than 4096 characters, or
    a NUL in it): a 400 with the hasher's words, after the token was
    accepted and the user was loaded, with the table as before.  (5) The
    database's error for an address stored twice, with the table as
    before. *)
Theorem reset_user_password_outcomes
  (token : Jose.token) (new_password : string) (w : World) :
  exists r w',
    reset_user_password token new_password w = (r, w')
    /\ ((exists reason,
           Validators.validate_password_strength settings new_password = (false, reason)
           /\ r = Ret (Refused 400 reason) /\ w' = w)
        \/ (fst (Validators.validate_password_strength settings new_password) = true
            /\ r = Ret (Refused 400 "Invalid or expired reset token")
            /\ w' = tick_clock w)
        \/ (fst (Validators.validate_password_strength settings new_password) = true
            /\ Passlib.hashable new_password = true
            /\ r = Ret (Answer "Password reset successfully")
            /\ exists (payload : gmap string Jose.jvalue) (e : string) (u : User),
                 verify_token_at (clock (clock_reads w)) token "password_reset"
                 = Ret (Some payload)
                 /\ payload !! "sub" = Some (Jose.JStr e)
                 /\ e <> ""
                 /\ user_exists w e u
                 /\ rows w'
                    = Db.write
                        (set_account_locked_until None
                           (set_last_failed_login None
                              (set_failed_login_attempts 0
                                 (set_hashed_password
                                    (bcrypt_hash new_password (salts_drawn w)) u))))
                        (rows w)
                 /\ salts_drawn w' = S (salts_drawn w))
        \/ (fst (Validators.validate_password_strength settings new_password) = true
            /\ Passlib.hashable new_password = false
            /\ r = Ret (Refused 400 (Passlib.refusal new_password))
            /\ rows w' = rows w
            /\ exists (payload : gmap string Jose.jvalue) (e : string) (u : User),
                 verify_token_at (clock (clock_reads w)) token "password_reset"
                 = Ret (Some payload)
                 /\ payload !! "sub" = Some (Jose.JStr e)
                 /\ e <> ""
                 /\ user_exists w e u)
        \/ (r = Raise MultipleResultsFound /\ rows w' = rows w
            /\ salts_drawn w' = salts_drawn w)).
Proof.
  unfold reset_user_password, reset_password.
  unfold bind at 1. unfold lift at 1.
  destruct (Validators.validate_password_strength settings new_password) as [ok reason] eqn:Ev.
  unfold Validators.is_strong_password. rewrite Ev.
  destruct ok; cbn [negb fst].
  2: { eexists. eexists. split; [reflexivity|]. left. exists reason. repeat split. }
  unfold bind at 1. rewrite verify_token_world.
  destruct (verify_token_at_total (clock (clock_reads w)) token "password_reset")
    as [Hrej|[payload Hacc]].
  { rewrite Hrej. eexists. eexists. split; [reflexivity|]. right. left. repeat split. }
  rewrite Hacc. cbv beta iota.
  rewrite (accepted_payload_not_falsy _ _ _ _ Hacc). cbn [mbind option_bind].
  destruct (payload !! "sub") as [v|] eqn:Hsub.
  2: { eexists. eexists. split; [reflexivity|]. right. left. repeat split. }
  destruct (truthy v) eqn:Htruthy; cbn [negb].
  2: { eexists. eexists. split; [reflexivity|]. right. left. repeat split. }
  destruct v as [e|n|b]; cbn [select_by_email_claim].
  2,3: eexists; eexists; (split; [reflexivity|]); right; left; repeat split.
  unfold bind at 1. unfold Db.select_by_email at 1. cbn [rows tick_clock].
  destruct (Db.scalar_one_or_none _) as [[u|]|ex] eqn:Hsel.
  - assert (Hne : e <> "") by (cbn in Htruthy; intros ->; discriminate Htruthy).
    assert (Hu : user_exists w e u)
      by (unfold user_exists, Db.select_by_email; rewrite Hsel; reflexivity).
    unfold bind at 1.
    destruct (Passlib.hashable new_password) eqn:Hhash.
    + rewrite (get_password_hash_hashable _ _ Hhash).
      eexists. eexists. split; [reflexivity|]. right. right. left.
      split; [reflexivity|]. split; [reflexivity|]. split; [reflexivity|].
      exists payload, e, u. repeat split; assumption.
    + rewrite (get_password_hash_refused _ _ Hhash).
      eexists. eexists. split; [reflexivity|]. right. right. right. left.
      split; [reflexivity|]. split; [reflexivity|]. split; [reflexivity|].
      split; [destruct (Passlib.too_long new_password); reflexivity|].
      exists payload, e, u. repeat split; assumption.
  - eexists. eexists. split; [reflexivity|]. right. left. repeat split.
  - assert (Hex : ex = MultipleResultsFound).
    { destruct (List.filter _ _) as [|a [|b l]]; cbn in Hsel; try discriminate.
      inversion Hsel. reflexivity. }
    subst ex. eexists. eexists. split; [reflexivity|]. right. right. right. right.
    repeat split.
Qed.


(** ** The table *)

Lemma map_id_write (u' : User) (l : list User) :
  List.map id (Db.write u' l) = List.map id l.
Proof.
  unfold Db.write. rewrite List.map_map. apply List.map_ext.
  intros x. destruct (Z.eqb_spec (id x) (id u')) as [E|_]; [symmetry; exact E|reflexivity].
Qed.

Lemma NoDup_map_id_eq (l : list User) (x y : User) :
  NoDup (List.map id l) -> In x l -> In y l -> id x = id y -> x = y.
Proof.
  induction l as [|a l IH]; cbn [List.map]; intros Hnd Hx Hy Hid; [destruct Hx|].
  apply NoDup_cons in Hnd. destruct Hnd as [Hna Hnd].
  rewrite list_elem_of_In in Hna.
  destruct Hx as [->|Hx], Hy as [->|Hy].
  - reflexivity.
  - exfalso. apply Hna. rewrite Hid. apply List.in_map. exact Hy.
  - exfalso. apply Hna. rewrite <- Hid. apply List.in_map. exact Hx.
  - exact (IH Hnd Hx Hy Hid).
Qed.

(** Rewriting the row of [u] by a row with the same key and address
    changes no address of the table. *)
Lemma map_email_write (u u' : User) (l : list User) :
  NoDup (List.map id l) -> In u l -> id u' = id u -> email u' = email u ->
  List.map email (Db.write u' l) = List.map email l.
Proof.
  intros Hnd Hin Hid Hem. unfold Db.write. rewrite List.map_map.
  apply List.map_ext_in. intros x Hx.
  destruct (Z.eqb_spec (id x) (id u')) as [E|_]; [|reflexivity].
  rewrite Hid in E. rewrite (NoDup_map_id_eq l x u Hnd Hx Hin E). exact Hem.
Qed.

Lemma filter_email_write (u u' : User) (e : string) (l : list User) :
  NoDup (List.map id l) -> In u l -> id u' = id u -> email u' = email u ->
  List.filter (fun x => String.eqb (email x) e) (Db.write u' l)
  = Db.write u' (List.filter (fun x => String.eqb (email x) e) l).
Proof.
  intros Hnd Hin Hid Hem.
  assert (Hall : forall x, In x l ->
            email (if id x =? id u' then u' else x) = email x).
  { intros x Hx. destruct (Z.eqb_spec (id x) (id u')) as [E|_]; [|reflexivity].
    rewrite Hid in E. rewrite (NoDup_map_id_eq l x u Hnd Hx Hin E). exact Hem. }
  clear Hnd Hin. unfold Db.write.
  induction l as [|a l IH]; [reflexivity|].
  cbn [List.map List.filter]. rewrite (Hall a (or_introl eq_refl)).
  rewrite IH by (intros x Hx; apply Hall; right; exact Hx).
  destruct (String.eqb (email a) e); reflexivity.
Qed.

(** With unique keys, the row written for a stored user is the one found
    under that user's address afterwards. *)
Lemma user_exists_write (w : World) (e : string) (u u' : User) :
  NoDup (List.map id (rows w)) ->
  user_exists w e u -> id u' = id u -> email u' = email u ->
  forall w', rows w' = Db.write u' (rows w) -> user_exists w' e u'.
Proof.
  intros Hnd Hex Hid Hem w' Hrows.
  destruct (user_exists_In w e u Hex) as [Hin _].
  unfold user_exists, Db.select_by_email in *. rewrite Hrows.
  rewrite (filter_email_write u u' e (rows w) Hnd Hin Hid Hem).
  injection Hex as Hex. apply scalar_one_or_none_found in Hex. rewrite Hex.
  cbn. rewrite Hid, Z.eqb_refl. reflexivity.
Qed.

Lemma table_ok_write (w w' : World) (u u' : User) :
  table_ok w -> In u (rows w) -> id u' = id u -> email u' = email u ->
  rows w' = Db.write u' (rows w) -> next_id w' = next_id w ->
  table_ok w'.
Proof.
  unfold table_ok. intros (Hid & Hem & Hlt) Hin Hi He Hrows Hnext.
  rewrite Hrows, Hnext, map_id_write, (map_email_write u u' _ Hid Hin Hi He).
  split; [exact Hid|split; [exact Hem|]].
  unfold Db.write. apply List.Forall_forall. intros x Hx.
  apply List.in_map_iff in Hx. destruct Hx as (y & <- & Hy).
  rewrite List.Forall_forall in Hlt.
  destruct (Z.eqb_spec (id y) (id u')) as [E|_]; [rewrite <- E|]; exact (Hlt y Hy).
Qed.

Lemma table_ok_same (w w' : World) :
  table_ok w -> rows w' = rows w -> next_id w' = next_id w -> table_ok w'.
Proof. unfold table_ok. intros H -> ->. exact H. Qed.

Lemma existsb_email_In (e : string) (l : list User) :
  List.existsb (fun u => String.eqb (email u) e) l = false ->
  ~ In e (List.map email l).
Proof.
  intros H Hin. apply List.in_map_iff in Hin. destruct Hin as (x & Hx & Hin).
  assert (Ht : List.existsb (fun u => String.eqb (email u) e) l = true).
  { apply List.existsb_exists. exists x. split; [exact Hin|].
    apply String.eqb_eq. exact Hx. }
  rewrite Ht in H. discriminate H.
Qed.

Lemma table_ok_add (w : World) (e un h : string) (v a : bool) :
  table_ok w -> table_ok (snd (Db.add_commit_refresh e un h v a w)).
Proof.
  intros Hok. unfold Db.add_commit_refresh.
  destruct (List.existsb _ _) eqn:Hfree; [exact Hok|].
  destruct Hok as (Hid & Hem & Hlt). unfold table_ok. cbn [snd rows next_id].
  rewrite !List.map_app. cbn [List.map id email].
  rewrite List.Forall_forall in Hlt.
  split; [|split].
  - apply NoDup_app. split; [exact Hid|]. split; [|apply NoDup_singleton].
    intros x Hx Hx'. apply list_elem_of_In in Hx. apply list_elem_of_In in Hx'.
    destruct Hx' as [<-|[]].
    apply List.in_map_iff in Hx. destruct Hx as (y & Hy & Hin).
    specialize (Hlt y Hin). lia.
  - apply NoDup_app. split; [exact Hem|]. split; [|apply NoDup_singleton].
    intros x Hx Hx'. apply list_elem_of_In in Hx. apply list_elem_of_In in Hx'.
    destruct Hx' as [<-|[]].
    exact (existsb_email_In _ _ Hfree Hx).
  - apply List.Forall_forall. intros x Hx. apply List.in_app_iff in Hx.
    destruct Hx as [Hx|[<-|[]]]; [specialize (Hlt x Hx); lia|cbn; lia].
Qed.


Lemma authenticate_unlocked_next_id (u : User) (password : string) (w : World) :
  next_id (snd (authenticate_unlocked u password w)) = next_id w.
Proof.
  unfold authenticate_unlocked. destruct (is_active u); [|reflexivity]. cbn [negb].
  unfold bind at 1. unfold verify_password at 1.
  destruct (Passlib.verify bcrypt_verify password (hashed_password u)) as [[|]|ex];
    cbn [negb]; [| |reflexivity].
  - destruct (0 <? failed_login_attempts u); issue_tokens; reflexivity.
  - unfold bind, datetime_now, ret, Db.commit.
    destruct (MAX_FAILED_ATTEMPTS <=? _); reflexivity.
Qed.

Lemma authenticate_user_next_id (e password : string) (w : World) :
  next_id (snd (authenticate_user e password w)) = next_id w.
Proof.
  unfold authenticate_user. unfold bind at 1. unfold Db.select_by_email at 1.
  destruct (Db.scalar_one_or_none _) as [[u|]|ex]; [|reflexivity|reflexivity].
  destruct (account_locked_until u) as [until|];
    [|apply authenticate_unlocked_next_id].
  unfold bind at 1. unfold datetime_now at 1.
  unfold bind at 1. unfold lift at 1. unfold before_stored.
  destruct aware_timestamps; [|reflexivity].
  destruct (_ <? until); [reflexivity|].
  unfold bind at 1. unfold Db.commit at 1.
  rewrite authenticate_unlocked_next_id. reflexivity.
Qed.

Lemma select_by_email_claim_found (v : Jose.jvalue) (w w' : World) (u : User) :
  select_by_email_claim v w = (Ret (Some u), w') -> In u (rows w) /\ w' = w.
Proof.
  destruct v as [s|n|b]; cbn [select_by_email_claim]; try discriminate.
  intros H.
  assert (Hw : w' = w) by (unfold Db.select_by_email in H; inversion H; reflexivity).
  subst w'. split; [|reflexivity].
  exact (proj1 (user_exists_In w s u H)).
Qed.

Lemma select_by_email_claim_world (v : Jose.jvalue) (w : World) :
  snd (select_by_email_claim v w) = w.
Proof. destruct v; reflexivity. Qed.

(** [verify_email] writes at most the [is_verified] column of one stored
    row. *)
Lemma verify_email_rows (token : Jose.token) (w : World) :
  next_id (snd (verify_email token w)) = next_id w
  /\ (rows (snd (verify_email token w)) = rows w
      \/ exists u, In u (rows w)
                   /\ rows (snd (verify_email token w))
                      = Db.write (set_is_verified true u) (rows w)).
Proof.
  destruct (verify_email token w) as [r w'] eqn:H. cbn [snd]. revert H.
  unfold verify_email. unfold bind at 1. rewrite verify_token_world.
  destruct (verify_token_at _ token _) as [payload|ex].
  2: { intros H; inversion H; split; [reflexivity|left; reflexivity]. }
  destruct (falsy_payload payload).
  { intros H; inversion H; split; [reflexivity|left; reflexivity]. }
  destruct (payload ≫= _) as [v|].
  2: { intros H; inversion H; split; [reflexivity|left; reflexivity]. }
  destruct (negb (truthy v)).
  { intros H; inversion H; split; [reflexivity|left; reflexivity]. }
  unfold bind at 1.
  pose proof (select_by_email_claim_world v (tick_clock w)) as Hw.
  destruct (select_by_email_claim v (tick_clock w)) as [[[u|]|ex] w1] eqn:Hsel;
    cbn [snd] in Hw; subst w1.
  - destruct (select_by_email_claim_found _ _ _ _ Hsel) as [Hin _].
    destruct (is_verified u).
    { intros H; inversion H; split; [reflexivity|left; reflexivity]. }
    intros H; inversion H. split; [reflexivity|]. right. exists u.
    split; [exact Hin|reflexivity].
  - intros H; inversion H; split; [reflexivity|left; reflexivity].
  - intros H; inversion H; split; [reflexivity|left; reflexivity].
Qed.

(** [reset_password] writes at most one stored row, keeping its key and
    address. *)
Lemma reset_password_rows (token : Jose.token) (new_password : string) (w : World) :
  next_id (snd (reset_password token new_password w)) = next_id w
  /\ (rows (snd (reset_password token new_password w)) = rows w
      \/ exists u u', In u (rows w) /\ id u' = id u /\ email u' = email u
                      /\ is_active u' = is_active u
                      /\ rows (snd (reset_password token new_password w))
                         = Db.write u' (rows w)).
Proof.
  destruct (reset_password token new_password w) as [r w'] eqn:H. cbn [snd]. revert H.
  unfold reset_password. unfold bind at 1. unfold lift at 1.
  destruct (Validators.is_strong_password settings new_password) as [ok|ex].
  2: { intros H; inversion H; split; [reflexivity|left; reflexivity]. }
  unfold bind at 1. rewrite verify_token_world.
  destruct (verify_token_at _ token _) as [payload|ex].
  2: { intros H; inversion H; split; [reflexivity|left; reflexivity]. }
  destruct (falsy_payload payload).
  { intros H; inversion H; split; [reflexivity|left; reflexivity]. }
  destruct (payload ≫= _) as [v|].
  2: { intros H; inversion H; split; [reflexivity|left; reflexivity]. }
  destruct (negb (truthy v)).
  { intros H; inversion H; split; [reflexivity|left; reflexivity]. }
  unfold bind at 1.
  pose proof (select_by_email_claim_world v (tick_clock w)) as Hw.
  destruct (select_by_email_claim v (tick_clock w)) as [[[u|]|ex] w1] eqn:Hsel;
    cbn [snd] in Hw; subst w1.
  - destruct (select_by_email_claim_found _ _ _ _ Hsel) as [Hin _].
    unfold bind at 1. unfold get_password_hash at 1.
    destruct (Passlib.too_long new_password).
    { intros H; inversion H; split; [reflexivity|left; reflexivity]. }
    destruct (Passlib.has_null new_password).
    { intros H; inversion H; split; [reflexivity|left; reflexivity]. }
    intros H; inversion H. split; [reflexivity|]. right. exists u. eexists.
    split; [exact Hin|]. split; [|split; [|split]]; [| | |reflexivity]; reflexivity.
  - intros H; inversion H; split; [reflexivity|left; reflexivity].
  - intros H; inversion H; split; [reflexivity|left; reflexivity].
Qed.


Lemma filter_unique {K : Type} (f : User -> K) (eqb : K -> K -> bool) (k : K)
  (l : list User) :
  (forall a b, eqb a b = true -> a = b) ->
  NoDup (List.map f l) ->
  (List.length (List.filter (fun x => eqb (f x) k) l) <= 1)%nat.
Proof.
  intros Heq. induction l as [|a l IH]; cbn [List.map List.filter]; intros Hnd;
    [cbn; lia|].
  apply NoDup_cons in Hnd. destruct Hnd as [Hna Hnd].
  destruct (eqb (f a) k) eqn:Ea; [|exact (IH Hnd)].
  assert (Hnil : List.filter (fun x => eqb (f x) k) l = []).
  { destruct (List.filter (fun x => eqb (f x) k) l) as [|b r] eqn:Ef; [reflexivity|].
    exfalso. apply Hna. apply list_elem_of_In.
    assert (Hb : In b (List.filter (fun x => eqb (f x) k) l))
      by (rewrite Ef; left; reflexivity).
    apply List.filter_In in Hb. destruct Hb as [Hb Eb].
    rewrite (Heq _ _ Ea), <- (Heq _ _ Eb). apply List.in_map. exact Hb. }
  rewrite Hnil. cbn. lia.
Qed.

Lemma scalar_one_or_none_unique (l : list User) :
  (List.length l <= 1)%nat -> exists found, Db.scalar_one_or_none l = Ret found.
Proof.
  destruct l as [|a [|b l]]; cbn; intros H; [eexists; reflexivity..|lia].
Qed.

Lemma register_user_world (e un password : string) (w : World) :
  (rows (snd (register_user e un password w)) = rows w
   /\ next_id (snd (register_user e un password w)) = next_id w)
  \/ exists h, snd (register_user e un password w)
               = snd (Db.add_commit_refresh e un h false true (draw_salt w)).
Proof.
  unfold register_user, bind, lift, get_password_hash.
  destruct (Validators.is_strong_password settings password);
    [|left; split; reflexivity].
  destruct (Passlib.too_long password); [left; split; reflexivity|].
  destruct (Passlib.has_null password); [left; split; reflexivity|].
  right. exists (bcrypt_hash password (salts_drawn w)).
  destruct (Db.add_commit_refresh _ _ _ _ _ _) as [[user|ex] w']; [reflexivity|].
  destruct ex; reflexivity.
Qed.

(** X12.  The constraints of the [users] table (unique primary keys, all
    below the next key to be assigned, and unique addresses) are kept by
    every service that writes: [register_user], [authenticate_user],
    [verify_email] and [reset_password], whatever their arguments and
    whatever they answer.  In a table that meets them no lookup by
    address or by key raises. *)
Theorem table_ok_preserved (w : World) :
  table_ok w ->
  (forall e un password, table_ok (snd (register_user e un password w)))
  /\ (forall e password, table_ok (snd (authenticate_user e password w)))
  /\ (forall token, table_ok (snd (verify_email token w)))
  /\ (forall token new_password, table_ok (snd (reset_password token new_password w)))
  /\ (forall e, exists found, Db.select_by_email e w = (Ret found, w))
  /\ (forall n, exists found, Db.select_by_id n w = (Ret found, w)).
Proof.
  intros Hok. split; [|split; [|split; [|split; [|split]]]].
  - intros e un password.
    destruct (register_user_world e un password w) as [[Hrows Hn]|[h ->]];
      [exact (table_ok_same w _ Hok Hrows Hn)|].
    apply table_ok_add. exact Hok.
  - intros e password.
    pose proof (authenticate_user_next_id e password w) as Hn.
    destruct (authenticate_user e password w) as [r w'] eqn:H. cbn [snd] in *.
    destruct (authenticate_user_rows _ _ _ _ _ H)
      as [Hrows|(u & u' & Hex & (Hid & Hem & _) & Hrows)].
    + exact (table_ok_same w w' Hok Hrows Hn).
    + destruct (user_exists_In w e u Hex) as [Hin _].
      exact (table_ok_write w w' u u' Hok Hin Hid Hem Hrows Hn).
  - intros token. destruct (verify_email_rows token w) as [Hn [Hrows|(u & Hin & Hrows)]].
    + exact (table_ok_same w _ Hok Hrows Hn).
    + exact (table_ok_write w _ u (set_is_verified true u) Hok Hin eq_refl eq_refl Hrows Hn).
  - intros token new_password.
    destruct (reset_password_rows token new_password w)
      as [Hn [Hrows|(u & u' & Hin & Hid & Hem & _ & Hrows)]].
    + exact (table_ok_same w _ Hok Hrows Hn).
    + exact (table_ok_write w _ u u' Hok Hin Hid Hem Hrows Hn).
  - intros e. destruct Hok as (_ & Hem & _). unfold Db.select_by_email.
    destruct (scalar_one_or_none_unique _
                (filter_unique email String.eqb e (rows w)
                   (fun a b => proj1 (String.eqb_eq a b)) Hem)) as [found ->].
    exists found. reflexivity.
  - intros n. destruct Hok as (Hid & _ & _). unfold Db.select_by_id.
    destruct (scalar_one_or_none_unique _
                (filter_unique id Z.eqb n (rows w)
                   (fun a b => proj1 (Z.eqb_eq a b)) Hid)) as [found ->].
    exists found. reflexivity.
Qed.

(** ** Repeated failures *)

Lemma authenticate_user_one_failure (w : World) (e password : string) (u : User) :
  NoDup (List.map id (rows w)) ->
  user_exists w e u ->
  is_active u = true ->
  account_locked_until u = None ->
  Passlib.verify bcrypt_verify password (hashed_password u) = Ret false ->
  let locked := MAX_FAILED_ATTEMPTS <=? failed_login_attempts u + 1 in
  let u1 :=
    {| id := id u; email := email u; username := username u;
       hashed_password := hashed_password u; is_verified := is_verified u;
       is_active := is_active u;
       failed_login_attempts := failed_login_attempts u + 1;
       last_failed_login := Some (clock (clock_reads w));
       account_locked_until :=
         if locked
         then Some (clock (S (clock_reads w)) + timedelta_minutes LOCKOUT_DURATION_MINUTES)
         else None |} in
  let w1 := snd (authenticate_user e password w) in
  user_exists w1 e u1
  /\ NoDup (List.map id (rows w1))
  /\ clock_reads w1 = ((if locked then 2 else 1) + clock_reads w)%nat
  /\ hash_checks w1 = S (hash_checks w).
Proof.
  intros Hnd Hex Hact Hnone Hv. cbv zeta.
  assert (Hlock : locked_at (clock (clock_reads w)) u = false)
    by (unfold locked_at; rewrite Hnone; reflexivity).
  rewrite (authenticate_user_not_locked w e password u Hex (or_introl Hnone) Hlock).
  unfold user_after_lockout_check, world_after_lockout_check. rewrite Hnone.
  rewrite (authenticate_unlocked_failed_password w password u Hact Hv).
  cbn [snd rows clock_reads hash_checks]. rewrite Hnone.
  split; [|split; [|split]]; try reflexivity.
  - eapply (user_exists_write w e u); [exact Hnd|exact Hex| | |reflexivity]; reflexivity.
  - rewrite map_id_write. exact Hnd.
Qed.

(** X13.  Wrong passwords in a row.  Start from a stored, active user
    without a lockout whose counter is [c], in a table with unique keys,
    and make [k + 1] login attempts with a password the hash check
    rejects, where [c + k + 1] is at most 5.  Afterwards the stored user
    has counter [c + k + 1], [last_failed_login] is the clock reading of
    the last attempt, and nothing else of the account has changed, except
    that the account is locked exactly when the counter has reached 5:
    until 15 minutes after the clock reading that follows.  Each attempt
    ran one hash check.  All this is so on every database, since no
    lockout time is stored before the last attempt.  Once the account is
    locked, the next attempt with any password makes no hash check and
    writes nothing: on a database that returns stored times with their
    zone it answers [None] when made before that time, and on one that
    returns them naive (SQLite, the default) it raises [TypeError]
    whenever it is made. *)
Theorem lockout_after_repeated_failures
  (k : nat) (w : World) (e password : string) (u : User) :
  NoDup (List.map id (rows w)) ->
  user_exists w e u ->
  is_active u = true ->
  account_locked_until u = None ->
  Passlib.verify bcrypt_verify password (hashed_password u) = Ret false ->
  failed_login_attempts u + Z.of_nat (S k) <= MAX_FAILED_ATTEMPTS ->
  let locked := MAX_FAILED_ATTEMPTS <=? failed_login_attempts u + Z.of_nat (S k) in
  let until :=
    clock (clock_reads w + S k) + timedelta_minutes LOCKOUT_DURATION_MINUTES in
  let u' :=
    {| id := id u; email := email u; username := username u;
       hashed_password := hashed_password u; is_verified := is_verified u;
       is_active := is_active u;
       failed_login_attempts := failed_login_attempts u + Z.of_nat (S k);
       last_failed_login := Some (clock (clock_reads w + k));
       account_locked_until := if locked then Some until else None |} in
  let w' := login_attempts (S k) e password w in
  user_exists w' e u'
  /\ clock_reads w' = (clock_reads w + S k + (if locked then 1 else 0))%nat
  /\ hash_checks w' = (hash_checks w + S k)%nat
  /\ (locked = true ->
      forall any_password,
        (aware_timestamps = true ->
         clock (clock_reads w') < until ->
         authenticate_user e any_password w' = (Ret None, tick_clock w'))
        /\ (aware_timestamps = false ->
            authenticate_user e any_password w' = (Raise TypeError, tick_clock w'))).
Proof.
  revert w u. induction k as [|k IH]; intros w u Hnd Hex Hact Hnone Hv Hle; cbv zeta.
  - destruct (authenticate_user_one_failure w e password u Hnd Hex Hact Hnone Hv)
      as (Hex1 & _ & Hc1 & Hh1).
    cbn [login_attempts]. change (Z.of_nat 1) with 1.
    rewrite Nat.add_0_r, Nat.add_1_r.
    split; [exact Hex1|]. split; [|split].
    + rewrite Hc1. destruct (MAX_FAILED_ATTEMPTS <=? _); lia.
    + rewrite Hh1. lia.
    + intros Hl p'. rewrite Hl in Hex1. split.
      * intros Ha Hlt.
        exact (authenticate_user_while_locked _ e p' _ _ Ha Hex1 eq_refl Hlt).
      * intros Ha.
        exact (authenticate_user_naive _ e p' _ _ Ha Hex1 eq_refl).
  - destruct (authenticate_user_one_failure w e password u Hnd Hex Hact Hnone Hv)
      as (Hex1 & Hnd1 & Hc1 & Hh1).
    assert (Hnl : (MAX_FAILED_ATTEMPTS <=? failed_login_attempts u + 1) = false)
      by (apply Z.leb_gt; lia).
    rewrite Hnl in Hex1, Hc1.
    change (login_attempts (S (S k)) e password w)
      with (login_attempts (S k) e password (snd (authenticate_user e password w))).
    specialize (IH _ _ Hnd1 Hex1 Hact eq_refl Hv).
    cbn [failed_login_attempts id email username hashed_password is_verified is_active] in IH.
    assert (Hle' : failed_login_attempts u + 1 + Z.of_nat (S k) <= MAX_FAILED_ATTEMPTS) by lia.
    specialize (IH Hle'). cbv zeta in IH.
    rewrite Hc1, Hh1 in IH.
    replace (failed_login_attempts u + 1 + Z.of_nat (S k))
      with (failed_login_attempts u + Z.of_nat (S (S k))) in IH by lia.
    replace (1 + clock_reads w + S k)%nat with (clock_reads w + S (S k))%nat in IH by lia.
    replace (1 + clock_reads w + k)%nat with (clock_reads w + S k)%nat in IH by lia.
    destruct IH as (IH1 & IH2 & IH3 & IH4).
    split; [exact IH1|]. split; [exact IH2|]. split; [rewrite IH3; lia|exact IH4].
Qed.


(** ** The password policy and the address normalisation *)

Lemma len_app (a b : string) : PyStr.len (a +:+ b) = PyStr.len a + PyStr.len b.
Proof.
  induction a as [|c a IH]; [reflexivity|].
  change (PyStr.len (String c a +:+ b)) with (1 + PyStr.len (a +:+ b)).
  rewrite IH. cbn [PyStr.len]. lia.
Qed.

Lemma len_nonneg (a : string) : 0 <= PyStr.len a.
Proof. induction a as [|c a IH]; cbn [PyStr.len]; lia. Qed.

Lemma search_app (cls : ascii -> bool) (a b : string) :
  PyStr.search cls (a +:+ b) = PyStr.search cls a || PyStr.search cls b.
Proof.
  induction a as [|c a IH]; [reflexivity|].
  change (PyStr.search cls (String c a +:+ b)) with (cls c || PyStr.search cls (a +:+ b)).
  rewrite IH. cbn [PyStr.search]. apply orb_assoc.
Qed.

Lemma search_middle (cls : ascii -> bool) (a p b : string) :
  PyStr.search cls p = true -> PyStr.search cls (a +:+ p +:+ b) = true.
Proof.
  intros H. rewrite !search_app, H. cbn [orb]. apply orb_true_r.
Qed.

(** X14.  The password policy sets lower bounds only: a password it
    accepts is still accepted after any characters are put before it and
    after it, so no maximum length and no forbidden character exists. *)
Theorem validate_password_strength_extension (before password after : string) :
  Validators.validate_password_strength settings password = (true, "") ->
  Validators.validate_password_strength settings (before +:+ password +:+ after)
  = (true, "").
Proof.
  unfold Validators.validate_password_strength. intros H.
  destruct (Z.ltb_spec (PyStr.len password) (PASSWORD_MIN_LENGTH settings)) as [|Hlen];
    [discriminate H|].
  destruct (Z.ltb_spec (PyStr.len (before +:+ password +:+ after))
              (PASSWORD_MIN_LENGTH settings)) as [Hlt|_].
  { rewrite !len_app in Hlt.
    pose proof (len_nonneg before). pose proof (len_nonneg after). lia. }
  repeat match type of H with
  | context [?toggle && negb (PyStr.search ?cls password)] =>
      destruct toggle; cbn [andb] in *;
      [let E := fresh "E" in
       destruct (PyStr.search cls password) eqn:E; [|discriminate H];
       rewrite (search_middle cls before password after E); cbn [negb] in *|]
  end; reflexivity.
Qed.


Lemma is_space_lower_char (c : ascii) : PyStr.is_space (PyStr.lower_char c) = PyStr.is_space c.
Proof. destruct c as [[] [] [] [] [] [] [] []]; vm_compute; reflexivity. Qed.

Lemma lower_char_idem (c : ascii) : PyStr.lower_char (PyStr.lower_char c) = PyStr.lower_char c.
Proof. destruct c as [[] [] [] [] [] [] [] []]; vm_compute; reflexivity. Qed.

Lemma lower_idem (s : string) : PyStr.lower (PyStr.lower s) = PyStr.lower s.
Proof.
  induction s as [|c s IH]; [reflexivity|].
  cbn [PyStr.lower]. rewrite lower_char_idem, IH. reflexivity.
Qed.

Lemma lstrip_lower (s : string) : PyStr.lstrip (PyStr.lower s) = PyStr.lower (PyStr.lstrip s).
Proof.
  induction s as [|c s IH]; [reflexivity|].
  cbn [PyStr.lower PyStr.lstrip]. rewrite is_space_lower_char.
  destruct (PyStr.is_space c); [exact IH|reflexivity].
Qed.

Lemma rstrip_lower (s : string) : PyStr.rstrip (PyStr.lower s) = PyStr.lower (PyStr.rstrip s).
Proof.
  induction s as [|c s IH]; [reflexivity|].
  cbn [PyStr.lower PyStr.rstrip]. rewrite IH, is_space_lower_char.
  destruct (PyStr.rstrip s) as [|d r]; cbn [PyStr.lower]; [|reflexivity].
  destruct (PyStr.is_space c); reflexivity.
Qed.

Lemma rstrip_idem (s : string) : PyStr.rstrip (PyStr.rstrip s) = PyStr.rstrip s.
Proof.
  induction s as [|c s IH]; [reflexivity|].
  cbn [PyStr.rstrip]. destruct (PyStr.rstrip s) as [|d r] eqn:E.
  - destruct (PyStr.is_space c) eqn:Ec; [reflexivity|].
    cbn [PyStr.rstrip]. rewrite Ec. reflexivity.
  - change (PyStr.rstrip (String c (String d r)))
      with (match PyStr.rstrip (String d r) with
            | EmptyString => if PyStr.is_space c then EmptyString else String c EmptyString
            | String d' r' => String c (String d' r')
            end).
    rewrite IH. reflexivity.
Qed.

(** A string that does not start with whitespace still does not after
    [rstrip], so [lstrip] leaves it alone. *)
Lemma lstrip_rstrip_lstrip (s : string) :
  PyStr.lstrip (PyStr.rstrip (PyStr.lstrip s)) = PyStr.rstrip (PyStr.lstrip s).
Proof.
  induction s as [|c s IH]; [reflexivity|].
  cbn [PyStr.lstrip]. destruct (PyStr.is_space c) eqn:Ec; [exact IH|].
  cbn [PyStr.rstrip]. destruct (PyStr.rstrip s) as [|d r]; rewrite ?Ec;
    cbn [PyStr.lstrip]; rewrite Ec; reflexivity.
Qed.

Lemma strip_idem (s : string) : PyStr.strip (PyStr.strip s) = PyStr.strip s.
Proof. unfold PyStr.strip. rewrite lstrip_rstrip_lstrip. apply rstrip_idem. Qed.

Lemma normalise_idem (s : string) :
  PyStr.lower (PyStr.strip (PyStr.lower (PyStr.strip s))) = PyStr.lower (PyStr.strip s).
Proof.
  unfold PyStr.strip at 1. rewrite lstrip_lower, rstrip_lower.
  fold (PyStr.strip (PyStr.strip s)). rewrite strip_idem. apply lower_idem.
Qed.

Lemma lower_nonempty (s : string) : s <> "" -> PyStr.lower s <> "".
Proof. destruct s; [intros H; exact H|discriminate]. Qed.

(** X15.  The endpoints are insensitive to the case of an address and to
    whitespace around it.  [login] answers a form in the same way as the
    form with the address replaced by its normal form ([strip()] then
    [lower()]), as long as the address is not whitespace only;
    [forgot_password] and [resend_verification] do so for every address.
    So the address a row was stored with, which is a normal form, always
    finds that row. *)
Theorem login_address_normalised (form_data : LoginForm) (w : World) :
  let normalised := PyStr.lower (PyStr.strip (form_username form_data)) in
  (PyStr.strip (form_username form_data) <> "" ->
   login {| form_username := normalised; form_password := form_password form_data |} w
   = login form_data w)
  /\ forgot_password normalised w = forgot_password (form_username form_data) w
  /\ resend_verification normalised w = resend_verification (form_username form_data) w.
Proof.
  cbv zeta. split; [|split].
  - intros Hne. unfold login, login_try. cbn [form_username form_password].
    rewrite normalise_idem.
    assert (Hraw : form_username form_data <> "")
      by (intros E; apply Hne; rewrite E; reflexivity).
    apply lower_nonempty in Hne.
    apply String.eqb_neq in Hne, Hraw. rewrite Hne, Hraw. reflexivity.
  - unfold forgot_password. rewrite normalise_idem. reflexivity.
  - unfold resend_verification. rewrite normalise_idem. reflexivity.
Qed.


(** ** Tokens and later changes of the account *)

Lemma filter_id_write (u' : User) (n : Z) (l : list User) :
  List.filter (fun x => id x =? n) (Db.write u' l)
  = Db.write u' (List.filter (fun x => id x =? n) l).
Proof.
  unfold Db.write. induction l as [|a l IH]; [reflexivity|].
  cbn [List.map List.filter]. rewrite IH.
  assert (Hid : id (if id a =? id u' then u' else a) = id a).
  { destruct (Z.eqb_spec (id a) (id u')) as [E|_]; [symmetry; exact E|reflexivity]. }
  rewrite Hid. destruct (id a =? n); reflexivity.
Qed.

(** A write that keeps key and activity flag of the row it replaces
    leaves every key naming a user, with the same activity flag. *)
Lemma user_with_id_write (w w' : World) (n : Z) (u u0 u' : User) :
  NoDup (List.map id (rows w)) ->
  user_with_id w n u ->
  In u0 (rows w) -> id u' = id u0 -> is_active u' = is_active u0 ->
  rows w' = Db.write u' (rows w) ->
  exists u2, user_with_id w' n u2 /\ id u2 = id u /\ is_active u2 = is_active u.
Proof.
  intros Hnd Hu Hin0 Hid Hact Hrows.
  destruct (select_by_id_found _ _ _ _ Hu) as (Hin & Hn & _).
  unfold user_with_id, Db.select_by_id in *. rewrite Hrows, filter_id_write.
  injection Hu as Hu. apply scalar_one_or_none_found in Hu. rewrite Hu.
  cbn [Db.write List.map Db.scalar_one_or_none].
  destruct (Z.eqb_spec (id u) (id u')) as [E|_].
  - exists u'. split; [reflexivity|]. split; [symmetry; exact E|].
    rewrite Hid in E. rewrite (NoDup_map_id_eq _ u u0 Hnd Hin Hin0 E). exact Hact.
  - exists u. repeat split.
Qed.

Lemma get_current_user_issued (w : World) (u : User) (t : Z) :
  hmac_configured ->
  user_with_id w (id u) u ->
  Jose.timegm (clock (clock_reads w))
  <= Jose.timegm (t + timedelta_minutes (ACCESS_TOKEN_EXPIRE_MINUTES settings)) ->
  get_current_user
    (issued "access" (PyStr.str (id u)) t
       (timedelta_minutes (ACCESS_TOKEN_EXPIRE_MINUTES settings))) w
  = (Ret (Answer u), tick_clock w).
Proof.
  intros Hh Hu Ht. unfold get_current_user, bind, datetime_now.
  pose proof (issued_verifies "access" (PyStr.str (id u)) t
                (timedelta_minutes (ACCESS_TOKEN_EXPIRE_MINUTES settings))
                (clock (clock_reads w)) Hh) as Hv.
  apply Z.leb_le in Ht. rewrite Ht in Hv.
  destruct (decode_of_verified _ _ _ _ Hv) as [Hd Hty].
  rewrite Hd, issued_sub, Hty, int_of_claim_str.
  rewrite (select_by_id_tick _ _ _ Hu). reflexivity.
Qed.

(** X16.  A completed password reset revokes nothing.  Take the pair any
    successful login returned for a user, and let [reset_password]
    succeed afterwards, for that user or for another one, in a table with
    unique keys.  While the refresh token has not expired it still buys a
    new pair for an active user, and while the access token has not
    expired [get_current_user] still answers the stored user. *)
Theorem tokens_survive_password_reset
  (w0 w1 : World) (e password : string) (u1 : User) (tokens : Tokens)
  (w w2 : World) (u : User) (reset_token : Jose.token) (new_password : string) :
  authenticate_user e password w0 = (Ret (Some (u1, tokens)), w1) ->
  NoDup (List.map id (rows w)) ->
  user_with_id w (id u1) u ->
  reset_password reset_token new_password w = (Ret true, w2) ->
  exists u2 : User,
    user_with_id w2 (id u1) u2
    /\ (is_active u = true ->
        Jose.timegm (clock (clock_reads w2))
        <= Jose.timegm (clock (Nat.pred (clock_reads w1))
                        + timedelta_days (REFRESH_TOKEN_EXPIRE_DAYS settings)) ->
        exists pair w3,
          refresh_access_token (refresh_token tokens) w2 = (Ret (Some pair), w3))
    /\ (Jose.timegm (clock (clock_reads w2))
        <= Jose.timegm (clock (Nat.pred (Nat.pred (clock_reads w1)))
                        + timedelta_minutes (ACCESS_TOKEN_EXPIRE_MINUTES settings)) ->
        get_current_user (access_token tokens) w2 = (Ret (Answer u2), tick_clock w2)).
Proof.
  intros Hlogin Hnd Hu Hreset.
  destruct (authenticate_user_issued _ _ _ _ _ _ Hlogin) as (n & Hn & Hh & ->).
  rewrite Hn. cbn [Nat.pred refresh_token access_token].
  destruct (select_by_id_found _ _ _ _ Hu) as (_ & Hidu & _).
  assert (Hu2 : exists u2, user_with_id w2 (id u1) u2 /\ id u2 = id u
                           /\ is_active u2 = is_active u).
  { destruct (reset_password_rows reset_token new_password w)
      as [_ [Hrows|(v & v' & Hin & Hid & _ & Hact & Hrows)]];
      rewrite Hreset in Hrows; cbn [snd] in Hrows.
    - exists u. split; [|split; reflexivity].
      unfold user_with_id, Db.select_by_id in *. rewrite Hrows.
      injection Hu as ->. reflexivity.
    - exact (user_with_id_write w w2 (id u1) u v v' Hnd Hu Hin Hid Hact Hrows). }
  destruct Hu2 as (u2 & Hw2 & Hid2 & Hact2).
  exists u2. split; [exact Hw2|]. rewrite <- Hidu, <- Hid2 in *. split.
  - intros Hactive Ht. rewrite <- Hact2 in Hactive.
    pose proof (refresh_access_token_issued w2 u2 (clock (S n)) Hh Hw2 Ht) as Hr.
    rewrite Hactive in Hr. eexists. eexists. exact Hr.
  - intros Ht. exact (get_current_user_issued w2 u2 (clock n) Hh Hw2 Ht).
Qed.


(** [reset_password] on a token signed for a stored address, within the
    token's lifetime, with a password the policy accepts. *)
Lemma reset_password_issued (w : World) (e new_password : string) (t : Z) (u : User) :
  hmac_configured ->
  e <> "" ->
  fst (Validators.validate_password_strength settings new_password) = true ->
  Passlib.hashable new_password = true ->
  user_exists w e u ->
  Jose.timegm (clock (clock_reads w))
  <= Jose.timegm (t + timedelta_hours (PASSWORD_RESET_EXPIRE_HOURS settings)) ->
  reset_password
    (issued "password_reset" e t (timedelta_hours (PASSWORD_RESET_EXPIRE_HOURS settings)))
    new_password w
  = (Ret true,
     {| rows :=
          Db.write
            {| id := id u; email := email u; username := username u;
               hashed_password := bcrypt_hash new_password (salts_drawn w);
               is_verified := is_verified u; is_active := is_active u;
               failed_login_attempts := 0; last_failed_login := None;
               account_locked_until := None |} (rows w);
        next_id := next_id w; clock_reads := S (clock_reads w);
        salts_drawn := S (salts_drawn w); hash_checks := hash_checks w;
        outbox := outbox w |}).
Proof.
  intros Hh He Hok Hhash Hu Ht.
  unfold reset_password. unfold bind at 1. unfold lift at 1.
  rewrite (is_strong_password_accepts _ Hok).
  unfold bind at 1. rewrite (verify_token_issued _ _ _ _ _ Hh).
  apply Z.leb_le in Ht. rewrite Ht.
  rewrite falsy_stamped_payload. cbn [mbind option_bind]. rewrite issued_sub.
  rewrite (truthy_nonempty e He). cbn [negb select_by_email_claim].
  unfold bind at 1. rewrite (select_by_email_tick _ _ _ Hu).
  unfold bind at 1. rewrite (get_password_hash_hashable _ _ Hhash).
  reflexivity.
Qed.

(** The same call with a password the hasher refuses. *)
Lemma reset_password_issued_unhashable
  (w : World) (e new_password : string) (t : Z) (u : User) :
  hmac_configured ->
  e <> "" ->
  fst (Validators.validate_password_strength settings new_password) = true ->
  Passlib.hashable new_password = false ->
  user_exists w e u ->
  Jose.timegm (clock (clock_reads w))
  <= Jose.timegm (t + timedelta_hours (PASSWORD_RESET_EXPIRE_HOURS settings)) ->
  reset_password
    (issued "password_reset" e t (timedelta_hours (PASSWORD_RESET_EXPIRE_HOURS settings)))
    new_password w
  = (Raise (ValueError (Passlib.refusal new_password)),
     if Passlib.too_long new_password then tick_clock w else draw_salt (tick_clock w)).
Proof.
  intros Hh He Hok Hhash Hu Ht.
  unfold reset_password. unfold bind at 1. unfold lift at 1.
  rewrite (is_strong_password_accepts _ Hok).
  unfold bind at 1. rewrite (verify_token_issued _ _ _ _ _ Hh).
  apply Z.leb_le in Ht. rewrite Ht.
  rewrite falsy_stamped_payload. cbn [mbind option_bind]. rewrite issued_sub.
  rewrite (truthy_nonempty e He). cbn [negb select_by_email_claim].
  unfold bind at 1. rewrite (select_by_email_tick _ _ _ Hu).
  unfold bind at 1. rewrite (get_password_hash_refused _ _ Hhash).
  reflexivity.
Qed.

(** X17.  A password reset lifts a lockout.  Let a stored, active user be
    in any lockout state, for instance locked for another quarter of an
    hour, in a table with unique keys, and let the reset token requested
    for the user's address be redeemed in time with a password the policy
    accepts.  If the hasher makes a digest of that password and verifies
    the password against the digest it has just made, the login with the
    new password, attempted right after the reset, succeeds, on every
    database.  If the hasher refuses the password (more than 4096
    characters, or a NUL in it) the reset raises its [ValueError] and the
    table, with the lockout, is as before. *)
Theorem login_after_password_reset
  (w1 w1' w : World) (e new_password : string) (token : Jose.token) (u : User) :
  request_password_reset e w1 = (Ret (Some token), w1') ->
  e <> "" ->
  fst (Validators.validate_password_strength settings new_password) = true ->
  NoDup (List.map id (rows w)) ->
  user_exists w e u ->
  is_active u = true ->
  Jose.timegm (clock (clock_reads w))
  <= Jose.timegm (clock (clock_reads w1)
                  + timedelta_hours (PASSWORD_RESET_EXPIRE_HOURS settings)) ->
  (Passlib.hashable new_password = true ->
   Passlib.verify bcrypt_verify new_password (bcrypt_hash new_password (salts_drawn w))
   = Ret true ->
   exists w2 u' tokens w3,
     reset_password token new_password w = (Ret true, w2)
     /\ authenticate_user e new_password w2 = (Ret (Some (u', tokens)), w3)
     /\ same_account
          (set_hashed_password (bcrypt_hash new_password (salts_drawn w)) u) u'
     /\ failed_login_attempts u' = 0
     /\ account_locked_until u' = None)
  /\ (Passlib.hashable new_password = false ->
      exists w2,
        reset_password token new_password w
        = (Raise (ValueError (Passlib.refusal new_password)), w2)
        /\ rows w2 = rows w).
Proof.
  intros Hreq He Hok Hnd Hu Hact Ht.
  unfold request_password_reset in Hreq.
  apply bind_Ret_inv in Hreq. destruct Hreq as (found & w2 & Hsel & Hreq).
  destruct found as [user|]; [|discriminate Hreq].
  apply bind_Ret_inv in Hreq. destruct Hreq as (t & w3 & Hc & Hreq).
  unfold ret in Hreq. injection Hreq as <- _.
  assert (Hw2 : w2 = w1) by (unfold Db.select_by_email in Hsel; inversion Hsel; reflexivity).
  subst w2.
  destruct (create_password_reset_token_inv _ _ _ _ Hc) as (Hh & -> & _).
  split.
  2: { intros Hhash.
       rewrite (reset_password_issued_unhashable w e new_password _ u Hh He Hok Hhash Hu Ht).
       eexists. split; [reflexivity|].
       destruct (Passlib.too_long new_password); reflexivity. }
  intros Hhash Hv.
  rewrite (reset_password_issued w e new_password _ u Hh He Hok Hhash Hu Ht).
  match goal with
  | |- context [Db.write ?x (rows w)] => set (u' := x)
  end.
  match goal with
  | |- context [(Ret true, ?x)] => set (w2 := x)
  end.
  assert (Hu' : user_exists w2 e u').
  { apply (user_exists_write w e u u' Hnd Hu eq_refl eq_refl). reflexivity. }
  assert (Hlock : locked_at (clock (clock_reads w2)) u' = false) by reflexivity.
  exists w2, u'.
  rewrite (authenticate_user_not_locked w2 e new_password u' Hu' (or_introl eq_refl) Hlock).
  change (user_after_lockout_check u') with u'.
  change (world_after_lockout_check u' w2) with w2.
  rewrite (authenticate_unlocked_accepts w2 new_password u' Hh Hact Hv).
  eexists. eexists. split; [reflexivity|]. split; [reflexivity|].
  change (0 <? failed_login_attempts u') with false. cbv iota.
  unfold same_account. cbn. repeat split; reflexivity.
Qed.

(** ** Custom lifetimes *)

Lemma create_access_token_delta (s : string) (d : option Z) (w : World) :
  hmac_configured ->
  create_access_token {[ "sub" := Jose.PStr s ]} d w
  = (Ret (issued "access" s (clock (clock_reads w))
            (or_timedelta d (timedelta_minutes (ACCESS_TOKEN_EXPIRE_MINUTES settings)))),
     tick_clock w).
Proof.
  intros Hh. unfold create_access_token, bind, datetime_now, lift.
  fold (stamped "access" (clock (clock_reads w))
          (or_timedelta d (timedelta_minutes (ACCESS_TOKEN_EXPIRE_MINUTES settings)))
          {[ "sub" := Jose.PStr s ]}).
  rewrite (encode_issued _ _ _ _ Hh). reflexivity.
Qed.

Lemma create_refresh_token_delta (s : string) (d : option Z) (w : World) :
  hmac_configured ->
  create_refresh_token {[ "sub" := Jose.PStr s ]} d w
  = (Ret (issued "refresh" s (clock (clock_reads w))
            (or_timedelta d (timedelta_days (REFRESH_TOKEN_EXPIRE_DAYS settings)))),
     tick_clock w).
Proof.
  intros Hh. unfold create_refresh_token, bind, datetime_now, lift.
  fold (stamped "refresh" (clock (clock_reads w))
          (or_timedelta d (timedelta_days (REFRESH_TOKEN_EXPIRE_DAYS settings)))
          {[ "sub" := Jose.PStr s ]}).
  rewrite (encode_issued _ _ _ _ Hh). reflexivity.
Qed.

Lemma timegm_earlier (t d now : Z) :
  d <= -1000000 -> t <= now -> Jose.timegm (t + d) < Jose.timegm now.
Proof.
  unfold Jose.timegm. intros Hd Ht.
  assert (H1 : (t + d) / 1000000 <= (now - 1000000) / 1000000)
    by (apply Z.div_le_mono; lia).
  replace (now - 1000000) with (now + (-1) * 1000000) in H1 by lia.
  rewrite Z.div_add in H1 by lia. lia.
Qed.

(** X18.  The [expires_delta] argument of the two creators.  A delta of
    zero is not a lifetime of zero: it gives the very token the call
    without a delta gives, with the configured lifetime.  A delta of minus
    one second or less gives a token that [verify_token] refuses from the
    moment it is issued.  Any other delta replaces the configured lifetime:
    the token is accepted exactly until the second of issue time plus
    delta. *)
Theorem create_token_expires_delta (s : string) (d : Z) (w : World) :
  hmac_configured ->
  let subject : gmap string Jose.pyval := {[ "sub" := Jose.PStr s ]} in
  let t := clock (clock_reads w) in
  create_access_token subject (Some 0) w = create_access_token subject None w
  /\ create_refresh_token subject (Some 0) w = create_refresh_token subject None w
  /\ (d <> 0 ->
      exists access refresh,
        create_access_token subject (Some d) w = (Ret access, tick_clock w)
        /\ create_refresh_token subject (Some d) w = (Ret refresh, tick_clock w)
        /\ (forall now,
              verify_token_at now access "access"
              = if Jose.timegm now <=? Jose.timegm (t + d)
                then Ret (Some (stamped_payload "access" t d {[ "sub" := Jose.JStr s ]}))
                else Ret None)
        /\ (forall now,
              verify_token_at now refresh "refresh"
              = if Jose.timegm now <=? Jose.timegm (t + d)
                then Ret (Some (stamped_payload "refresh" t d {[ "sub" := Jose.JStr s ]}))
                else Ret None)
        /\ (d <= -1000000 ->
            forall now, t <= now ->
              verify_token_at now access "access" = Ret None
              /\ verify_token_at now refresh "refresh" = Ret None)).
Proof.
  intros Hh. cbv zeta. split; [|split].
  - rewrite !(create_access_token_delta _ _ _ Hh). reflexivity.
  - rewrite !(create_refresh_token_delta _ _ _ Hh). reflexivity.
  - intros Hd.
    rewrite (create_access_token_delta _ _ _ Hh), (create_refresh_token_delta _ _ _ Hh).
    unfold or_timedelta. apply Z.eqb_neq in Hd. rewrite Hd.
    eexists. eexists. split; [reflexivity|]. split; [reflexivity|].
    split; [intros now; apply (issued_verifies _ _ _ _ _ Hh)|].
    split; [intros now; apply (issued_verifies _ _ _ _ _ Hh)|].
    intros Hneg now Hnow.
    pose proof (timegm_earlier _ _ _ Hneg Hnow) as Hlt.
    apply Z.leb_gt in Hlt.
    rewrite !(issued_verifies _ _ _ _ _ Hh), Hlt. split; reflexivity.
Qed.

End Core.

(** * Properties of the task services *)

Lemma task_found (uid task_id : Z) (s : Tasks.Store) (t : Tasks.Task) :
  Tasks.get_task uid task_id s = Ret (Some t) ->
  In t (Tasks.tasks s) /\ Tasks.user_id t = uid /\ Tasks.id t = task_id.
Proof.
  unfold Tasks.get_task. intros H.
  assert (Hf : List.filter
            (fun x => (Tasks.user_id x =? uid) && (Tasks.id x =? task_id))
            (Tasks.tasks s) = [t]).
  { destruct (List.filter _ _) as [|a [|b l]]; cbn in H; try discriminate H.
    inversion H. reflexivity. }
  assert (Hin : In t (List.filter
            (fun x => (Tasks.user_id x =? uid) && (Tasks.id x =? task_id))
            (Tasks.tasks s))) by (rewrite Hf; left; reflexivity).
  apply List.filter_In in Hin. destruct Hin as [Hin Hb].
  apply andb_true_iff in Hb. destruct Hb as [Hu Hi].
  apply Z.eqb_eq in Hu, Hi. repeat split; assumption.
Qed.

Lemma task_key_eq (l : list Tasks.Task) (x y : Tasks.Task) :
  NoDup (List.map Tasks.id l) -> In x l -> In y l -> Tasks.id x = Tasks.id y -> x = y.
Proof.
  induction l as [|a l IH]; cbn [List.map]; intros Hnd Hx Hy Hid; [destruct Hx|].
  apply NoDup_cons in Hnd. destruct Hnd as [Hna Hnd].
  rewrite list_elem_of_In in Hna.
  destruct Hx as [->|Hx], Hy as [->|Hy].
  - reflexivity.
  - exfalso. apply Hna. rewrite Hid. apply List.in_map. exact Hy.
  - exfalso. apply Hna. rewrite <- Hid. apply List.in_map. exact Hx.
  - exact (IH Hnd Hx Hy Hid).
Qed.

Lemma filter_none (f : Tasks.Task -> bool) (l : list Tasks.Task) :
  (forall x, In x l -> f x = false) -> List.filter f l = [].
Proof.
  induction l as [|a l IH]; intros H; [reflexivity|].
  cbn [List.filter]. rewrite (H a (or_introl eq_refl)).
  apply IH. intros x Hx. apply H. right. exact Hx.
Qed.

Lemma task_filter_unique (uid task_id : Z) (l : list Tasks.Task) :
  NoDup (List.map Tasks.id l) ->
  Nat.le
    (List.length
       (List.filter (fun x => (Tasks.user_id x =? uid) && (Tasks.id x =? task_id)) l))
    1.
Proof.
  induction l as [|a l IH]; cbn [List.map List.filter]; intros Hnd; [cbn; lia|].
  apply NoDup_cons in Hnd. destruct Hnd as [Hna Hnd].
  destruct ((Tasks.user_id a =? uid) && (Tasks.id a =? task_id)) eqn:Ea;
    [|exact (IH Hnd)].
  rewrite filter_none; [cbn; lia|].
  intros x Hx. destruct (Z.eqb_spec (Tasks.id x) task_id) as [E|_];
    [|apply andb_false_r].
  exfalso. apply Hna. apply list_elem_of_In.
  apply andb_true_iff in Ea. destruct Ea as [_ Ea]. apply Z.eqb_eq in Ea.
  rewrite Ea, <- E. apply List.in_map. exact Hx.
Qed.

Lemma task_keys_filter (f : Tasks.Task -> bool) (l : list Tasks.Task) :
  NoDup (List.map Tasks.id l) -> NoDup (List.map Tasks.id (List.filter f l)).
Proof.
  induction l as [|a l IH]; intros Hnd; [exact Hnd|].
  cbn [List.map List.filter] in *. apply NoDup_cons in Hnd.
  destruct Hnd as [Hna Hnd].
  destruct (f a); [|exact (IH Hnd)].
  cbn [List.map]. apply NoDup_cons. split; [|exact (IH Hnd)].
  intros Hin. apply Hna. apply list_elem_of_In in Hin. apply list_elem_of_In.
  apply List.in_map_iff in Hin. destruct Hin as (y & Hy & Hin).
  apply List.filter_In in Hin. destruct Hin as [Hin _].
  rewrite <- Hy. apply List.in_map. exact Hin.
Qed.

(** With unique keys at most one row has a given key, so the lookup of a
    task never raises: it finds the row with that key if it is owned by
    the asking user, and nothing otherwise. *)
Lemma get_task_unique (uid task_id : Z) (s : Tasks.Store) :
  Tasks.keys_unique s ->
  match Tasks.get_task uid task_id s with
  | Ret (Some t) => In t (Tasks.tasks s) /\ Tasks.user_id t = uid /\ Tasks.id t = task_id
  | Ret None =>
      forall t, In t (Tasks.tasks s) -> Tasks.id t = task_id -> Tasks.user_id t <> uid
  | Raise _ => False
  end.
Proof.
  unfold Tasks.keys_unique. intros Hnd.
  destruct (Tasks.get_task uid task_id s) as [[t|]|e] eqn:H.
  - exact (task_found _ _ _ _ H).
  - intros t Hin Hid Hu. unfold Tasks.get_task in H.
    assert (Hf : In t (List.filter
              (fun x => (Tasks.user_id x =? uid) && (Tasks.id x =? task_id))
              (Tasks.tasks s))).
    { apply List.filter_In. split; [exact Hin|].
      rewrite Hu, Hid, !Z.eqb_refl. reflexivity. }
    destruct (List.filter _ _) as [|a [|b l]]; cbn in H; try discriminate H.
    destruct Hf.
  - unfold Tasks.get_task in H.
    pose proof (task_filter_unique uid task_id _ Hnd) as Hlen.
    destruct (List.filter _ _) as [|a [|b l]]; cbn in H; try discriminate H.
    cbn in Hlen. lia.
Qed.

(** X19.  A task is shown to its owner only, and the answer for a task of
    somebody else is the answer for a task that does not exist.  In a
    table with unique keys [get_single_task], asked for a positive id by
    the user [u], answers the row with that id when [u] owns it, and the
    404 [Task not found] both when another user owns it and when no row
    has the id; it never answers 500. *)
Theorem get_single_task_owner_only (task_id u : Z) (s : Tasks.Store) :
  Tasks.keys_unique s ->
  0 < task_id ->
  (forall t, In t (Tasks.tasks s) -> Tasks.id t = task_id -> Tasks.user_id t = u ->
             Tasks.get_single_task task_id u s = Answer t)
  /\ (forall t, In t (Tasks.tasks s) -> Tasks.id t = task_id -> Tasks.user_id t <> u ->
                Tasks.get_single_task task_id u s = Refused 404 "Task not found")
  /\ ((forall t, In t (Tasks.tasks s) -> Tasks.id t <> task_id) ->
      Tasks.get_single_task task_id u s = Refused 404 "Task not found")
  /\ (forall t, Tasks.get_single_task task_id u s = Answer t ->
                In t (Tasks.tasks s) /\ Tasks.user_id t = u /\ Tasks.id t = task_id).
Proof.
  intros Hnd Hpos. unfold Tasks.get_single_task.
  destruct (Z.leb_spec task_id 0) as [Hle|_]; [lia|].
  pose proof (get_task_unique u task_id s Hnd) as Hg.
  destruct (Tasks.get_task u task_id s) as [[t0|]|e]; [| |destruct Hg].
  - destruct Hg as (Hin0 & Hu0 & Hid0). split; [|split; [|split]].
    + intros t Hin Hid _. f_equal.
      apply (task_key_eq _ t0 t Hnd Hin0 Hin). rewrite Hid0, Hid. reflexivity.
    + intros t Hin Hid Hu. exfalso. apply Hu.
      rewrite <- Hu0. f_equal.
      apply (task_key_eq _ t t0 Hnd Hin Hin0). rewrite Hid0, Hid. reflexivity.
    + intros Hno. exfalso. exact (Hno t0 Hin0 Hid0).
    + intros t Ht. inversion Ht. subst t. repeat split; assumption.
  - split; [|split; [|split]].
    + intros t Hin Hid Hu. exfalso. exact (Hg t Hin Hid Hu).
    + reflexivity.
    + reflexivity.
    + intros t Ht. discriminate Ht.
Qed.

(** X20.  [delete_task] removes the asked task of the asking user and
    nothing else.  In a table with unique keys: when the user owns a task
    with the id the answer is [True], exactly that row is gone, every
    other row is kept as it was and in its place, the id can no longer be
    looked up, and one invalidation of that user's cached lists was
    requested.  Otherwise (no such id, or a task of another user) the
    answer is [False] and nothing has changed. *)
Theorem delete_task_removes_own_task_only (uid task_id : Z) (s : Tasks.Store) :
  Tasks.keys_unique s ->
  (forall t,
      In t (Tasks.tasks s) -> Tasks.id t = task_id -> Tasks.user_id t = uid ->
      exists s',
        Tasks.delete_task uid task_id s = (Ret true, s')
        /\ Tasks.tasks s'
           = List.filter (fun x => negb (Tasks.id x =? task_id)) (Tasks.tasks s)
        /\ (forall x, In x (Tasks.tasks s') <-> In x (Tasks.tasks s) /\ x <> t)
        /\ Tasks.keys_unique s'
        /\ Tasks.get_task uid task_id s' = Ret None
        /\ Tasks.invalidated s' = uid :: Tasks.invalidated s)
  /\ ((forall t, In t (Tasks.tasks s) -> Tasks.id t = task_id -> Tasks.user_id t <> uid) ->
      Tasks.delete_task uid task_id s = (Ret false, s)).
Proof.
  intros Hnd. pose proof (get_task_unique uid task_id s Hnd) as Hg.
  unfold Tasks.delete_task.
  destruct (Tasks.get_task uid task_id s) as [[t0|]|e]; [| |destruct Hg].
  - destruct Hg as (Hin0 & Hu0 & Hid0). split.
    + intros t Hin Hid Hu.
      assert (Ht : t0 = t)
        by (apply (task_key_eq _ t0 t Hnd Hin0 Hin); rewrite Hid0, Hid; reflexivity).
      subst t0. eexists. split; [reflexivity|].
      cbn [Tasks.tasks Tasks.invalidated Tasks.invalidate_user_tasks_cache Tasks.delete].
      rewrite Hid. split; [reflexivity|]. split; [|split; [|split]].
      * intros x. rewrite List.filter_In. split.
        -- intros [Hx Hne]. split; [exact Hx|]. intros ->.
           rewrite Hid, Z.eqb_refl in Hne. discriminate Hne.
        -- intros [Hx Hne]. split; [exact Hx|].
           destruct (Z.eqb_spec (Tasks.id x) task_id) as [E|_]; [|reflexivity].
           exfalso. apply Hne. apply (task_key_eq _ x t Hnd Hx Hin).
           rewrite E, Hid. reflexivity.
      * apply task_keys_filter. exact Hnd.
      * unfold Tasks.get_task. cbn [Tasks.tasks].
        rewrite filter_none; [reflexivity|].
        intros x Hx. apply List.filter_In in Hx. destruct Hx as [_ Hne].
        rewrite ?Hid in Hne.
        destruct (Tasks.id x =? task_id); [discriminate Hne|].
        apply andb_false_r.
      * reflexivity.
    + intros Hno. exfalso. exact (Hno t0 Hin0 Hid0 Hu0).
  - split; [|reflexivity].
    intros t Hin Hid Hu. exfalso. exact (Hg t Hin Hid Hu).
Qed.

(** X21.  The delete endpoint cannot touch the tasks of other users.
    Whatever positive or other id the user [u] asks to delete, in a table
    with unique keys, every task that [u] does not own is in the table
    afterwards, and the answer is the 404 [Task not found] whenever the
    id names no task of [u], be it free or owned by somebody else. *)
Theorem delete_existing_task_isolation (task_id u : Z) (s : Tasks.Store) :
  Tasks.keys_unique s ->
  let s' := snd (Tasks.delete_existing_task task_id u s) in
  (forall t, In t (Tasks.tasks s) -> Tasks.user_id t <> u -> In t (Tasks.tasks s'))
  /\ (forall t, In t (Tasks.tasks s') -> In t (Tasks.tasks s))
  /\ (0 < task_id ->
      (forall t, In t (Tasks.tasks s) -> Tasks.id t = task_id -> Tasks.user_id t <> u) ->
      Tasks.delete_existing_task task_id u s = (Refused 404 "Task not found", s)).
Proof.
  intros Hnd. cbv zeta. unfold Tasks.delete_existing_task.
  destruct (Z.leb_spec task_id 0) as [Hle|Hpos].
  { cbn [snd]. split; [intros t Hin _; exact Hin|]. split; [intros t Hin; exact Hin|].
    intros H. lia. }
  pose proof (get_task_unique u task_id s Hnd) as Hg.
  unfold Tasks.delete_task.
  destruct (Tasks.get_task u task_id s) as [[t0|]|e]; [| |destruct Hg].
  - destruct Hg as (Hin0 & Hu0 & Hid0).
    cbn [snd Tasks.tasks Tasks.invalidate_user_tasks_cache Tasks.delete].
    split; [|split].
    + intros t Hin Hu. apply List.filter_In. split; [exact Hin|].
      destruct (Z.eqb_spec (Tasks.id t) (Tasks.id t0)) as [E|_]; [|reflexivity].
      exfalso. apply Hu. rewrite (task_key_eq _ t t0 Hnd Hin Hin0 E). exact Hu0.
    + intros t Hin. apply List.filter_In in Hin. exact (proj1 Hin).
    + intros _ Hno. exfalso. exact (Hno t0 Hin0 Hid0 Hu0).
  - cbn [snd]. split; [intros t Hin _; exact Hin|]. split; [intros t Hin; exact Hin|].
    reflexivity.
Qed.

(** * Examples: the theorems at concrete requests *)

Lemma validate_password_strength_first_violation_witness :
  Validators.validate_password_strength default_settings "alice123!"
  = (false, "Password must contain at least one uppercase letter").
Proof.
  destruct (validate_password_strength_first_violation default_settings "alice123!")
    as [H _].
  apply (H Validators.RUppercase).
  - vm_compute. reflexivity.
  - intros r' Hlt. destruct r'; cbn in Hlt; try lia. vm_compute. reflexivity.
Defined.


(** Alice is locked until 2000 s and the clock reads 1000 s.  On the
    default database, which returns the stored time naive, her login
    raises [TypeError].  On a database that returns it with its zone she
    is rejected, with the right password, without a hash check. *)
Lemma authenticate_user_lockout_window_witness :
  authenticate_user default_settings Example.clock false Example.bcrypt_verify
    "alice@example.com" "Alice123!" (Example.world_of Example.alice_locked)
  = (Raise TypeError, tick_clock (Example.world_of Example.alice_locked))
  /\ exists w',
      authenticate_user default_settings Example.clock true Example.bcrypt_verify
        "alice@example.com" "Alice123!" (Example.world_of Example.alice_locked)
      = (Ret None, w')
      /\ rows w' = [Example.alice_locked]
      /\ hash_checks w' = 0%nat.
Proof.
  split.
  - destruct (authenticate_user_lockout_window default_settings Example.clock false
                Example.bcrypt_verify (Example.world_of Example.alice_locked)
                "alice@example.com" "Alice123!" Example.alice_locked 2000000000
                eq_refl eq_refl)
      as [Hnaive _].
    exact (proj1 (Hnaive eq_refl)).
  - destruct (authenticate_user_lockout_window default_settings Example.clock true
                Example.bcrypt_verify (Example.world_of Example.alice_locked)
                "alice@example.com" "Alice123!" Example.alice_locked 2000000000
                eq_refl eq_refl)
      as [_ Haware].
    destruct (Haware eq_refl) as [Hopen _].
    destruct Hopen as (w' & Hr & Hrows & Hh); [vm_compute; reflexivity|].
    exists w'. split; [exact Hr|]. split; [exact Hrows|exact Hh].
Defined.



(** An access token that expires at 100 s is accepted at 50 s. *)
Lemma verify_token_accepts_exactly_witness :
  verify_token_at default_settings 50000000 Example.access_100 "access"
  = Ret (Some (Example.payload_of_type "access" "1" 100)).
Proof.
  destruct (verify_token_accepts_exactly default_settings Example.clock 50000000
              Example.access_100 "access") as [Hiff _].
  apply Hiff. split; [split; reflexivity|]. split; reflexivity.
Defined.

(** C4 as stated fails in both directions.  The token that expires at
    100 s is still accepted at 100.5 s, when the current time is no longer
    before [exp].  And a token whose signature verifies, whose type is the
    expected one and whose [exp] lies 1000 s ahead is answered with [None],
    because its subject is not a string. *)
Lemma verify_token_accepts_after_exp_counterexample :
  (let now := 100500000 in
   let payload := Example.payload_of_type "access" "1" 100 in
   well_signed default_settings Example.access_100 payload
   /\ payload !! "type" = Some (Jose.JStr "access")
   /\ payload !! "exp" = Some (Jose.JInt 100)
   /\ verify_token_at default_settings now Example.access_100 "access" = Ret (Some payload)
   /\ ~ (now < 100 * 1000000))
  /\ (let now := 1000000000 in
      let payload := Example.access_numeric_payload in
      well_signed default_settings Example.access_numeric payload
      /\ payload !! "type" = Some (Jose.JStr "access")
      /\ payload !! "exp" = Some (Jose.JInt 2000)
      /\ now < 2000 * 1000000
      /\ verify_token_at default_settings now Example.access_numeric "access" = Ret None).
Proof.
  cbv zeta. split.
  - split; [split; reflexivity|]. split; [reflexivity|].
    split; [reflexivity|]. split; [vm_compute; reflexivity|lia].
  - split; [split; reflexivity|]. split; [reflexivity|].
    split; [reflexivity|]. split; [lia|vm_compute; reflexivity].
Qed.

(** An access token for subject "1", issued at 1000 s, is verified one
    second later with its own type. *)
Lemma token_round_trip_witness :
  let subject : gmap string Jose.pyval := {[ "sub" := Jose.PStr "1" ]} in
  let ttl := timedelta_minutes 60 in
  exists token,
    Jose.encode (stamped "access" 1000000000 ttl subject)
      (SECRET_KEY default_settings) (ALGORITHM default_settings) = Ret token
    /\ verify_token_at default_settings 1001000000 token "access"
       = Ret (Some (stamped_payload "access" 1000000000 ttl (Jose.payload_of subject)))
    /\ verify_token_at default_settings 1001000000 token "password_reset" = Ret None.
Proof.
  cbv zeta.
  destruct (Jose.encode (stamped "access" 1000000000 (timedelta_minutes 60)
                           {[ "sub" := Jose.PStr "1" ]})
              (SECRET_KEY default_settings) (ALGORITHM default_settings))
    as [token|ex] eqn:Henc; [|vm_compute in Henc; discriminate Henc].
  exists token. split; [reflexivity|].
  destruct (token_round_trip default_settings Example.clock) as (_ & _ & _ & _ & Hrt).
  destruct (Hrt "access" 1000000000 (timedelta_minutes 60)
              {[ "sub" := Jose.PStr "1" ]} token Henc)
    as (Hsame & _ & _ & _ & _ & Hother).
  split.
  - apply Hsame; [vm_compute; reflexivity|vm_compute; discriminate].
  - apply Hother. discriminate.
Defined.

(** C5 as stated fails: with the caller-supplied claims [{"sub": 5}] the
    access token is issued, and one second later (signature valid, type
    right, 60 minutes before expiry) verification with its own type answers
    [None]. *)
Lemma token_round_trip_numeric_subject_counterexample :
  let w := Example.world_of Example.alice in
  exists token w1,
    create_access_token default_settings Example.clock Example.numeric_subject None w
    = (Ret token, w1)
    /\ verify_token default_settings Example.clock token "access" w1
       = (Ret None, tick_clock w1).
Proof.
  cbv zeta. eexists. eexists. split.
  - vm_compute. reflexivity.
  - vm_compute. reflexivity.
Qed.

(** Bob registers with an address in mixed case and surrounded by blanks. *)
Lemma register_persists_normalized_user_witness :
  exists resp w' before u',
    register default_settings Example.clock false Example.bcrypt_verify Example.bcrypt_hash
      Example.bob (Example.world_of Example.alice) = (Ret resp, w')
    /\ rows w' = (before ++ [u'])%list
    /\ email u' = "bob@example.com"
    /\ is_verified u' = false
    /\ is_active u' = true.
Proof.
  destruct (register_persists_normalized_user default_settings Example.clock false
              Example.bcrypt_verify Example.bcrypt_hash Example.bob
              (Example.world_of Example.alice))
    as [Hhashed _].
  - vm_compute. discriminate.
  - vm_compute. discriminate.
  - vm_compute. discriminate.
  - vm_compute. discriminate.
  - vm_compute. discriminate.
  - vm_compute. reflexivity.
  - vm_compute. reflexivity.
  - destruct Hhashed
      as (resp & w' & before & u' & Hr & Hrows & _ & _ & He & _ & Hv & Ha);
      [vm_compute; reflexivity|].
    exists resp, w', before, u'.
    split; [exact Hr|]. split; [exact Hrows|].
    split; [rewrite He; vm_compute; reflexivity|]. split; [exact Hv|exact Ha].
Defined.

(** A reset attempted with an email-verification token on Alice's locked
    account: refused, and her row is as before. *)
Lemma reset_password_wrong_type_token_witness :
  exists w',
    reset_password default_settings Example.clock Example.bcrypt_hash
      Example.verification "Newpass1!" (Example.world_of Example.alice_locked)
    = (Ret false, w')
    /\ rows w' = [Example.alice_locked].
Proof.
  destruct (reset_password_wrong_type_token default_settings Example.clock
              Example.bcrypt_hash (Example.world_of Example.alice_locked)
              Example.verification "Newpass1!"
              (Example.payload_of_type "email_verification" "alice@example.com" 2000))
    as [(w' & Hr & Hrows & _) _].
  - reflexivity.
  - split; reflexivity.
  - reflexivity.
  - vm_compute. discriminate.
  - exists w'. split; [exact Hr|exact Hrows].
Defined.

(** A refresh token that is signed, unexpired and of type [refresh], with
    subject "abc": the call raises. *)
Lemma refresh_access_token_unguarded_int_witness :
  refresh_access_token default_settings Example.clock Example.refresh_abc
    (Example.world_of Example.alice)
  = (Raise (ValueError "invalid literal for int() with base 10: 'abc'"),
     tick_clock (Example.world_of Example.alice)).
Proof.
  destruct (refresh_access_token_unguarded_int default_settings Example.clock)
    as [Hraise _].
  apply (Hraise (Example.world_of Example.alice) Example.refresh_abc
           (Example.payload_of_type "refresh" "abc" 2000) "abc").
  - split; reflexivity.
  - reflexivity.
  - reflexivity.
  - reflexivity.
  - discriminate.
  - reflexivity.
Defined.

(** * Examples: the further properties at concrete requests *)

(** Alice, with four failures on record, logs in with her password: the
    counter and [last_failed_login] are cleared. *)
Lemma authenticate_user_accepted_password_witness :
  user_exists (Example.world_of Example.alice) "alice@example.com" Example.alice
  /\ exists u' tokens w',
       authenticate_user default_settings Example.clock false Example.bcrypt_verify
         "alice@example.com" "Alice123!" (Example.world_of Example.alice)
       = (Ret (Some (u', tokens)), w')
       /\ token_type tokens = "bearer"
       /\ failed_login_attempts u' = 0
       /\ last_failed_login u' = None
       /\ hash_checks w' = 1%nat.
Proof.
  assert (Hex : user_exists (Example.world_of Example.alice) "alice@example.com"
                  Example.alice) by reflexivity.
  split; [exact Hex|].
  destruct (authenticate_user_accepted_password default_settings Example.clock false
              Example.bcrypt_verify (Example.world_of Example.alice)
              "alice@example.com" "Alice123!" Example.alice)
    as [Hstored _];
    [reflexivity|exact Hex|reflexivity|reflexivity|reflexivity|vm_compute; discriminate|].
  destruct (Hstored (or_introl eq_refl)) as (u' & w' & Hr & _ & Hc & _ & Hl & _ & Hh).
  exists u'. eexists. exists w'.
  split; [exact Hr|]. split; [reflexivity|]. split; [exact Hc|].
  split; [exact Hl|exact Hh].
Defined.

(** Alice logs in and, one clock reading later, presents the refresh token
    of the pair: she gets a new pair.  The access token of the pair is
    refused there. *)
Lemma refresh_access_token_after_login_witness :
  exists u1 tokens w1 pair w2,
    authenticate_user default_settings Example.clock false Example.bcrypt_verify
      "alice@example.com" "Alice123!" (Example.world_of Example.alice)
    = (Ret (Some (u1, tokens)), w1)
    /\ refresh_access_token default_settings Example.clock (refresh_token tokens) w1
       = (Ret (Some pair), w2)
    /\ rows w2 = rows w1
    /\ refresh_access_token default_settings Example.clock (access_token tokens) w1
       = (Ret None, tick_clock w1).
Proof.
  destruct (authenticate_user default_settings Example.clock false Example.bcrypt_verify
              "alice@example.com" "Alice123!" (Example.world_of Example.alice))
    as [[[[u1 tokens]|]|ex] w1] eqn:Hlogin;
    [|vm_compute in Hlogin; discriminate Hlogin..].
  pose proof Hlogin as Hc. vm_compute in Hc. injection Hc as Hu1 Htok Hw1.
  destruct (refresh_access_token_after_login default_settings Example.clock false
              Example.bcrypt_verify _ _ _ _ _ _ w1 u1 Hlogin) as (H1 & _ & H3).
  - rewrite <- Hw1, <- Hu1. vm_compute. reflexivity.
  - rewrite <- Hw1. vm_compute. discriminate.
  - destruct H1 as (w2 & Hr & Hrows); [rewrite <- Hu1; reflexivity|].
    exists u1, tokens, w1. eexists. exists w2.
    split; [reflexivity|]. split; [exact Hr|]. split; [exact Hrows|exact H3].
Defined.

(** After her login Alice presents the access token: she is answered with
    her stored row.  The refresh token is refused there. *)
Lemma get_current_user_after_login_witness :
  exists u1 tokens w1 u,
    authenticate_user default_settings Example.clock false Example.bcrypt_verify
      "alice@example.com" "Alice123!" (Example.world_of Example.alice)
    = (Ret (Some (u1, tokens)), w1)
    /\ get_current_user default_settings Example.clock (access_token tokens) w1
       = (Ret (Answer u), tick_clock w1)
    /\ email u = "alice@example.com"
    /\ get_current_user default_settings Example.clock (refresh_token tokens) w1
       = (Ret credentials_exception, tick_clock w1).
Proof.
  destruct (authenticate_user default_settings Example.clock false Example.bcrypt_verify
              "alice@example.com" "Alice123!" (Example.world_of Example.alice))
    as [[[[u1 tokens]|]|ex] w1] eqn:Hlogin;
    [|vm_compute in Hlogin; discriminate Hlogin..].
  pose proof Hlogin as Hc. vm_compute in Hc. injection Hc as Hu1 Htok Hw1.
  destruct (get_current_user_after_login default_settings Example.clock false
              Example.bcrypt_verify _ _ _ _ _ _ w1 u1 Hlogin) as (H1 & H2).
  - rewrite <- Hw1, <- Hu1. vm_compute. reflexivity.
  - rewrite <- Hw1. vm_compute. discriminate.
  - exists u1, tokens, w1, u1.
    split; [reflexivity|]. split; [exact H1|].
    split; [rewrite <- Hu1; reflexivity|exact H2].
Defined.

(** On the default database.  A wrong password for Alice, the address
    written with capitals and blanks: the 401, after one hash check.  The
    same request once her account is locked until 2000 s: the 500, and no
    hash check. *)
Lemma login_refusals_witness :
  (exists w',
     login default_settings Example.clock false Example.bcrypt_verify
       {| form_username := " Alice@Example.com "; form_password := "wrong" |}
       (Example.world_of Example.alice)
     = (Ret (Refused 401 "Invalid email or password, or account is locked"), w')
     /\ hash_checks w' = 1%nat)
  /\ (login default_settings Example.clock false Example.bcrypt_verify
        {| form_username := " Alice@Example.com "; form_password := "wrong" |}
        (Example.world_of Example.alice_locked)
      = (Ret (Refused 500 "An unexpected error occurred"),
         tick_clock (Example.world_of Example.alice_locked))
      /\ hash_checks (tick_clock (Example.world_of Example.alice_locked)) = 0%nat).
Proof.
  split.
  - destruct (login_refusals default_settings Example.clock false Example.bcrypt_verify
                {| form_username := " Alice@Example.com "; form_password := "wrong" |}
                (Example.world_of Example.alice))
      as (_ & H); [discriminate|discriminate|vm_compute; reflexivity|].
    destruct (H Example.alice) as (Hstored & _); [vm_compute; reflexivity|].
    destruct (Hstored (or_introl eq_refl)) as (_ & _ & Hrej & _).
    destruct Hrej as (w' & Hr & Hh); [reflexivity|reflexivity|vm_compute; reflexivity|].
    exists w'. split; [exact Hr|exact Hh].
  - destruct (login_refusals default_settings Example.clock false Example.bcrypt_verify
                {| form_username := " Alice@Example.com "; form_password := "wrong" |}
                (Example.world_of Example.alice_locked))
      as (_ & H); [discriminate|discriminate|vm_compute; reflexivity|].
    destruct (H Example.alice_locked) as (_ & Hnaive); [vm_compute; reflexivity|].
    destruct (Hnaive eq_refl 2000000000 eq_refl) as (Hr & Hh & _).
    split; [exact Hr|exact Hh].
Defined.

(** A registration with a password of four characters is answered with
    the reason of the length rule, and nothing has happened. *)
Lemma register_refusals_witness :
  register default_settings Example.clock false Example.bcrypt_verify Example.bcrypt_hash
    {| payload_email := "carol@example.com"; payload_username := "carol";
       payload_password := "weak" |}
    (Example.world_of Example.alice)
  = (Ret (HTTPException 400 "Password must be at least 8 characters long"),
     Example.world_of Example.alice).
Proof.
  destruct (register_refusals default_settings Example.clock false Example.bcrypt_verify
              Example.bcrypt_hash
              {| payload_email := "carol@example.com"; payload_username := "carol";
                 payload_password := "weak" |}
              (Example.world_of Example.alice))
    as (H & _); [discriminate|discriminate|discriminate|
                 vm_compute; discriminate|vm_compute; discriminate|].
  apply H. vm_compute. reflexivity.
Defined.

(** A verification token is signed for Alice's address and redeemed one
    clock reading later: her row is marked as verified. *)
Lemma verify_email_of_created_token_witness :
  exists token w1 w2,
    create_email_verification_token default_settings Example.clock "alice@example.com"
      (Example.world_of Example.alice) = (Ret token, w1)
    /\ verify_email default_settings Example.clock token w1 = (Ret true, w2)
    /\ rows w2 = [set_is_verified true Example.alice].
Proof.
  destruct (create_email_verification_token default_settings Example.clock
              "alice@example.com" (Example.world_of Example.alice))
    as [[token|ex] w1] eqn:Hc; [|vm_compute in Hc; discriminate Hc].
  pose proof Hc as Hc'. vm_compute in Hc'. injection Hc' as Htok Hw1.
  destruct (verify_email_of_created_token default_settings Example.clock
              _ _ w1 _ _ Hc) as (H & _); [discriminate|].
  exists token, w1. eexists. split; [reflexivity|]. split.
  - apply (H Example.alice); [rewrite <- Hw1; reflexivity|rewrite <- Hw1; reflexivity].
  - rewrite <- Hw1. reflexivity.
Defined.

(** Alice is locked until 2000 s.  A reset token is requested for her
    address and redeemed one clock reading later: the new digest is
    stored and the lockout is gone. *)
Lemma reset_password_of_requested_token_witness :
  exists token w1 w2 u',
    request_password_reset default_settings Example.clock "alice@example.com"
      (Example.world_of Example.alice_locked) = (Ret (Some token), w1)
    /\ reset_password default_settings Example.clock Example.bcrypt_hash
         token "Newpass1!" w1 = (Ret true, w2)
    /\ rows w2 = [u']
    /\ hashed_password u' = "$2b$Newpass1!"
    /\ failed_login_attempts u' = 0
    /\ account_locked_until u' = None.
Proof.
  destruct (request_password_reset default_settings Example.clock "alice@example.com"
              (Example.world_of Example.alice_locked))
    as [[[token|]|ex] w1] eqn:Hreq; [|vm_compute in Hreq; discriminate Hreq..].
  pose proof Hreq as Hc. vm_compute in Hc. injection Hc as Htok Hw1.
  destruct (reset_password_of_requested_token default_settings Example.clock
              Example.bcrypt_hash _ _ w1 _ "Newpass1!" _ Example.alice_locked Hreq)
    as (H & _);
    [discriminate|vm_compute; reflexivity|rewrite <- Hw1; reflexivity|].
  assert (Halive : (Jose.timegm (Example.clock (clock_reads w1))
                    <=? Jose.timegm
                          (Example.clock (clock_reads (Example.world_of Example.alice_locked))
                           + timedelta_hours (PASSWORD_RESET_EXPIRE_HOURS default_settings)))
                   = true)
    by (rewrite <- Hw1; vm_compute; reflexivity).
  rewrite Halive in H.
  exists token, w1. eexists. eexists.
  split; [reflexivity|]. split; [exact H|].
  rewrite <- Hw1. repeat split.
Defined.

(** A reset of Alice's password to one that the policy accepts and that
    ends in a NUL character, with a token signed for her address: the
    hasher's refusal is the answer, and her row is as before. *)
Lemma reset_user_password_null_example :
  let new_password := "Newpass1!" +:+ String Ascii.zero EmptyString in
  let token :=
    Example.signed (Example.payload_of_type "password_reset" "alice@example.com" 2000) in
  Validators.validate_password_strength default_settings new_password = (true, "")
  /\ exists w',
      reset_user_password default_settings Example.clock Example.bcrypt_hash
        token new_password (Example.world_of Example.alice)
      = (Ret (Refused 400 "bcrypt does not allow NULL bytes in password"), w')
      /\ rows w' = [Example.alice].
Proof.
  cbv zeta. split; [vm_compute; reflexivity|].
  eexists. split; vm_compute; reflexivity.
Qed.



(** The table that holds Alice meets the constraints, and still does
    after Bob has been registered. *)
Lemma table_ok_preserved_witness :
  table_ok (Example.world_of Example.alice)
  /\ table_ok (snd (register_user default_settings Example.bcrypt_hash
                      "bob@example.com" "bob" "Bobby123!"
                      (Example.world_of Example.alice))).
Proof.
  assert (Hok : table_ok (Example.world_of Example.alice)).
  { unfold table_ok. cbn. split; [apply NoDup_singleton|].
    split; [apply NoDup_singleton|]. constructor; [reflexivity|constructor]. }
  split; [exact Hok|].
  destruct (table_ok_preserved default_settings Example.clock false Example.bcrypt_verify
              Example.bcrypt_hash (Example.world_of Example.alice) Hok) as (H & _).
  apply H.
Defined.

(** Alice starts with a clean record and enters a wrong password five
    times: she is locked.  At the sixth attempt, with her right password,
    the call raises [TypeError] on the default database, and answers
    [None] on one that returns the stored time with its zone. *)
Lemma lockout_after_repeated_failures_witness :
  let w := Example.world_of (Example.alice_with 0 None) in
  (let w' := login_attempts default_settings Example.clock false Example.bcrypt_verify
               5 "alice@example.com" "wrong" w in
   hash_checks w' = 5%nat
   /\ authenticate_user default_settings Example.clock false Example.bcrypt_verify
        "alice@example.com" "Alice123!" w'
      = (Raise TypeError, tick_clock w'))
  /\ (let w' := login_attempts default_settings Example.clock true Example.bcrypt_verify
                  5 "alice@example.com" "wrong" w in
      hash_checks w' = 5%nat
      /\ authenticate_user default_settings Example.clock true Example.bcrypt_verify
           "alice@example.com" "Alice123!" w'
         = (Ret None, tick_clock w')).
Proof.
  cbv zeta. split.
  - destruct (lockout_after_repeated_failures default_settings Example.clock false
                Example.bcrypt_verify 4 (Example.world_of (Example.alice_with 0 None))
                "alice@example.com" "wrong" (Example.alice_with 0 None))
      as (_ & _ & Hh & Hlocked);
      [apply NoDup_singleton|reflexivity|reflexivity|reflexivity|
       vm_compute; reflexivity|vm_compute; discriminate|].
    split; [exact Hh|].
    destruct (Hlocked eq_refl "Alice123!") as [_ Hnaive].
    exact (Hnaive eq_refl).
  - destruct (lockout_after_repeated_failures default_settings Example.clock true
                Example.bcrypt_verify 4 (Example.world_of (Example.alice_with 0 None))
                "alice@example.com" "wrong" (Example.alice_with 0 None))
      as (_ & _ & Hh & Hlocked);
      [apply NoDup_singleton|reflexivity|reflexivity|reflexivity|
       vm_compute; reflexivity|vm_compute; discriminate|].
    split; [exact Hh|].
    destruct (Hlocked eq_refl "Alice123!") as [Haware _].
    apply (Haware eq_refl). vm_compute. reflexivity.
Defined.

(** Alice's password, accepted by the default policy, between two other
    strings. *)
Lemma validate_password_strength_extension_witness :
  Validators.validate_password_strength default_settings "Alice123!" = (true, "")
  /\ Validators.validate_password_strength default_settings
       ("long " +:+ "Alice123!" +:+ " and longer")
     = (true, "").
Proof.
  assert (H : Validators.validate_password_strength default_settings "Alice123!"
              = (true, "")) by (vm_compute; reflexivity).
  split; [exact H|].
  exact (validate_password_strength_extension default_settings "long " "Alice123!"
           " and longer" H).
Defined.

(** The login form with capitals and blanks in the address is answered
    like the form with the stored address. *)
Lemma login_address_normalised_witness :
  login default_settings Example.clock false Example.bcrypt_verify
    {| form_username := "alice@example.com"; form_password := "Alice123!" |}
    (Example.world_of Example.alice)
  = login default_settings Example.clock false Example.bcrypt_verify
      {| form_username := " Alice@Example.com "; form_password := "Alice123!" |}
      (Example.world_of Example.alice).
Proof.
  destruct (login_address_normalised default_settings Example.clock false
              Example.bcrypt_verify
              {| form_username := " Alice@Example.com "; form_password := "Alice123!" |}
              (Example.world_of Example.alice)) as (H & _).
  apply H. vm_compute. discriminate.
Defined.

(** Alice logs in; afterwards her password is reset with a token signed
    for her address.  The refresh token of the earlier login still buys a
    new pair, and the earlier access token still names her. *)
Lemma tokens_survive_password_reset_witness :
  exists u1 tokens w1 w2 u2 pair w3,
    authenticate_user default_settings Example.clock false Example.bcrypt_verify
      "alice@example.com" "Alice123!" (Example.world_of Example.alice)
    = (Ret (Some (u1, tokens)), w1)
    /\ reset_password default_settings Example.clock Example.bcrypt_hash
         (Example.signed (Example.payload_of_type "password_reset" "alice@example.com" 2000))
         "Newpass1!" w1
       = (Ret true, w2)
    /\ refresh_access_token default_settings Example.clock (refresh_token tokens) w2
       = (Ret (Some pair), w3)
    /\ get_current_user default_settings Example.clock (access_token tokens) w2
       = (Ret (Answer u2), tick_clock w2)
    /\ hashed_password u2 = "$2b$Newpass1!".
Proof.
  destruct (authenticate_user default_settings Example.clock false Example.bcrypt_verify
              "alice@example.com" "Alice123!" (Example.world_of Example.alice))
    as [[[[u1 tokens]|]|ex] w1] eqn:Hlogin;
    [|vm_compute in Hlogin; discriminate Hlogin..].
  pose proof Hlogin as Hc. vm_compute in Hc. injection Hc as Hu1 Htok Hw1.
  destruct (reset_password default_settings Example.clock Example.bcrypt_hash
              (Example.signed
                 (Example.payload_of_type "password_reset" "alice@example.com" 2000))
              "Newpass1!" w1) as [[[|]|ex] w2] eqn:Hreset;
    [|rewrite <- Hw1 in Hreset; vm_compute in Hreset; discriminate Hreset..].
  pose proof Hreset as Hc. rewrite <- Hw1 in Hc. vm_compute in Hc. injection Hc as Hw2.
  destruct (tokens_survive_password_reset default_settings Example.clock false
              Example.bcrypt_verify Example.bcrypt_hash _ _ _ _ _ _ w1 w2 u1
              (Example.signed
                 (Example.payload_of_type "password_reset" "alice@example.com" 2000))
              "Newpass1!" Hlogin) as (u2 & Hu2 & Hrefresh & Hcurrent).
  - rewrite <- Hw1. apply NoDup_singleton.
  - rewrite <- Hw1, <- Hu1. vm_compute. reflexivity.
  - exact Hreset.
  - destruct Hrefresh as (pair & w3 & Hr).
    + rewrite <- Hu1. reflexivity.
    + rewrite <- Hw2, <- Hw1. vm_compute. discriminate.
    + exists u1, tokens, w1, w2, u2, pair, w3.
      split; [reflexivity|]. split; [exact Hreset|]. split; [exact Hr|].
      split; [apply Hcurrent; rewrite <- Hw2, <- Hw1; vm_compute; discriminate|].
      unfold user_with_id in Hu2. rewrite <- Hw2, <- Hu1 in Hu2.
      vm_compute in Hu2. injection Hu2 as <-. reflexivity.
Defined.


(** Alice is locked until 2000 s.  At 1001 s she redeems a reset token
    requested at 1000 s, and logs in with the new password at once, on
    the default database. *)
Lemma login_after_password_reset_witness :
  exists token w1 w2 u' tokens w3,
    request_password_reset default_settings Example.clock "alice@example.com"
      (Example.world_of Example.alice_locked) = (Ret (Some token), w1)
    /\ locked_at (Example.clock (clock_reads w1)) Example.alice_locked = true
    /\ reset_password default_settings Example.clock Example.bcrypt_hash
         token "Newpass1!" w1 = (Ret true, w2)
    /\ authenticate_user default_settings Example.clock false Example.bcrypt_verify
         "alice@example.com" "Newpass1!" w2
       = (Ret (Some (u', tokens)), w3)
    /\ account_locked_until u' = None.
Proof.
  destruct (request_password_reset default_settings Example.clock "alice@example.com"
              (Example.world_of Example.alice_locked))
    as [[[token|]|ex] w1] eqn:Hreq; [|vm_compute in Hreq; discriminate Hreq..].
  pose proof Hreq as Hc. vm_compute in Hc. injection Hc as Htok Hw1.
  destruct (login_after_password_reset default_settings Example.clock false
              Example.bcrypt_verify Example.bcrypt_hash _ _ w1 _ "Newpass1!" _
              Example.alice_locked Hreq)
    as [Hhashed _].
  - discriminate.
  - vm_compute. reflexivity.
  - rewrite <- Hw1. apply NoDup_singleton.
  - rewrite <- Hw1. reflexivity.
  - reflexivity.
  - rewrite <- Hw1. vm_compute. discriminate.
  - destruct Hhashed as (w2 & u' & tokens & w3 & Hreset & Hlogin & _ & _ & Hl);
      [vm_compute; reflexivity|rewrite <- Hw1; vm_compute; reflexivity|].
    exists token, w1, w2, u', tokens, w3.
    split; [reflexivity|]. split; [rewrite <- Hw1; vm_compute; reflexivity|].
    split; [exact Hreset|]. split; [exact Hlogin|exact Hl].
Defined.

(** An access token made with a delta of minus one minute is refused at
    the very clock reading it was issued at. *)
Lemma create_token_expires_delta_witness :
  exists access,
    create_access_token default_settings Example.clock {[ "sub" := Jose.PStr "1" ]}
      (Some (-60000000)) (Example.world_of Example.alice)
    = (Ret access, tick_clock (Example.world_of Example.alice))
    /\ verify_token_at default_settings 1000000000 access "access" = Ret None.
Proof.
  destruct (create_token_expires_delta default_settings Example.clock "1" (-60000000)
              (Example.world_of Example.alice)) as (_ & _ & H); [reflexivity|].
  destruct H as (access & refresh & Ha & _ & _ & _ & Hneg); [discriminate|].
  exists access. split; [exact Ha|].
  apply Hneg; [vm_compute; discriminate|vm_compute; discriminate].
Defined.

(** User 1 asks for task 2, which user 2 owns: not found. *)
Lemma get_single_task_owner_only_witness :
  Tasks.get_single_task 2 1 TaskExample.store = Refused 404 "Task not found".
Proof.
  destruct (get_single_task_owner_only 2 1 TaskExample.store) as (_ & H & _).
  - apply (bool_decide_unpack _). vm_compute. reflexivity.
  - reflexivity.
  - apply (H (TaskExample.task 2 2 "read")).
    + right. left. reflexivity.
    + reflexivity.
    + discriminate.
Defined.

(** User 1 deletes task 3: the two other rows stay. *)
Lemma delete_task_removes_own_task_only_witness :
  exists s',
    Tasks.delete_task 1 3 TaskExample.store = (Ret true, s')
    /\ Tasks.tasks s' = [TaskExample.task 1 1 "write"; TaskExample.task 2 2 "read"]
    /\ Tasks.invalidated s' = [1].
Proof.
  destruct (delete_task_removes_own_task_only 1 3 TaskExample.store) as (H & _).
  - apply (bool_decide_unpack _). vm_compute. reflexivity.
  - destruct (H (TaskExample.task 3 1 "sleep")) as (s' & Hd & Hrows & _ & _ & _ & Hi).
    + right. right. left. reflexivity.
    + reflexivity.
    + reflexivity.
    + exists s'. split; [exact Hd|]. split; [rewrite Hrows; reflexivity|exact Hi].
Defined.

(** User 1 asks to delete task 2, which user 2 owns: not found, and the
    table is as before. *)
Lemma delete_existing_task_isolation_witness :
  Tasks.delete_existing_task 2 1 TaskExample.store
  = (Refused 404 "Task not found", TaskExample.store).
Proof.
  destruct (delete_existing_task_isolation 2 1 TaskExample.store) as (_ & _ & H).
  - apply (bool_decide_unpack _). vm_compute. reflexivity.
  - apply H; [reflexivity|].
    intros t Hin Hid.
    destruct Hin as [<-|[<-|[<-|[]]]]; cbn in Hid; try discriminate Hid.
    discriminate.
Defined.
